(** * TMS9918A core (tms9918_core.c): register interface, VRAM port,
      status register, sprite engine and scanline renderers.

    Integers of the C code are [Z]; every narrowing store is written out
    ([u8] for [uint8_t], [u16] for [unsigned short]).  Arrays are lists
    read with [!!] and updated in place with [<[ _ := _ ]>]. *)

From Stdlib Require Import ZArith Lia.
From stdpp Require Import base list.

Local Open Scope Z_scope.

(** ** Constants of the translation unit *)

Definition VRAM_SIZE : Z := Z.shiftl 1 14.

Definition GRAPHICS_NUM_COLS : Z := 32.
Definition GRAPHICS_CHAR_WIDTH : Z := 8.
Definition TEXT_NUM_COLS : Z := 40.
Definition TEXT_CHAR_WIDTH : Z := 6.

Definition MAX_SPRITES : Z := 32.
Definition SPRITE_ATTR_BYTES : Z := 4.
Definition LAST_SPRITE_VPOS : Z := 0xD0.
Definition MAX_SCANLINE_SPRITES : Z := 4.

Definition STATUS_INT : Z := 0x80.
Definition STATUS_5S : Z := 0x40.
Definition STATUS_COL : Z := 0x20.

(** Modelled from the spec: tms9918_core.h is not part of the sources.
    The raster is 256 x 192 (section 6), there are eight registers
    R0..R7 (section 3), and the palette numbers transparent 0 and
    black 1 (section 6). *)
Definition TMS9918A_PIXELS_X : Z := 256.
Definition TMS9918A_PIXELS_Y : Z := 192.
Definition TMS_NUM_REGISTERS : Z := 8.
Definition TMS_TRANSPARENT : Z := 0.
Definition TMS_BLACK : Z := 1.

Definition TMS_REG_0 : Z := 0.
Definition TMS_REG_1 : Z := 1.
Definition TMS_REG_2 : Z := 2.
Definition TMS_REG_3 : Z := 3.
Definition TMS_REG_4 : Z := 4.
Definition TMS_REG_5 : Z := 5.
Definition TMS_REG_6 : Z := 6.
Definition TMS_REG_7 : Z := 7.

Inductive vrEmuTms9918aMode : Set :=
  | TMS_MODE_GRAPHICS_I
  | TMS_MODE_GRAPHICS_II
  | TMS_MODE_TEXT
  | TMS_MODE_MULTICOLOR.

(** ** Machine integers *)

Definition u8 (z : Z) : Z := z mod 256.
Definition u16 (z : Z) : Z := z mod 65536.

Definition is_u8 (z : Z) : Prop := 0 <= z < 256.
Definition is_u16 (z : Z) : Prop := 0 <= z < 65536.

(** C truth value of an integer. *)
Definition nonzero (z : Z) : bool := negb (z =? 0).

(** ** The device structure *)

Record VrEmuTms9918a : Type := mkTms {
  vram : list Z;
  registers : list Z;
  status : Z;
  lastMode : Z;
  currentAddress : Z;
  mode : vrEmuTms9918aMode;
  rowSpriteBits : list Z
}.

Definition set_vram (v : list Z) (t : VrEmuTms9918a) : VrEmuTms9918a :=
  mkTms v (registers t) (status t) (lastMode t) (currentAddress t) (mode t)
        (rowSpriteBits t).
Definition set_registers (r : list Z) (t : VrEmuTms9918a) : VrEmuTms9918a :=
  mkTms (vram t) r (status t) (lastMode t) (currentAddress t) (mode t)
        (rowSpriteBits t).
Definition set_status (x : Z) (t : VrEmuTms9918a) : VrEmuTms9918a :=
  mkTms (vram t) (registers t) x (lastMode t) (currentAddress t) (mode t)
        (rowSpriteBits t).
Definition set_lastMode (x : Z) (t : VrEmuTms9918a) : VrEmuTms9918a :=
  mkTms (vram t) (registers t) (status t) x (currentAddress t) (mode t)
        (rowSpriteBits t).
Definition set_currentAddress (x : Z) (t : VrEmuTms9918a) : VrEmuTms9918a :=
  mkTms (vram t) (registers t) (status t) (lastMode t) x (mode t)
        (rowSpriteBits t).
Definition set_mode (m : vrEmuTms9918aMode) (t : VrEmuTms9918a)
  : VrEmuTms9918a :=
  mkTms (vram t) (registers t) (status t) (lastMode t) (currentAddress t) m
        (rowSpriteBits t).
Definition set_rowSpriteBits (b : list Z) (t : VrEmuTms9918a)
  : VrEmuTms9918a :=
  mkTms (vram t) (registers t) (status t) (lastMode t) (currentAddress t)
        (mode t) b.

(** The two fields the sprite pass writes. *)
Definition touch (st : Z) (rb : list Z) (t : VrEmuTms9918a) : VrEmuTms9918a :=
  set_rowSpriteBits rb (set_status st t).

(** Array cell [a[i]]; the default is only met outside the array. *)
Definition cell (a : list Z) (i : Z) : Z := default 0 (a !! Z.to_nat i).

(** Array store [a[i] = x]. *)
Definition store (a : list Z) (i : Z) (x : Z) : list Z :=
  <[Z.to_nat i := x]> a.

(** [memset(a, c, n)] on the first [n] cells of [a]. *)
Definition memset (a : list Z) (c : Z) (n : Z) : list Z :=
  replicate (Z.to_nat n) (u8 c) ++ drop (Z.to_nat n) a.

(** ** Register decoding *)

Definition reg (t : VrEmuTms9918a) (r : Z) : Z := cell (registers t) r.

Definition tmsMode (t : VrEmuTms9918a) : vrEmuTms9918aMode :=
  if nonzero (Z.land (reg t TMS_REG_0) 0x02) then TMS_MODE_GRAPHICS_II
  else match Z.shiftr (Z.land (reg t TMS_REG_1) 0x18) 3 with
       | 0 => TMS_MODE_GRAPHICS_I
       | 1 => TMS_MODE_MULTICOLOR
       | 2 => TMS_MODE_TEXT
       | _ => TMS_MODE_GRAPHICS_I
       end.

Definition tmsSpriteSize (t : VrEmuTms9918a) : Z :=
  Z.shiftr (Z.land (reg t TMS_REG_1) 0x02) 1.

Definition tmsSpriteMag (t : VrEmuTms9918a) : Z :=
  Z.land (reg t TMS_REG_1) 0x01.

Definition tmsNameTableAddr (t : VrEmuTms9918a) : Z :=
  u16 (Z.shiftl (Z.land (reg t TMS_REG_2) 0x0f) 10).

Definition tmsColorTableAddr (t : VrEmuTms9918a) : Z :=
  match mode t with
  | TMS_MODE_GRAPHICS_II => u16 (Z.shiftl (Z.land (reg t TMS_REG_3) 0x80) 6)
  | _ => u16 (Z.shiftl (reg t TMS_REG_3) 6)
  end.

Definition tmsPatternTableAddr (t : VrEmuTms9918a) : Z :=
  match mode t with
  | TMS_MODE_GRAPHICS_II => u16 (Z.shiftl (Z.land (reg t TMS_REG_4) 0x04) 11)
  | _ => u16 (Z.shiftl (Z.land (reg t TMS_REG_4) 0x07) 11)
  end.

Definition tmsSpriteAttrTableAddr (t : VrEmuTms9918a) : Z :=
  u16 (Z.shiftl (Z.land (reg t TMS_REG_5) 0x7f) 7).

Definition tmsSpritePatternTableAddr (t : VrEmuTms9918a) : Z :=
  u16 (Z.shiftl (Z.land (reg t TMS_REG_6) 0x07) 11).

(** [vrEmuTms9918aDisplayEnabled] on a valid instance. *)
Definition vrEmuTms9918aDisplayEnabled (t : VrEmuTms9918a) : Z :=
  if nonzero (Z.land (reg t TMS_REG_1) 0x40) then 1 else 0.

Definition tmsMainBgColor (t : VrEmuTms9918a) : Z :=
  Z.land (if nonzero (vrEmuTms9918aDisplayEnabled t)
          then reg t TMS_REG_7 else TMS_BLACK) 0x0f.

Definition tmsMainFgColor (t : VrEmuTms9918a) : Z :=
  let c := Z.shiftr (reg t TMS_REG_7) 4 in
  if c =? TMS_TRANSPARENT then tmsMainBgColor t else c.

Definition tmsFgColor (t : VrEmuTms9918a) (colorByte : Z) : Z :=
  let c := Z.shiftr colorByte 4 in
  if c =? TMS_TRANSPARENT then tmsMainBgColor t else c.

Definition tmsBgColor (t : VrEmuTms9918a) (colorByte : Z) : Z :=
  let c := Z.land colorByte 0x0f in
  if c =? TMS_TRANSPARENT then tmsMainBgColor t else c.

(** ** Reset and the two host ports (bodies, on a valid instance) *)

Definition vrEmuTms9918aReset (t : VrEmuTms9918a) : VrEmuTms9918a :=
  let t := set_currentAddress 0 t in
  let t := set_lastMode 0 t in
  let t := set_status 0 t in
  let t := set_registers (memset (registers t) 0 TMS_NUM_REGISTERS) t in
  set_vram (memset (vram t) 0xff VRAM_SIZE) t.

Definition vrEmuTms9918aWriteAddr (t : VrEmuTms9918a) (data : Z)
  : VrEmuTms9918a :=
  if nonzero (lastMode t) then
    let t :=
      if nonzero (Z.land data 0x80) then
        let t :=
          set_registers (store (registers t) (Z.land data 0x07)
                               (u8 (Z.land (currentAddress t) 0xff))) t in
        set_mode (tmsMode t) t
      else
        set_currentAddress
          (u16 (Z.lor (currentAddress t) (Z.shiftl (Z.land data 0x3f) 8))) t
    in
    set_lastMode 0 t
  else
    let t := set_currentAddress data t in
    set_lastMode 1 t.

Definition vrEmuTms9918aWriteData (t : VrEmuTms9918a) (data : Z)
  : VrEmuTms9918a :=
  let a := currentAddress t in
  let t := set_currentAddress (u16 (a + 1)) t in
  set_vram (store (vram t) (Z.land a 0x3fff) data) t.

Definition vrEmuTms9918aReadStatus (t : VrEmuTms9918a)
  : Z * VrEmuTms9918a :=
  let tmpStatus := status t in
  let t :=
    set_status
      (u8 (Z.land (status t) (Z.lnot (Z.lor STATUS_INT STATUS_COL)))) t in
  (tmpStatus, t).

Definition vrEmuTms9918aReadData (t : VrEmuTms9918a) : Z * VrEmuTms9918a :=
  let a := currentAddress t in
  let t := set_currentAddress (u16 (a + 1)) t in
  (cell (vram t) (Z.land a 0x3fff), t).

Definition vrEmuTms9918aReadDataNoInc (t : VrEmuTms9918a) : Z :=
  cell (vram t) (Z.land (currentAddress t) 0x3fff).

Definition vrEmuTms9918aRegValue (t : VrEmuTms9918a) (r : Z) : Z :=
  cell (registers t) (Z.land r 0x07).

Definition vrEmuTms9918aVramValue (t : VrEmuTms9918a) (addr : Z) : Z :=
  cell (vram t) (Z.land addr 0x3fff).

(** ** Renderers *)

Section Render.

(** The sprite pattern fetch indexes [vram] with
    [spritePatternAddr + patternName * 8 + patternRow] and that value
    plus 16, which reach 16407 while the array ends at 16383.  A read
    past the end of the array falls on the fields that follow [vram]
    in the structure (the registers, the status byte, the latch, the
    address pointer, the cached mode and the first cells of
    [rowSpriteBits]), two of which the sprite pass writes between its
    reads.  The byte found at index [i] is therefore a function of the
    structure as it stands when the read is made, [beyond t i]; which
    field lies at which index is the compiler's layout, so the
    renderers are parametric in that function, and [fieldsBeyond]
    below is the one of the usual layout. *)
Variable beyond : VrEmuTms9918a -> Z -> Z.

Definition vramAt (t : VrEmuTms9918a) (i : Z) : Z :=
  if i <? VRAM_SIZE then cell (vram t) i else u8 (beyond t i).

(** Outcome of one turn of a loop body that may [break]. *)
Inductive slotResult : Type :=
  | SlotBreak (t : VrEmuTms9918a) (pixels : list Z)
  | SlotNext (spritesShown : Z) (t : VrEmuTms9918a) (pixels : list Z).

Definition slotState (r : slotResult) : VrEmuTms9918a :=
  match r with
  | SlotBreak t _ | SlotNext _ t _ => t
  end.

Definition slotPixels (r : slotResult) : list Z :=
  match r with
  | SlotBreak _ pixels | SlotNext _ _ pixels => pixels
  end.

(** Body of the column loop of one sprite, for the pattern bit under
    [screenX]: the pixel write, the collision test and the occupancy
    mark. *)
Definition spriteColumn (spriteColor screenX : Z)
    (t : VrEmuTms9918a) (pixels : list Z) : VrEmuTms9918a * list Z :=
  let pixels :=
    if negb (spriteColor =? TMS_TRANSPARENT)
    then store pixels screenX spriteColor else pixels in
  let t :=
    if nonzero (cell (rowSpriteBits t) screenX)
    then set_status (u8 (Z.lor (status t) STATUS_COL)) t else t in
  (set_rowSpriteBits (store (rowSpriteBits t) screenX 1) t, pixels).

(** The column loop [for (screenX = hPos; screenX < hPos + spriteSizePx;
    ++screenX, ++screenBit)]; [n] counts the turns that remain. *)
Fixpoint spriteColumns (n : nat) (spriteColor patternOffset : Z)
    (screenX screenBit patternBit patternByte : Z)
    (t : VrEmuTms9918a) (pixels : list Z) : VrEmuTms9918a * list Z :=
  match n with
  | O => (t, pixels)
  | S n' =>
    if TMS9918A_PIXELS_X <=? screenX then (t, pixels)
    else
      let '(t1, pixels1) :=
        if (0 <=? screenX)
           && nonzero (Z.land patternByte (Z.shiftr 0x80 patternBit))
        then spriteColumn spriteColor screenX t pixels
        else (t, pixels) in
      let '(patternBit1, patternByte1) :=
        if negb (nonzero (tmsSpriteMag t1))
           || nonzero (Z.land screenBit 0x01)
        then
          if patternBit + 1 =? 8
          then (0, vramAt t1 (patternOffset + 16))
          else (patternBit + 1, patternByte)
        else (patternBit, patternByte) in
      spriteColumns n' spriteColor patternOffset
                    (screenX + 1) (screenBit + 1) patternBit1 patternByte1
                    t1 pixels1
  end.

(** Body of the slot loop for slot [i]. *)
Definition spriteSlot (y spriteSizePx spriteAttrTableAddr spritePatternAddr : Z)
    (i spritesShown : Z) (t : VrEmuTms9918a) (pixels : list Z)
  : slotResult :=
  let spriteAttrAddr := spriteAttrTableAddr + i * SPRITE_ATTR_BYTES in
  let vPos := vramAt t spriteAttrAddr in
  if vPos =? LAST_SPRITE_VPOS then
    let t :=
      if Z.land (status t) STATUS_5S =? 0
      then set_status (u8 (Z.lor (status t) i)) t else t in
    SlotBreak t pixels
  else
    let vPos := if u8 (-32) <? vPos then vPos - 256 else vPos in
    let vPos := vPos + 1 in
    let patternRow := y - vPos in
    let patternRow :=
      if nonzero (tmsSpriteMag t) then Z.quot patternRow 2 else patternRow in
    if (patternRow <? 0)
       || ((if nonzero (tmsSpriteSize t) then 16 else 8) <=? patternRow)
    then SlotNext spritesShown t pixels
    else
      let spriteColor := Z.land (vramAt t (spriteAttrAddr + 3)) 0x0f in
      let t :=
        if spritesShown =? 0
        then set_rowSpriteBits
               (memset (rowSpriteBits t) 0 TMS9918A_PIXELS_X) t
        else t in
      let spritesShown := spritesShown + 1 in
      if MAX_SCANLINE_SPRITES <? spritesShown then
        let t :=
          if Z.land (status t) STATUS_5S =? 0
          then set_status (u8 (Z.lor (status t) (Z.lor STATUS_5S i))) t
          else t in
        SlotBreak t pixels
      else
        let patternName := vramAt t (spriteAttrAddr + 2) in
        let patternOffset :=
          u16 (spritePatternAddr + patternName * 8 + patternRow) in
        let hPos := vramAt t (spriteAttrAddr + 1) in
        let hPos :=
          if nonzero (Z.land (vramAt t (spriteAttrAddr + 3)) 0x80)
          then hPos - 32 else hPos in
        let patternByte := vramAt t patternOffset in
        let '(t, pixels) :=
          spriteColumns (Z.to_nat spriteSizePx) spriteColor patternOffset
                        hPos 0 0 patternByte t pixels in
        SlotNext spritesShown t pixels.

(** The slot loop [for (i = 0; i < MAX_SPRITES; ++i)]; [n] counts the
    slots that remain. *)
Fixpoint spriteSlots (n : nat)
    (y spriteSizePx spriteAttrTableAddr spritePatternAddr : Z)
    (i spritesShown : Z) (t : VrEmuTms9918a) (pixels : list Z)
  : VrEmuTms9918a * list Z :=
  match n with
  | O => (t, pixels)
  | S n' =>
    match spriteSlot y spriteSizePx spriteAttrTableAddr spritePatternAddr
                     i spritesShown t pixels with
    | SlotBreak t pixels => (t, pixels)
    | SlotNext spritesShown t pixels =>
      spriteSlots n' y spriteSizePx spriteAttrTableAddr spritePatternAddr
                  (i + 1) spritesShown t pixels
    end
  end.

Definition vrEmuTms9918aOutputSprites (t : VrEmuTms9918a) (y : Z)
    (pixels : list Z) : VrEmuTms9918a * list Z :=
  let spriteSizePx :=
    (if nonzero (tmsSpriteSize t) then 16 else 8)
    * (if nonzero (tmsSpriteMag t) then 2 else 1) in
  let spriteAttrTableAddr := tmsSpriteAttrTableAddr t in
  let spritePatternAddr := tmsSpritePatternTableAddr t in
  let t := if y =? 0 then set_status 0 t else t in
  spriteSlots (Z.to_nat MAX_SPRITES) y spriteSizePx spriteAttrTableAddr
              spritePatternAddr 0 0 t pixels.

(** [pixels[++pixelIndex] = (patternByte & 0x80) ? fgColor : bgColor;
    patternByte <<= 1;] repeated [n] times. *)
Fixpoint patternBits (n : nat) (patternByte fgColor bgColor pixelIndex : Z)
    (pixels : list Z) : Z * list Z :=
  match n with
  | O => (pixelIndex, pixels)
  | S n' =>
    let pixelIndex := pixelIndex + 1 in
    let pixels :=
      store pixels pixelIndex
            (if nonzero (Z.land patternByte 0x80) then fgColor else bgColor) in
    patternBits n' (u8 (Z.shiftl patternByte 1)) fgColor bgColor
                pixelIndex pixels
  end.

(** [pixels[++pixelIndex] = color;] repeated [n] times. *)
Fixpoint colorRun (n : nat) (color pixelIndex : Z) (pixels : list Z)
  : Z * list Z :=
  match n with
  | O => (pixelIndex, pixels)
  | S n' =>
    let pixelIndex := pixelIndex + 1 in
    colorRun n' color pixelIndex (store pixels pixelIndex color)
  end.

(** [while (++pixelIndex < limit) pixels[pixelIndex] = bgColor;] with
    [n] bounding the number of tests. *)
Fixpoint margin (n : nat) (limit bgColor pixelIndex : Z) (pixels : list Z)
  : Z * list Z :=
  let pixelIndex := pixelIndex + 1 in
  if pixelIndex <? limit then
    match n with
    | O => (pixelIndex, pixels)
    | S n' =>
      margin n' limit bgColor pixelIndex (store pixels pixelIndex bgColor)
    end
  else (pixelIndex, pixels).

Fixpoint graphicsITiles (n : nat) (t : VrEmuTms9918a)
    (namesAddr patternBaseAddr colorBaseAddr patternRow : Z)
    (tileX pixelIndex : Z) (pixels : list Z) : Z * list Z :=
  match n with
  | O => (pixelIndex, pixels)
  | S n' =>
    let pattern := vramAt t (namesAddr + tileX) in
    let patternByte := vramAt t (patternBaseAddr + pattern * 8 + patternRow) in
    let colorByte := vramAt t (colorBaseAddr + Z.quot pattern 8) in
    let fgColor := tmsFgColor t colorByte in
    let bgColor := tmsBgColor t colorByte in
    let '(pixelIndex, pixels) :=
      patternBits (Z.to_nat GRAPHICS_CHAR_WIDTH) patternByte fgColor bgColor
                  pixelIndex pixels in
    graphicsITiles n' t namesAddr patternBaseAddr colorBaseAddr patternRow
                   (tileX + 1) pixelIndex pixels
  end.

Definition vrEmuTms9918aGraphicsIScanLine (t : VrEmuTms9918a) (y : Z)
    (pixels : list Z) : VrEmuTms9918a * list Z :=
  let textRow := Z.quot y 8 in
  let patternRow := Z.rem y 8 in
  let namesAddr := u16 (tmsNameTableAddr t + textRow * GRAPHICS_NUM_COLS) in
  let patternBaseAddr := tmsPatternTableAddr t in
  let colorBaseAddr := tmsColorTableAddr t in
  let '(_, pixels) :=
    graphicsITiles (Z.to_nat GRAPHICS_NUM_COLS) t namesAddr patternBaseAddr
                   colorBaseAddr patternRow 0 (-1) pixels in
  vrEmuTms9918aOutputSprites t y pixels.

Fixpoint graphicsIITiles (n : nat) (t : VrEmuTms9918a)
    (namesAddr patternBaseAddr colorBaseAddr patternRow : Z)
    (tileX pixelIndex : Z) (pixels : list Z) : Z * list Z :=
  match n with
  | O => (pixelIndex, pixels)
  | S n' =>
    let pattern := vramAt t (namesAddr + tileX) in
    let patternByte := vramAt t (patternBaseAddr + pattern * 8 + patternRow) in
    let colorByte := vramAt t (colorBaseAddr + pattern * 8 + patternRow) in
    let fgColor := tmsFgColor t colorByte in
    let bgColor := tmsBgColor t colorByte in
    let '(pixelIndex, pixels) :=
      patternBits (Z.to_nat GRAPHICS_CHAR_WIDTH) patternByte fgColor bgColor
                  pixelIndex pixels in
    graphicsIITiles n' t namesAddr patternBaseAddr colorBaseAddr patternRow
                    (tileX + 1) pixelIndex pixels
  end.

Definition vrEmuTms9918aGraphicsIIScanLine (t : VrEmuTms9918a) (y : Z)
    (pixels : list Z) : VrEmuTms9918a * list Z :=
  let textRow := Z.quot y 8 in
  let patternRow := Z.rem y 8 in
  let namesAddr := u16 (tmsNameTableAddr t + textRow * GRAPHICS_NUM_COLS) in
  let pageThird := Z.shiftr (Z.land textRow 0x18) 3 in
  let pageOffset := Z.shiftl pageThird 11 in
  let patternBaseAddr := u16 (tmsPatternTableAddr t + pageOffset) in
  let colorBaseAddr := u16 (tmsColorTableAddr t + pageOffset) in
  let '(_, pixels) :=
    graphicsIITiles (Z.to_nat GRAPHICS_NUM_COLS) t namesAddr patternBaseAddr
                    colorBaseAddr patternRow 0 (-1) pixels in
  vrEmuTms9918aOutputSprites t y pixels.

Fixpoint textTiles (n : nat) (t : VrEmuTms9918a)
    (namesAddr patternRow fgColor bgColor : Z)
    (tileX pixelIndex : Z) (pixels : list Z) : Z * list Z :=
  match n with
  | O => (pixelIndex, pixels)
  | S n' =>
    let pattern := vramAt t (namesAddr + tileX) in
    let patternByte :=
      vramAt t (tmsPatternTableAddr t + pattern * 8 + patternRow) in
    let colorByte := vramAt t (tmsColorTableAddr t + Z.quot pattern 8) in
    let '(pixelIndex, pixels) :=
      patternBits (Z.to_nat TEXT_CHAR_WIDTH) patternByte fgColor bgColor
                  pixelIndex pixels in
    textTiles n' t namesAddr patternRow fgColor bgColor
              (tileX + 1) pixelIndex pixels
  end.

Definition vrEmuTms9918aTextScanLine (t : VrEmuTms9918a) (y : Z)
    (pixels : list Z) : VrEmuTms9918a * list Z :=
  let textRow := Z.quot y 8 in
  let patternRow := Z.rem y 8 in
  let namesAddr := u16 (tmsNameTableAddr t + textRow * TEXT_NUM_COLS) in
  let bgColor := tmsMainBgColor t in
  let fgColor := tmsMainFgColor t in
  let '(pixelIndex, pixels) := margin (Z.to_nat 8) 8 bgColor (-1) pixels in
  let pixelIndex := pixelIndex - 1 in
  let '(pixelIndex, pixels) :=
    textTiles (Z.to_nat TEXT_NUM_COLS) t namesAddr patternRow fgColor bgColor
              0 pixelIndex pixels in
  let '(_, pixels) :=
    margin (Z.to_nat TMS9918A_PIXELS_X) TMS9918A_PIXELS_X bgColor
           pixelIndex pixels in
  (t, pixels).

Fixpoint multicolorTiles (n : nat) (t : VrEmuTms9918a)
    (namesAddr patternRow : Z) (tileX pixelIndex : Z) (pixels : list Z)
  : Z * list Z :=
  match n with
  | O => (pixelIndex, pixels)
  | S n' =>
    let pattern := vramAt t (namesAddr + tileX) in
    let colorByte :=
      vramAt t (tmsPatternTableAddr t + pattern * 8 + patternRow) in
    let '(pixelIndex, pixels) :=
      colorRun 4 (tmsFgColor t colorByte) pixelIndex pixels in
    let '(pixelIndex, pixels) :=
      colorRun 4 (tmsBgColor t colorByte) pixelIndex pixels in
    multicolorTiles n' t namesAddr patternRow (tileX + 1) pixelIndex pixels
  end.

Definition vrEmuTms9918aMulticolorScanLine (t : VrEmuTms9918a) (y : Z)
    (pixels : list Z) : VrEmuTms9918a * list Z :=
  let textRow := Z.quot y 8 in
  let patternRow := Z.rem (Z.quot y 4) 2 + Z.rem textRow 4 * 2 in
  let namesAddr := u16 (tmsNameTableAddr t + textRow * GRAPHICS_NUM_COLS) in
  let '(_, pixels) :=
    multicolorTiles (Z.to_nat GRAPHICS_NUM_COLS) t namesAddr patternRow
                    0 (-1) pixels in
  vrEmuTms9918aOutputSprites t y pixels.

(** [vrEmuTms9918aScanLine] on a valid instance. *)
Definition vrEmuTms9918aScanLine (t : VrEmuTms9918a) (y : Z)
    (pixels : list Z) : VrEmuTms9918a * list Z :=
  if negb (nonzero (vrEmuTms9918aDisplayEnabled t))
     || (TMS9918A_PIXELS_Y <=? y)
  then (t, memset pixels (tmsMainBgColor t) TMS9918A_PIXELS_X)
  else
    let '(t, pixels) :=
      match mode t with
      | TMS_MODE_GRAPHICS_I => vrEmuTms9918aGraphicsIScanLine t y pixels
      | TMS_MODE_GRAPHICS_II => vrEmuTms9918aGraphicsIIScanLine t y pixels
      | TMS_MODE_TEXT => vrEmuTms9918aTextScanLine t y pixels
      | TMS_MODE_MULTICOLOR => vrEmuTms9918aMulticolorScanLine t y pixels
      end in
    let t :=
      if y =? TMS9918A_PIXELS_Y - 1
      then set_status (u8 (Z.lor (status t) STATUS_INT)) t else t in
    (t, pixels).

(** ** The sprite pass described slot by slot

    What the slot loop computes for slot [i] on line [y], as functions
    of the VRAM and the registers, which the pass never writes.  The
    attribute bytes always lie inside [vram]; the pattern bytes do when
    [slotInside] holds, and the descriptions of the pattern bits are
    those of the code for such slots. *)

Definition slotAttr (t : VrEmuTms9918a) (i : Z) : Z :=
  tmsSpriteAttrTableAddr t + i * SPRITE_ATTR_BYTES.

(** Slot [i] holds the terminator. *)
Definition slotEnds (t : VrEmuTms9918a) (i : Z) : bool :=
  vramAt t (slotAttr t i) =? LAST_SPRITE_VPOS.

Definition slotRow (t : VrEmuTms9918a) (y i : Z) : Z :=
  let vPos := vramAt t (slotAttr t i) in
  let vPos := if u8 (-32) <? vPos then vPos - 256 else vPos in
  let vPos := vPos + 1 in
  let patternRow := y - vPos in
  if nonzero (tmsSpriteMag t) then Z.quot patternRow 2 else patternRow.

(** Slot [i] is visible on line [y]. *)
Definition slotOnLine (t : VrEmuTms9918a) (y i : Z) : bool :=
  negb ((slotRow t y i <? 0)
        || ((if nonzero (tmsSpriteSize t) then 16 else 8) <=? slotRow t y i)).

Definition slotColor (t : VrEmuTms9918a) (i : Z) : Z :=
  Z.land (vramAt t (slotAttr t i + 3)) 0x0f.

Definition slotHPos (t : VrEmuTms9918a) (i : Z) : Z :=
  let hPos := vramAt t (slotAttr t i + 1) in
  if nonzero (Z.land (vramAt t (slotAttr t i + 3)) 0x80)
  then hPos - 32 else hPos.

Definition slotPatternOffset (t : VrEmuTms9918a) (y i : Z) : Z :=
  u16 (tmsSpritePatternTableAddr t
       + vramAt t (slotAttr t i + 2) * 8 + slotRow t y i).

Definition spriteSizePx (t : VrEmuTms9918a) : Z :=
  (if nonzero (tmsSpriteSize t) then 16 else 8)
  * (if nonzero (tmsSpriteMag t) then 2 else 1).

(** Index of the pattern bit under the [k]-th column of a sprite. *)
Definition patternIndex (t : VrEmuTms9918a) (k : Z) : Z :=
  if nonzero (tmsSpriteMag t) then k / 2 else k.

(** Pattern byte that holds that bit: the one at [patternOffset] for
    the first eight bits, the one 16 bytes further on after them. *)
Definition patternByteAt (t : VrEmuTms9918a) (patternOffset k : Z) : Z :=
  if patternIndex t k <? 8
  then vramAt t patternOffset else vramAt t (patternOffset + 16).

(** The pattern bit under the [k]-th column of a sprite is set. *)
Definition patternBitAt (t : VrEmuTms9918a) (patternOffset k : Z) : bool :=
  nonzero (Z.land (patternByteAt t patternOffset k)
                  (Z.shiftr 0x80 (patternIndex t k mod 8))).

(** Slot [i] has a set pattern bit at screen column [x] on line [y]. *)
Definition slotBitAt (t : VrEmuTms9918a) (y i x : Z) : bool :=
  let k := x - slotHPos t i in
  (0 <=? k) && (k <? spriteSizePx t)
  && patternBitAt t (slotPatternOffset t y i) k.

(** Both pattern bytes of slot [i] on line [y], the one at
    [patternOffset] and the one 16 bytes further on, lie inside
    [vram]. *)
Definition slotInside (t : VrEmuTms9918a) (y i : Z) : bool :=
  slotPatternOffset t y i + 16 <? VRAM_SIZE.

(** Number of slots visible on line [y] among the [n] slots from [i]. *)
Fixpoint onLineCount (n : nat) (t : VrEmuTms9918a) (y i : Z) : Z :=
  match n with
  | O => 0
  | S n' => (if slotOnLine t y i then 1 else 0) + onLineCount n' t y (i + 1)
  end.

(** None of the [n] slots from [i] holds the terminator. *)
Fixpoint noEnd (n : nat) (t : VrEmuTms9918a) (i : Z) : bool :=
  match n with
  | O => true
  | S n' => negb (slotEnds t i) && noEnd n' t (i + 1)
  end.

(** Slot [j] is rendered by a pass that stands at slot [i] with
    [spritesShown] sprites shown: no terminator from [i] to [j], [j] is
    visible, and with the visible slots before it the limit is kept. *)
Definition drawnFrom (t : VrEmuTms9918a) (y i spritesShown j : Z) : Prop :=
  i <= j
  /\ noEnd (Z.to_nat (j + 1 - i)) t i = true
  /\ slotOnLine t y j = true
  /\ spritesShown + onLineCount (Z.to_nat (j - i)) t y i
     < MAX_SCANLINE_SPRITES.

(** Slot [j] is the one that exceeds the limit in a pass that stands at
    slot [i] with [spritesShown] sprites shown: no terminator from [i]
    to [j], [j] is visible, and the visible slots before it fill the
    limit. *)
Definition fifthFrom (t : VrEmuTms9918a) (y i spritesShown j : Z) : Prop :=
  i <= j
  /\ noEnd (Z.to_nat (j + 1 - i)) t i = true
  /\ slotOnLine t y j = true
  /\ spritesShown + onLineCount (Z.to_nat (j - i)) t y i
     = MAX_SCANLINE_SPRITES.

(** Slot [j] is the fifth visible slot of line [y]. *)
Definition slotFifth (t : VrEmuTms9918a) (y j : Z) : Prop :=
  0 <= j < MAX_SPRITES /\ fifthFrom t y 0 0 j.

(** Slot [j] is rendered on line [y]. *)
Definition slotDrawn (t : VrEmuTms9918a) (y j : Z) : Prop :=
  0 <= j < MAX_SPRITES /\ drawnFrom t y 0 0 j.

(** ** The backgrounds described pixel by pixel

    Color of a background pixel as a function of the VRAM and the
    registers: [tile] is the index of the tile in its row and [bit] the
    column inside the tile, counted from the left. *)

Definition graphicsITile (t : VrEmuTms9918a)
    (namesAddr patternBaseAddr colorBaseAddr patternRow tile bit : Z) : Z :=
  let pattern := vramAt t (namesAddr + tile) in
  let patternByte := vramAt t (patternBaseAddr + pattern * 8 + patternRow) in
  let colorByte := vramAt t (colorBaseAddr + Z.quot pattern 8) in
  if Z.testbit patternByte (7 - bit)
  then tmsFgColor t colorByte else tmsBgColor t colorByte.

Definition graphicsIPixel (t : VrEmuTms9918a) (y x : Z) : Z :=
  graphicsITile t
    (u16 (tmsNameTableAddr t + Z.quot y 8 * GRAPHICS_NUM_COLS))
    (tmsPatternTableAddr t) (tmsColorTableAddr t) (Z.rem y 8)
    (x / 8) (x mod 8).

Definition graphicsIITile (t : VrEmuTms9918a)
    (namesAddr patternBaseAddr colorBaseAddr patternRow tile bit : Z) : Z :=
  let pattern := vramAt t (namesAddr + tile) in
  let patternByte := vramAt t (patternBaseAddr + pattern * 8 + patternRow) in
  let colorByte := vramAt t (colorBaseAddr + pattern * 8 + patternRow) in
  if Z.testbit patternByte (7 - bit)
  then tmsFgColor t colorByte else tmsBgColor t colorByte.

Definition graphicsIIPixel (t : VrEmuTms9918a) (y x : Z) : Z :=
  let pageOffset :=
    Z.shiftl (Z.shiftr (Z.land (Z.quot y 8) 0x18) 3) 11 in
  graphicsIITile t
    (u16 (tmsNameTableAddr t + Z.quot y 8 * GRAPHICS_NUM_COLS))
    (u16 (tmsPatternTableAddr t + pageOffset))
    (u16 (tmsColorTableAddr t + pageOffset)) (Z.rem y 8)
    (x / 8) (x mod 8).

Definition textTile (t : VrEmuTms9918a) (namesAddr patternRow tile bit : Z)
  : Z :=
  let pattern := vramAt t (namesAddr + tile) in
  let patternByte :=
    vramAt t (tmsPatternTableAddr t + pattern * 8 + patternRow) in
  if Z.testbit patternByte (7 - bit)
  then tmsMainFgColor t else tmsMainBgColor t.

(** Eight margin pixels on either side of 40 tiles of 6 pixels. *)
Definition textPixel (t : VrEmuTms9918a) (y x : Z) : Z :=
  if (x <? 8) || (248 <=? x) then tmsMainBgColor t
  else textTile t (u16 (tmsNameTableAddr t + Z.quot y 8 * TEXT_NUM_COLS))
                (Z.rem y 8) ((x - 8) / 6) ((x - 8) mod 6).

Definition multicolorTile (t : VrEmuTms9918a)
    (namesAddr patternRow tile bit : Z) : Z :=
  let pattern := vramAt t (namesAddr + tile) in
  let colorByte :=
    vramAt t (tmsPatternTableAddr t + pattern * 8 + patternRow) in
  if bit <? 4 then tmsFgColor t colorByte else tmsBgColor t colorByte.

Definition multicolorPixel (t : VrEmuTms9918a) (y x : Z) : Z :=
  multicolorTile t
    (u16 (tmsNameTableAddr t + Z.quot y 8 * GRAPHICS_NUM_COLS))
    (Z.rem (Z.quot y 4) 2 + Z.rem (Z.quot y 8) 4 * 2)
    (x / 8) (x mod 8).

End Render.

(** ** The exported functions, on an instance handle

    A handle is a pointer to the structure; [None] is [NULL].  A
    function that tests the pointer before use returns on [NULL]; one
    that reads or writes a field without the test dereferences it. *)

Inductive call (A : Type) : Type :=
  | Returns (a : A)
  | NullDereference.
Arguments Returns {A} a.
Arguments NullDereference {A}.

Module Handle.

Definition handle : Type := option VrEmuTms9918a.

(** [malloc] yields [None] or a structure of indeterminate content. *)
Definition vrEmuTms9918aNew (allocated : option VrEmuTms9918a) : handle :=
  match allocated with
  | Some raw => Some (vrEmuTms9918aReset raw)
  | None => None
  end.

Definition vrEmuTms9918aReset (h : handle) : call handle :=
  match h with
  | Some t => Returns (Some (vrEmuTms9918aReset t))
  | None => Returns None
  end.

Definition vrEmuTms9918aDestroy (h : handle) : call unit := Returns tt.

Definition vrEmuTms9918aWriteAddr (h : handle) (data : Z) : call handle :=
  match h with
  | Some t => Returns (Some (vrEmuTms9918aWriteAddr t data))
  | None => NullDereference
  end.

Definition vrEmuTms9918aWriteData (h : handle) (data : Z) : call handle :=
  match h with
  | Some t => Returns (Some (vrEmuTms9918aWriteData t data))
  | None => NullDereference
  end.

Definition vrEmuTms9918aReadStatus (h : handle) : call (Z * handle) :=
  match h with
  | Some t => let '(v, t) := vrEmuTms9918aReadStatus t in Returns (v, Some t)
  | None => NullDereference
  end.

Definition vrEmuTms9918aReadData (h : handle) : call (Z * handle) :=
  match h with
  | Some t => let '(v, t) := vrEmuTms9918aReadData t in Returns (v, Some t)
  | None => NullDereference
  end.

Definition vrEmuTms9918aReadDataNoInc (h : handle) : call Z :=
  match h with
  | Some t => Returns (vrEmuTms9918aReadDataNoInc t)
  | None => NullDereference
  end.

Definition vrEmuTms9918aScanLine (beyond : VrEmuTms9918a -> Z -> Z)
    (h : handle) (y : Z)
    (pixels : list Z) : call (handle * list Z) :=
  match h with
  | Some t =>
    let '(t, pixels) := vrEmuTms9918aScanLine beyond t y pixels in
    Returns (Some t, pixels)
  | None => Returns (None, pixels)
  end.

Definition vrEmuTms9918aRegValue (h : handle) (r : Z) : call Z :=
  match h with
  | Some t => Returns (vrEmuTms9918aRegValue t r)
  | None => Returns 0
  end.

Definition vrEmuTms9918aVramValue (h : handle) (addr : Z) : call Z :=
  match h with
  | Some t => Returns (vrEmuTms9918aVramValue t addr)
  | None => Returns 0
  end.

Definition vrEmuTms9918aDisplayEnabled (h : handle) : call Z :=
  match h with
  | Some t => Returns (vrEmuTms9918aDisplayEnabled t)
  | None => Returns 0
  end.

End Handle.

(** ** Sequences of host events *)

Inductive operation : Type :=
  | OpWriteAddr (data : Z)
  | OpWriteData (data : Z)
  | OpReadData
  | OpReadStatus
  | OpScanLine (y : Z) (pixels : list Z)
  | OpReset.

(** Arguments that fit the [uint8_t] parameters. *)
Definition operation_ok (op : operation) : Prop :=
  match op with
  | OpWriteAddr data | OpWriteData data => is_u8 data
  | OpScanLine y _ => is_u8 y
  | OpReadData | OpReadStatus | OpReset => True
  end.

Definition perform (beyond : VrEmuTms9918a -> Z -> Z) (t : VrEmuTms9918a)
    (op : operation) : VrEmuTms9918a :=
  match op with
  | OpWriteAddr data => vrEmuTms9918aWriteAddr t data
  | OpWriteData data => vrEmuTms9918aWriteData t data
  | OpReadData => snd (vrEmuTms9918aReadData t)
  | OpReadStatus => snd (vrEmuTms9918aReadStatus t)
  | OpScanLine y pixels => fst (vrEmuTms9918aScanLine beyond t y pixels)
  | OpReset => vrEmuTms9918aReset t
  end.

Definition run (beyond : VrEmuTms9918a -> Z -> Z) (t : VrEmuTms9918a)
    (ops : list operation) : VrEmuTms9918a :=
  fold_left (perform beyond) ops t.

(** Successive [write_data] calls, one per byte of [l]. *)
Fixpoint writeAll (t : VrEmuTms9918a) (l : list Z) : VrEmuTms9918a :=
  match l with
  | [] => t
  | b :: l' => writeAll (vrEmuTms9918aWriteData t b) l'
  end.

(** [n] successive [read_data] calls and the bytes they return. *)
Fixpoint readAll (n : nat) (t : VrEmuTms9918a) : list Z * VrEmuTms9918a :=
  match n with
  | O => ([], t)
  | S n' =>
    let '(b, t) := vrEmuTms9918aReadData t in
    let '(bs, t) := readAll n' t in
    (b :: bs, t)
  end.

(** Content of freshly allocated memory used in the examples. *)
Definition raw : VrEmuTms9918a :=
  mkTms (replicate (Z.to_nat VRAM_SIZE) 0)
        (replicate (Z.to_nat TMS_NUM_REGISTERS) 0) 0 0 0 TMS_MODE_GRAPHICS_I
        (replicate (Z.to_nat TMS9918A_PIXELS_X) 0).

(** Zero at every index past the array: an arbitrary choice, for the
    lines that read nothing there. *)
Definition nothingBeyond : VrEmuTms9918a -> Z -> Z := fun _ _ => 0.

(** The bytes of the structure after [vram], in the order of the
    declaration and in the usual layout: eight registers, the status
    byte, the latch, the address pointer as two bytes with the low one
    first, the cached mode as a four-byte enumeration numbered in the
    order of its constructors, and the occupancy row.  No padding
    comes in: the pointer falls on an even offset and the mode on a
    multiple of four. *)
Definition modeValue (m : vrEmuTms9918aMode) : Z :=
  match m with
  | TMS_MODE_GRAPHICS_I => 0
  | TMS_MODE_GRAPHICS_II => 1
  | TMS_MODE_TEXT => 2
  | TMS_MODE_MULTICOLOR => 3
  end.

Definition fieldBytes (t : VrEmuTms9918a) : list Z :=
  registers t
  ++ [status t; lastMode t;
      Z.land (currentAddress t) 0xff; Z.shiftr (currentAddress t) 8;
      modeValue (mode t); 0; 0; 0]
  ++ rowSpriteBits t.

(** [vram[i]] for [i] past the end of the array, in that layout. *)
Definition fieldsBeyond : VrEmuTms9918a -> Z -> Z :=
  fun t i => cell (fieldBytes t) (i - VRAM_SIZE).

(** A register write and an address setup, as the host performs them
    through the address port. *)
Definition writeRegister (t : VrEmuTms9918a) (r value : Z) : VrEmuTms9918a :=
  vrEmuTms9918aWriteAddr (vrEmuTms9918aWriteAddr t value) (Z.lor 0x80 r).

Definition setAddress (t : VrEmuTms9918a) (a : Z) : VrEmuTms9918a :=
  vrEmuTms9918aWriteAddr (vrEmuTms9918aWriteAddr t (Z.land a 0xff))
                         (Z.land (Z.shiftr a 8) 0x3f).

(** Display on, Graphics I, all tables at address 0, and the given
    bytes written from address 0, where the sprite attributes are. *)
Definition withSprites (attributes : list Z) : VrEmuTms9918a :=
  writeAll (setAddress (writeRegister (vrEmuTms9918aReset raw) 1 0x40) 0)
           attributes.

(** Five sprites with top line 10, side by side, then the terminator. *)
Definition fiveInARow : VrEmuTms9918a :=
  withSprites [9; 0; 0; 1;  9; 16; 0; 1;  9; 32; 0; 1;  9; 48; 0; 1;
               9; 64; 0; 1;  LAST_SPRITE_VPOS].


(** Two sprites at the same place, (64, 64), of patterns that are solid
    after reset; the second one transparent. *)
Definition twoStacked : VrEmuTms9918a :=
  withSprites [64; 64; 2; 5;  64; 64; 2; 0;  LAST_SPRITE_VPOS].

(** Display on, Text mode. *)
Definition textMode : VrEmuTms9918a :=
  writeRegister (vrEmuTms9918aReset raw) 1 0x50.

Definition blankLine : list Z := replicate (Z.to_nat TMS9918A_PIXELS_X) 0.

(** One transparent sprite at (64, 64), of a pattern that is solid
    after reset, then the terminator. *)
Definition oneTransparent : VrEmuTms9918a :=
  withSprites [64; 64; 2; 0;  LAST_SPRITE_VPOS].

(** [fiveInARow] with white on dark blue in R7. *)
Definition fiveOnBlue : VrEmuTms9918a := writeRegister fiveInARow 7 0xF4.

Definition otherBeyond : VrEmuTms9918a -> Z -> Z := fun _ _ => 0xAA.

(** Display on, 16 x 16 sprites, bit 7 of R0 set, the sprite pattern
    table in the last 2 KiB page, and in slot 0 a sprite of color 5 at
    the left edge with top line 1 and pattern name 255: on line 9 its
    pattern bytes are [vram[16384]] and [vram[16400]]. *)
Definition pastTheEnd : VrEmuTms9918a :=
  writeAll
    (setAddress
       (writeRegister
          (writeRegister (writeRegister (vrEmuTms9918aReset raw) 0 0x80)
                         1 0x42) 6 7) 0)
    [0; 0; 255; 5;  LAST_SPRITE_VPOS].

(** Every element of the list is a byte. *)
Definition allBytes (l : list Z) : bool :=
  forallb (fun z => (0 <=? z) && (z <? 256)) l.

(** The line of 256 pixels whose pixel [x] is [f x]. *)
Definition lineOf (f : Z -> Z) : list Z := f <$> seqZ 0 TMS9918A_PIXELS_X.

(** Any host event but a reset. *)
Definition operation_keeps_cache (op : operation) : Prop :=
  match op with
  | OpReset => False
  | _ => True
  end.

(** Status byte [s'] has every flag of [s] among bits 0..7, and the
    same INT bit. *)
Definition flagsGrow (s s' : Z) : Prop :=
  (forall k, 0 <= k < 8 -> Z.testbit s k = true -> Z.testbit s' k = true)
  /\ Z.testbit s' 7 = Z.testbit s 7.

(** * Properties *)

(** ** Arrays and machine integers *)

Lemma cell_store_eq (a : list Z) (i x : Z) :
  0 <= i -> (Z.to_nat i < length a)%nat -> cell (store a i x) i = x.
Proof.
  intros _ Hlt. unfold cell, store.
  now rewrite list_lookup_insert_eq.
Qed.

Lemma cell_store_ne (a : list Z) (i j x : Z) :
  0 <= i -> 0 <= j -> i <> j -> cell (store a i x) j = cell a j.
Proof.
  intros Hi Hj Hne. unfold cell, store.
  rewrite list_lookup_insert_ne; [reflexivity | lia].
Qed.

Lemma length_store (a : list Z) (i x : Z) : length (store a i x) = length a.
Proof. apply length_insert. Qed.

Lemma memset_all (a : list Z) (c n : Z) :
  length a = Z.to_nat n -> memset a c n = replicate (Z.to_nat n) (u8 c).
Proof.
  intros Hlen. unfold memset.
  rewrite drop_ge by lia. apply app_nil_r.
Qed.

Lemma land_low_mod (a : Z) (n : Z) :
  0 <= n -> Z.land a (Z.ones n) = a mod 2 ^ n.
Proof. intros Hn. now apply Z.land_ones. Qed.

Lemma land_3fff (a : Z) : Z.land a 0x3fff = a mod 16384.
Proof. exact (land_low_mod a 14 ltac:(lia)). Qed.

Lemma land_ff (a : Z) : Z.land a 0xff = a mod 256.
Proof. exact (land_low_mod a 8 ltac:(lia)). Qed.

Lemma u16_succ_3fff (a : Z) :
  Z.land (u16 (a + 1)) 0x3fff = (a mod 16384 + 1) mod 16384.
Proof.
  rewrite land_3fff. unfold u16.
  Z.div_mod_to_equations. lia.
Qed.

Lemma testbit_u8 (z k : Z) :
  0 <= k < 8 -> Z.testbit (u8 z) k = Z.testbit z k.
Proof.
  intros Hk. unfold u8. change 256 with (2 ^ 8).
  apply Z.mod_pow2_bits_low. lia.
Qed.

Lemma u16_small (z : Z) : is_u16 z -> u16 z = z.
Proof. intros H. apply Z.mod_small. exact H. Qed.

Lemma is_u16_u16 (z : Z) : is_u16 (u16 z).
Proof. unfold is_u16, u16. apply Z.mod_pos_bound. lia. Qed.

Lemma is_u8_u8 (z : Z) : is_u8 (u8 z).
Proof. unfold is_u8, u8. apply Z.mod_pos_bound. lia. Qed.

Lemma testbit_beyond (n a k : Z) :
  0 <= a < 2 ^ n -> n <= k -> Z.testbit a k = false.
Proof.
  intros Ha Hk.
  destruct (Z.ltb_spec n 0) as [Hn | Hn].
  - rewrite Z.pow_neg_r in Ha by lia. lia.
  - rewrite <- (Z.mod_small a (2 ^ n)) by exact Ha.
    apply Z.mod_pow2_bits_high. lia.
Qed.

(** Two values below [2 ^ n] have their bitwise or below [2 ^ n]. *)
Lemma lor_below (n a b : Z) :
  0 <= n -> 0 <= a < 2 ^ n -> 0 <= b < 2 ^ n -> 0 <= Z.lor a b < 2 ^ n.
Proof.
  intros Hn Ha Hb.
  assert (Heq : Z.lor a b mod 2 ^ n = Z.lor a b).
  { apply Z.bits_inj'. intros k Hk.
    destruct (Z.ltb_spec k n) as [Hlt | Hge].
    - apply Z.mod_pow2_bits_low. exact Hlt.
    - rewrite Z.mod_pow2_bits_high by lia.
      rewrite Z.lor_spec.
      rewrite (testbit_beyond n a k Ha Hge), (testbit_beyond n b k Hb Hge).
      reflexivity. }
  rewrite <- Heq. apply Z.mod_pos_bound. lia.
Qed.

(** With [limit - pixelIndex - 1] tests allowed, the margin loop ends
    on its own test. *)
Lemma margin_enough (n : nat) :
  forall (limit bgColor pixelIndex : Z) (pixels : list Z),
  limit - pixelIndex - 1 <= Z.of_nat n ->
  fst (margin n limit bgColor pixelIndex pixels)
  = Z.max (pixelIndex + 1) limit.
Proof.
  induction n as [| n IH]; intros limit bgColor pixelIndex pixels Hn;
    cbn [margin]; destruct (Z.ltb_spec (pixelIndex + 1) limit) as [Hlt | Hge];
    cbn [fst]; try lia.
  rewrite IH by lia. lia.
Qed.

(** A mask with a single bit tests that bit. *)
Lemma nonzero_land_pow2 (b n : Z) :
  0 <= n -> nonzero (Z.land b (2 ^ n)) = Z.testbit b n.
Proof.
  intros Hn. unfold nonzero.
  destruct (Z.testbit b n) eqn:Hb.
  - destruct (Z.eqb_spec (Z.land b (2 ^ n)) 0) as [H0 | _]; [| reflexivity].
    assert (Hbit : Z.testbit (Z.land b (2 ^ n)) n = true).
    { rewrite Z.land_spec, Hb, Z.pow2_bits_true by lia. reflexivity. }
    rewrite H0, Z.bits_0 in Hbit. discriminate.
  - assert (H0 : Z.land b (2 ^ n) = 0).
    { apply Z.bits_inj'. intros k Hk.
      rewrite Z.land_spec, Z.bits_0, Z.pow2_bits_eqb by lia.
      destruct (Z.eqb_spec n k) as [-> | _].
      - rewrite Hb. reflexivity.
      - apply andb_false_r. }
    rewrite H0. reflexivity.
Qed.

Lemma land_le_mask (z m : Z) : 0 <= m -> 0 <= Z.land z m <= m.
Proof.
  intros Hm.
  assert (Hu : 0 <= Z.land z m) by (apply Z.land_nonneg; right; exact Hm).
  assert (Hv : 0 <= Z.land (Z.lnot z) m)
    by (apply Z.land_nonneg; right; exact Hm).
  assert (Hdis : Z.land (Z.land z m) (Z.land (Z.lnot z) m) = 0).
  { apply Z.bits_inj'. intros k Hk.
    rewrite !Z.land_spec, Z.lnot_spec, Z.bits_0 by exact Hk.
    destruct (Z.testbit z k), (Z.testbit m k); reflexivity. }
  assert (Hsum : Z.lor (Z.land z m) (Z.land (Z.lnot z) m) = m).
  { apply Z.bits_inj'. intros k Hk.
    rewrite Z.lor_spec, !Z.land_spec, Z.lnot_spec by exact Hk.
    destruct (Z.testbit z k), (Z.testbit m k); reflexivity. }
  rewrite <- Z.lxor_lor, <- Z.add_nocarry_lxor in Hsum by exact Hdis.
  lia.
Qed.

Lemma u16_le (z : Z) : 0 <= z -> 0 <= u16 z <= z.
Proof.
  intros Hz. unfold u16. split; [apply Z.mod_pos_bound; lia |].
  apply Z.mod_le; lia.
Qed.

Lemma masked_base (z m s : Z) :
  0 <= m -> 0 <= s ->
  0 <= u16 (Z.shiftl (Z.land z m) s) <= m * 2 ^ s.
Proof.
  intros Hm Hs. pose proof (land_le_mask z m Hm) as Hl.
  assert (Hp : 0 < 2 ^ s) by (apply Z.pow_pos_nonneg; lia).
  rewrite Z.shiftl_mul_pow2 by exact Hs.
  pose proof (u16_le (Z.land z m * 2 ^ s) ltac:(nia)). nia.
Qed.

Lemma spriteAttrTable_range (t : VrEmuTms9918a) :
  0 <= tmsSpriteAttrTableAddr t <= 16256.
Proof. exact (masked_base (reg t TMS_REG_5) 127 7 ltac:(lia) ltac:(lia)). Qed.

(** ** Address port *)

(** C1: [write_address] is a two-phase latch.  From first phase, a write
    of [b1] latches [b1] as the address and enters second phase; the
    next write of [b2] with bit 7 clear makes the address
    [(b2 & 0x3F) << 8 | b1], and with bit 7 set stores [b1], not [b2],
    in register [b2 & 0x07]; either way the latch is back in first
    phase. *)
Theorem write_address_two_phase (t : VrEmuTms9918a) (b1 b2 : Z) :
  is_u8 b1 -> is_u8 b2 ->
  length (registers t) = Z.to_nat TMS_NUM_REGISTERS ->
  lastMode t = 0 ->
  let t1 := vrEmuTms9918aWriteAddr t b1 in
  let t2 := vrEmuTms9918aWriteAddr t1 b2 in
  (currentAddress t1 = b1 /\ lastMode t1 = 1 /\ registers t1 = registers t)
  /\ (Z.testbit b2 7 = false ->
      currentAddress t2 = Z.lor (Z.shiftl (Z.land b2 0x3f) 8) b1
      /\ registers t2 = registers t)
  /\ (Z.testbit b2 7 = true ->
      vrEmuTms9918aRegValue t2 (Z.land b2 0x07) = b1
      /\ registers t2 = store (registers t) (Z.land b2 0x07) b1)
  /\ lastMode t2 = 0.
Proof.
  intros Hb1 Hb2 Hlen Hphase t1 t2.
  assert (E1 : t1 = set_lastMode 1 (set_currentAddress b1 t)).
  { unfold t1, vrEmuTms9918aWriteAddr. rewrite Hphase. reflexivity. }
  assert (Hidx : 0 <= Z.land b2 0x07 < 8).
  { change 0x07 with (Z.ones 3). rewrite land_low_mod by lia.
    apply Z.mod_pos_bound. lia. }
  assert (Hlow : u8 (Z.land b1 0xff) = b1).
  { rewrite land_ff. unfold u8. rewrite Z.mod_mod by lia.
    apply Z.mod_small. exact Hb1. }
  split; [rewrite E1; auto |].
  unfold t2, vrEmuTms9918aWriteAddr. rewrite E1. cbn [lastMode set_lastMode].
  change (nonzero 1) with true. cbv iota.
  change 0x80 with (2 ^ 7). rewrite nonzero_land_pow2 by lia.
  destruct (Z.testbit b2 7); cbn; repeat split; intros; try discriminate.
  - unfold vrEmuTms9918aRegValue. cbn. rewrite Hlow.
    rewrite <- Z.land_assoc. change (Z.land 7 7) with 7.
    apply cell_store_eq; [lia |]. rewrite Hlen.
    unfold TMS_NUM_REGISTERS. lia.
  - rewrite Hlow. reflexivity.
  - rewrite Z.lor_comm. apply u16_small. unfold is_u16.
    assert (H6 : 0 <= Z.land b2 0x3f < 64).
    { change 0x3f with (Z.ones 6). rewrite land_low_mod by lia.
      apply Z.mod_pos_bound. lia. }
    apply (lor_below 16); [lia | |].
    + rewrite Z.shiftl_mul_pow2 by lia. lia.
    + unfold is_u8 in Hb1. lia.
Qed.

Lemma write_address_two_phase_witness :
  let t := vrEmuTms9918aReset raw in
  let t1 := vrEmuTms9918aWriteAddr t 0x12 in
  let t2 := vrEmuTms9918aWriteAddr t1 0x34 in
  currentAddress t2 = 0x3412 /\ lastMode t2 = 0.
Proof.
  assert (Hlen : length (registers (vrEmuTms9918aReset raw))
                 = Z.to_nat TMS_NUM_REGISTERS) by reflexivity.
  assert (Hph : lastMode (vrEmuTms9918aReset raw) = 0) by reflexivity.
  assert (H1 : is_u8 0x12) by (unfold is_u8; lia).
  assert (H2 : is_u8 0x34) by (unfold is_u8; lia).
  pose proof (write_address_two_phase (vrEmuTms9918aReset raw) 0x12 0x34
                H1 H2 Hlen Hph) as (_ & Haddr & _ & Hlatch).
  split; [| exact Hlatch].
  destruct (Haddr eq_refl) as [-> _]. reflexivity.
Defined.

(** ** Reset *)

(** What [vrEmuTms9918aReset] establishes; the cached mode is not among
    the fields it assigns. *)
Lemma reset_fields (t : VrEmuTms9918a) :
  length (vram t) = Z.to_nat VRAM_SIZE ->
  length (registers t) = Z.to_nat TMS_NUM_REGISTERS ->
  let t' := vrEmuTms9918aReset t in
  vram t' = replicate (Z.to_nat VRAM_SIZE) 0xff
  /\ registers t' = replicate (Z.to_nat TMS_NUM_REGISTERS) 0
  /\ status t' = 0
  /\ currentAddress t' = 0
  /\ lastMode t' = 0
  /\ mode t' = mode t.
Proof.
  intros Hv Hr. cbn.
  rewrite (memset_all _ _ _ Hv), (memset_all _ _ _ Hr).
  repeat split.
Qed.

(** C2: after reset the VRAM is all 0xFF, the registers, the status and
    the address are 0 and the latch is in first phase, but the cached
    mode is the one cached before: with R0 = 0x02 written and the chip
    then reset, the registers decode as Graphics I while the cached
    mode still is Graphics II. *)
Theorem reset_keeps_cached_mode :
  let t :=
    vrEmuTms9918aWriteAddr
      (vrEmuTms9918aWriteAddr (vrEmuTms9918aReset raw) 0x02) 0x80 in
  let t' := vrEmuTms9918aReset t in
  mode t = TMS_MODE_GRAPHICS_II
  /\ registers t' = replicate (Z.to_nat TMS_NUM_REGISTERS) 0
  /\ tmsMode t' = TMS_MODE_GRAPHICS_I
  /\ mode t' = TMS_MODE_GRAPHICS_II.
Proof. vm_compute. repeat split. Qed.

(** ** Status register *)

Lemma land_lnot_flags (s : Z) (k : Z) :
  0 <= k < 8 ->
  Z.testbit (u8 (Z.land s (Z.lnot (Z.lor STATUS_INT STATUS_COL)))) k
  = Z.testbit s k && negb ((k =? 7) || (k =? 5)).
Proof.
  intros Hk. rewrite testbit_u8 by exact Hk.
  rewrite Z.land_spec, Z.lnot_spec by lia.
  f_equal.
  assert (Hc : k = 0 \/ k = 1 \/ k = 2 \/ k = 3 \/ k = 4 \/ k = 5 \/ k = 6
               \/ k = 7) by lia.
  destruct Hc as [-> | [-> | [-> | [-> | [-> | [-> | [-> | ->]]]]]]];
    reflexivity.
Qed.

(** C3: [read_status] returns the status byte as it was, changes nothing
    but the status byte, clears bits 7 (INT) and 5 (COL) and keeps bit 6
    (5S) and bits 0..4; a second read right after it returns the first
    value with bits 7 and 5 cleared. *)
Theorem read_status_clears_int_col (t : VrEmuTms9918a) :
  is_u8 (status t) ->
  let '(r1, t1) := vrEmuTms9918aReadStatus t in
  let '(r2, _) := vrEmuTms9918aReadStatus t1 in
  r1 = status t
  /\ t1 = set_status (status t1) t
  /\ Z.testbit (status t1) 7 = false
  /\ Z.testbit (status t1) 5 = false
  /\ Z.testbit (status t1) 6 = Z.testbit (status t) 6
  /\ (forall k, 0 <= k <= 4 ->
      Z.testbit (status t1) k = Z.testbit (status t) k)
  /\ r2 = Z.clearbit (Z.clearbit r1 7) 5.
Proof.
  intros Hs. unfold vrEmuTms9918aReadStatus.
  cbn [status set_status].
  split; [reflexivity |]. split; [reflexivity |].
  split; [rewrite land_lnot_flags by lia; apply andb_false_r |].
  split; [rewrite land_lnot_flags by lia; apply andb_false_r |].
  split; [rewrite land_lnot_flags by lia; apply andb_true_r |].
  split.
  - intros k Hk. rewrite land_lnot_flags by lia.
    replace (k =? 7) with false by (symmetry; apply Z.eqb_neq; lia).
    replace (k =? 5) with false by (symmetry; apply Z.eqb_neq; lia).
    apply andb_true_r.
  - apply Z.bits_inj'. intros k Hk.
    rewrite !Z.clearbit_eqb.
    destruct (Z.ltb_spec k 8) as [Hlt | Hge].
    + rewrite land_lnot_flags by lia.
      rewrite (Z.eqb_sym 5 k), (Z.eqb_sym 7 k).
      destruct (Z.testbit (status t) k), (k =? 7), (k =? 5); reflexivity.
    + rewrite (testbit_beyond 8 _ k); [| apply is_u8_u8 | exact Hge].
      rewrite (testbit_beyond 8 (status t) k);
        [reflexivity | exact Hs | exact Hge].
Qed.

Lemma read_status_clears_int_col_witness :
  let t := set_status 0xE5 (vrEmuTms9918aReset raw) in
  fst (vrEmuTms9918aReadStatus t) = 0xE5
  /\ fst (vrEmuTms9918aReadStatus (snd (vrEmuTms9918aReadStatus t))) = 0x45.
Proof.
  assert (Hs : is_u8 (status (set_status 0xE5 (vrEmuTms9918aReset raw))))
    by (unfold is_u8; simpl; lia).
  pose proof (read_status_clears_int_col _ Hs) as H.
  cbn in H. destruct H as (H1 & _ & _ & _ & _ & _ & H2).
  split; [exact H1 |]. cbn. rewrite H2. reflexivity.
Defined.

(** ** Data port *)

(** A run of writes leaves alone every cell its addresses do not hit. *)
Lemma writeAll_frame (l : list Z) (t : VrEmuTms9918a) (k : Z) :
  0 <= k ->
  (forall j, 0 <= j < Z.of_nat (length l) ->
             (currentAddress t + j) mod 16384 <> k) ->
  cell (vram (writeAll t l)) k = cell (vram t) k.
Proof.
  revert t. induction l as [| b l IH]; intros t Hk Hmiss; [reflexivity |].
  cbn [writeAll]. rewrite IH; [| exact Hk |].
  - cbn. apply cell_store_ne; [| exact Hk |].
    + rewrite land_3fff. apply Z.mod_pos_bound. lia.
    + rewrite land_3fff.
      specialize (Hmiss 0). rewrite Z.add_0_r in Hmiss.
      apply Hmiss. cbn [length]. lia.
  - intros j Hj. cbn [vrEmuTms9918aWriteData currentAddress set_vram
                      set_currentAddress].
    specialize (Hmiss (j + 1)). cbn [length] in Hmiss.
    intros Heq. apply Hmiss; [lia |]. rewrite <- Heq.
    unfold u16. Z.div_mod_to_equations. lia.
Qed.

(** C4: bytes written by successive [write_data] calls from address [A]
    (at most 16384 of them) are returned in order by successive
    [read_data] calls once the address is [A] again, modulo 16384; the
    i-th byte lies at VRAM index [(A + i) mod 16384]. *)
Theorem write_read_round_trip (t t' : VrEmuTms9918a) (l : list Z) :
  length (vram t) = Z.to_nat VRAM_SIZE ->
  (length l <= Z.to_nat VRAM_SIZE)%nat ->
  vram t' = vram (writeAll t l) ->
  Z.land (currentAddress t') 0x3fff = Z.land (currentAddress t) 0x3fff ->
  fst (readAll (length l) t') = l
  /\ forall i b, l !! i = Some b ->
       cell (vram t') ((currentAddress t + Z.of_nat i) mod 16384) = b.
Proof.
  revert t t'. induction l as [| b l IH]; intros t t' Hlen Hl Hv Ha.
  - split; [reflexivity |]. intros i b Hi. discriminate.
  - cbn [writeAll] in Hv. cbn [length] in Hl.
    set (t1 := vrEmuTms9918aWriteData t b) in *.
    assert (Hlen1 : length (vram t1) = Z.to_nat VRAM_SIZE).
    { unfold t1. cbn. rewrite length_store. exact Hlen. }
    change VRAM_SIZE with 16384 in *.
    assert (Hhead : cell (vram t') (currentAddress t mod 16384) = b).
    { rewrite Hv, writeAll_frame.
      - unfold t1. cbn. rewrite land_3fff. apply cell_store_eq.
        + apply Z.mod_pos_bound. lia.
        + rewrite Hlen.
          pose proof (Z.mod_pos_bound (currentAddress t) 16384). lia.
      - apply Z.mod_pos_bound. lia.
      - intros j Hj. unfold t1. cbn. unfold u16.
        Z.div_mod_to_equations. lia. }
    assert (Ha1 : Z.land (currentAddress (snd (vrEmuTms9918aReadData t')))
                         0x3fff
                  = Z.land (currentAddress t1) 0x3fff).
    { unfold t1. cbn. rewrite !u16_succ_3fff, <- !land_3fff, Ha.
      reflexivity. }
    destruct (IH t1 (snd (vrEmuTms9918aReadData t')) Hlen1 ltac:(lia) Hv Ha1)
      as [IHr IHc].
    split.
    + cbn [readAll length].
      destruct (vrEmuTms9918aReadData t') as [b0 t2] eqn:Hrd.
      cbn [snd] in IHr.
      destruct (readAll (length l) t2) as [bs t3].
      cbn [fst] in *. subst bs. f_equal.
      unfold vrEmuTms9918aReadData in Hrd. injection Hrd as <- _.
      cbn. rewrite Ha, land_3fff. exact Hhead.
    + intros [| i] c Hi.
      * cbn in Hi. injection Hi as <-.
        rewrite Z.add_0_r. exact Hhead.
      * cbn in Hi. specialize (IHc i c Hi). cbn [vram snd] in IHc.
        unfold vrEmuTms9918aReadData in IHc. cbn in IHc.
        rewrite <- IHc. f_equal. unfold u16.
        Z.div_mod_to_equations. lia.
Qed.

Lemma write_read_round_trip_witness :
  let t := vrEmuTms9918aWriteAddr
             (vrEmuTms9918aWriteAddr (vrEmuTms9918aReset raw) 0xFE) 0x3F in
  let t1 := writeAll t [0x10; 0x20; 0x30; 0x40] in
  let t' := vrEmuTms9918aWriteAddr (vrEmuTms9918aWriteAddr t1 0xFE) 0x3F in
  fst (readAll 4 t') = [0x10; 0x20; 0x30; 0x40].
Proof.
  intros t t1 t'.
  refine (proj1 (write_read_round_trip t t' [0x10; 0x20; 0x30; 0x40]
                   _ _ _ _)).
  - reflexivity.
  - vm_compute. lia.
  - reflexivity.
  - reflexivity.
Defined.

(** ** Sprite engine *)

Section SpriteFacts.
Variable beyond : VrEmuTms9918a -> Z -> Z.

Lemma touch_self (t : VrEmuTms9918a) :
  touch (status t) (rowSpriteBits t) t = t.
Proof. destruct t. reflexivity. Qed.

(** A read inside the array does not see what the sprite pass writes. *)
Lemma vramAt_touch (st : Z) (rb : list Z) (t : VrEmuTms9918a) (i : Z) :
  i < VRAM_SIZE -> vramAt beyond (touch st rb t) i = vramAt beyond t i.
Proof.
  intros Hi. unfold vramAt.
  replace (i <? VRAM_SIZE) with true by (symmetry; apply Z.ltb_lt; exact Hi).
  reflexivity.
Qed.

(** The four attribute bytes of a slot lie inside the array. *)
Lemma slotAttr_inside (t : VrEmuTms9918a) (i k : Z) :
  0 <= i < MAX_SPRITES -> 0 <= k <= 3 -> slotAttr t i + k < VRAM_SIZE.
Proof.
  intros Hi Hk. unfold slotAttr, SPRITE_ATTR_BYTES, MAX_SPRITES in *.
  pose proof (spriteAttrTable_range t). change VRAM_SIZE with 16384. lia.
Qed.

Lemma land_1_mod (k : Z) : Z.land k 0x01 = k mod 2.
Proof. exact (land_low_mod k 1 ltac:(lia)). Qed.

Lemma advance_pattern (t : VrEmuTms9918a) (off k : Z) :
  0 <= k ->
  (if negb (nonzero (tmsSpriteMag t)) || nonzero (Z.land k 0x01)
   then
     if patternIndex t k mod 8 + 1 =? 8
     then (0, vramAt beyond t (off + 16))
     else (patternIndex t k mod 8 + 1, patternByteAt beyond t off k)
   else (patternIndex t k mod 8, patternByteAt beyond t off k))
  = (patternIndex t (k + 1) mod 8, patternByteAt beyond t off (k + 1)).
Proof.
  intros Hk. unfold patternByteAt, patternIndex.
  rewrite land_1_mod. unfold nonzero at 2.
  destruct (nonzero (tmsSpriteMag t)); cbn [negb orb].
  - destruct (Z.eqb_spec (k mod 2) 0) as [He | Ho]; cbn [negb].
    + replace ((k + 1) / 2) with (k / 2) by (Z.div_mod_to_equations; lia).
      reflexivity.
    + replace ((k + 1) / 2) with (k / 2 + 1) by (Z.div_mod_to_equations; lia).
      destruct (Z.eqb_spec ((k / 2) mod 8 + 1) 8) as [H8 | H8].
      * f_equal; [Z.div_mod_to_equations; lia |].
        destruct (Z.ltb_spec (k / 2 + 1) 8); [| reflexivity].
        Z.div_mod_to_equations; lia.
      * f_equal; [Z.div_mod_to_equations; lia |].
        destruct (Z.ltb_spec (k / 2) 8), (Z.ltb_spec (k / 2 + 1) 8);
          try reflexivity; Z.div_mod_to_equations; lia.
  - destruct (Z.eqb_spec (k mod 8 + 1) 8) as [H8 | H8].
    + f_equal; [Z.div_mod_to_equations; lia |].
      destruct (Z.ltb_spec (k + 1) 8); [| reflexivity].
      Z.div_mod_to_equations; lia.
    + f_equal; [Z.div_mod_to_equations; lia |].
      destruct (Z.ltb_spec k 8), (Z.ltb_spec (k + 1) 8);
        try reflexivity; Z.div_mod_to_equations; lia.
Qed.

Lemma cell_store_nonzero (rb : list Z) (x0 x : Z) :
  0 <= x0 -> 0 <= x -> cell rb x <> 0 -> cell (store rb x0 1) x <> 0.
Proof.
  intros H0 Hx Hnz.
  destruct (Z.eq_dec x0 x) as [-> | Hne].
  - unfold cell, store in *.
    destruct (rb !! Z.to_nat x) eqn:Hl; [| contradiction Hnz; reflexivity].
    rewrite list_lookup_insert_eq by (eapply lookup_lt_Some; eassumption).
    discriminate.
  - rewrite cell_store_ne by assumption. exact Hnz.
Qed.

Lemma testbit5_lor_col (st : Z) :
  Z.testbit (u8 (Z.lor st STATUS_COL)) 5 = true.
Proof.
  rewrite testbit_u8 by lia. rewrite Z.lor_spec. apply orb_true_r.
Qed.

(** The column loop on any pattern bytes: it writes the status byte and
    the occupancy row only, keeps the length of the row, and clears
    neither COL nor a mark. *)
Lemma spriteColumns_frame (t0 : VrEmuTms9918a) (n : nat) :
  forall (c off x sb pb byte st : Z) (rb px : list Z),
  exists st' rb' px',
    spriteColumns beyond n c off x sb pb byte (touch st rb t0) px
    = (touch st' rb' t0, px')
    /\ length rb' = length rb
    /\ (Z.testbit st 5 = true -> Z.testbit st' 5 = true)
    /\ (forall x0, 0 <= x0 < TMS9918A_PIXELS_X ->
          cell rb x0 <> 0 -> cell rb' x0 <> 0).
Proof.
  induction n as [| n IH]; intros c off x sb pb byte st rb px.
  { exists st, rb, px. cbn [spriteColumns]. repeat split; auto. }
  cbn [spriteColumns].
  destruct (TMS9918A_PIXELS_X <=? x).
  { exists st, rb, px. repeat split; auto. }
  destruct ((0 <=? x) && nonzero (Z.land byte (Z.shiftr 128 pb))) eqn:Hdraw.
  - apply andb_true_iff in Hdraw as [Hpos _]. apply Z.leb_le in Hpos.
    unfold spriteColumn.
    cbn [rowSpriteBits touch set_rowSpriteBits set_status status].
    set (st1 := if nonzero (cell rb x) then u8 (Z.lor st STATUS_COL) else st).
    set (px1 := if negb (c =? TMS_TRANSPARENT) then store px x c else px).
    replace (if nonzero (cell rb x)
             then set_status (u8 (Z.lor st STATUS_COL)) (touch st rb t0)
             else touch st rb t0)
      with (touch st1 rb t0)
      by (unfold st1; destruct (nonzero _); reflexivity).
    change (set_rowSpriteBits (store (rowSpriteBits (touch st1 rb t0)) x 1)
                              (touch st1 rb t0))
      with (touch st1 (store rb x 1) t0).
    assert (Hst1 : Z.testbit st 5 = true -> Z.testbit st1 5 = true).
    { intros H5. unfold st1.
      destruct (nonzero _); [apply testbit5_lor_col | exact H5]. }
    assert (Hnext : forall pb1 byte1,
      exists st' rb' px',
        spriteColumns beyond n c off (x + 1) (sb + 1) pb1 byte1
                      (touch st1 (store rb x 1) t0) px1
        = (touch st' rb' t0, px')
        /\ length rb' = length rb
        /\ (Z.testbit st 5 = true -> Z.testbit st' 5 = true)
        /\ (forall x0, 0 <= x0 < TMS9918A_PIXELS_X ->
              cell rb x0 <> 0 -> cell rb' x0 <> 0)).
    { intros pb1 byte1.
      destruct (IH c off (x + 1) (sb + 1) pb1 byte1 st1 (store rb x 1) px1)
        as (st' & rb' & px' & Hrun & Hlen & Hst & Hmono).
      exists st', rb', px'. split; [exact Hrun |].
      split; [rewrite Hlen; apply length_store |]. split; [auto |].
      intros x0 Hx0 Hnz. apply Hmono; [exact Hx0 |].
      apply cell_store_nonzero; [lia | lia | exact Hnz]. }
    destruct (negb (nonzero (tmsSpriteMag _)) || nonzero (Z.land sb 1));
      [destruct (pb + 1 =? 8) |]; apply Hnext.
  - destruct (negb (nonzero (tmsSpriteMag _)) || nonzero (Z.land sb 1));
      [destruct (pb + 1 =? 8) |]; apply IH.
Qed.

Lemma spriteColumns_run (t0 : VrEmuTms9918a) (c off hPos : Z) (n : nat) :
  forall (k st : Z) (rb px : list Z),
  0 <= k ->
  off + 16 < VRAM_SIZE ->
  (Z.to_nat TMS9918A_PIXELS_X <= length rb)%nat ->
  exists st' rb' px',
    spriteColumns beyond n c off (hPos + k) k (patternIndex t0 k mod 8)
                  (patternByteAt beyond t0 off k) (touch st rb t0) px
    = (touch st' rb' t0, px')
    /\ length rb' = length rb
    /\ (c = TMS_TRANSPARENT -> px' = px)
    /\ (Z.testbit st 5 = true -> Z.testbit st' 5 = true)
    /\ (forall x, 0 <= x < TMS9918A_PIXELS_X ->
          cell rb x <> 0 -> cell rb' x <> 0)
    /\ (forall x, 0 <= x < TMS9918A_PIXELS_X ->
          k <= x - hPos < k + Z.of_nat n ->
          patternBitAt beyond t0 off (x - hPos) = true ->
          cell rb' x <> 0 /\ (cell rb x <> 0 -> Z.testbit st' 5 = true)).
Proof.
  induction n as [| n IH]; intros k st rb px Hk Hoff Hrb.
  - exists st, rb, px. cbn [spriteColumns].
    repeat split; auto; lia.
  - cbn [spriteColumns].
    destruct (Z.leb_spec TMS9918A_PIXELS_X (hPos + k)) as [Hout | Hin].
    { exists st, rb, px. repeat split; auto; lia. }
    fold (patternBitAt beyond t0 off k).
    destruct ((0 <=? hPos + k) && patternBitAt beyond t0 off k) eqn:Hdraw.
    + apply andb_true_iff in Hdraw as [Hpos Hbit].
      apply Z.leb_le in Hpos.
      unfold spriteColumn.
      cbn [rowSpriteBits touch set_rowSpriteBits set_status status].
      set (st1 := if nonzero (cell rb (hPos + k))
                  then u8 (Z.lor st STATUS_COL) else st).
      set (px1 := if negb (c =? TMS_TRANSPARENT)
                  then store px (hPos + k) c else px).
      replace (if nonzero (cell rb (hPos + k))
               then set_status (u8 (Z.lor st STATUS_COL)) (touch st rb t0)
               else touch st rb t0)
        with (touch st1 rb t0)
        by (unfold st1; destruct (nonzero _); reflexivity).
      change (set_rowSpriteBits
                (store (rowSpriteBits (touch st1 rb t0)) (hPos + k) 1)
                                (touch st1 rb t0))
        with (touch st1 (store rb (hPos + k) 1) t0).
      change (tmsSpriteMag (touch st1 (store rb (hPos + k) 1) t0))
        with (tmsSpriteMag t0).
      rewrite (vramAt_touch st1 (store rb (hPos + k) 1) t0 (off + 16) Hoff).
      rewrite (advance_pattern t0 off k Hk).
      replace (hPos + k + 1) with (hPos + (k + 1)) by lia.
      destruct (IH (k + 1) st1 (store rb (hPos + k) 1) px1 ltac:(lia) Hoff
                   ltac:(rewrite length_store; exact Hrb))
        as (st' & rb' & px' & Hrun & Hlen & Hpx & Hst & Hmono & Hcols).
      exists st', rb', px'. rewrite Hrun.
      assert (Hst1 : Z.testbit st 5 = true -> Z.testbit st1 5 = true).
      { intros H5. unfold st1.
        destruct (nonzero _); [apply testbit5_lor_col | exact H5]. }
      split; [reflexivity |].
      split; [rewrite Hlen; apply length_store |].
      split.
      { intros Hc. rewrite (Hpx Hc). unfold px1. rewrite Hc. reflexivity. }
      split; [auto |].
      split.
      { intros x Hx Hnz. apply Hmono; [exact Hx |].
        apply cell_store_nonzero; [lia | lia | exact Hnz]. }
      intros x Hx Hrange Hb.
      destruct (Z.eq_dec (x - hPos) k) as [Hxk | Hxk].
      * assert (Hxe : x = hPos + k) by lia. subst x.
        split.
        -- apply Hmono; [exact Hx |].
           rewrite cell_store_eq; [discriminate | lia |].
           unfold TMS9918A_PIXELS_X in *. lia.
        -- intros Hnz. apply Hst. unfold st1.
           unfold nonzero.
           destruct (Z.eqb_spec (cell rb (hPos + k)) 0) as [E | _];
             [contradiction |]. apply testbit5_lor_col.
      * destruct (Hcols x Hx ltac:(lia) Hb) as [Hset Hcol].
        split; [exact Hset |].
        intros Hnz. apply Hcol.
        apply cell_store_nonzero; [lia | lia | exact Hnz].
    + change (tmsSpriteMag (touch st rb t0)) with (tmsSpriteMag t0).
      rewrite (vramAt_touch st rb t0 (off + 16) Hoff).
      rewrite (advance_pattern t0 off k Hk).
      replace (hPos + k + 1) with (hPos + (k + 1)) by lia.
      destruct (IH (k + 1) st rb px ltac:(lia) Hoff Hrb)
        as (st' & rb' & px' & Hrun & Hlen & Hpx & Hst & Hmono & Hcols).
      exists st', rb', px'. rewrite Hrun.
      split; [reflexivity |]. split; [exact Hlen |].
      split; [exact Hpx |]. split; [exact Hst |]. split; [exact Hmono |].
      intros x Hx Hrange Hb.
      destruct (Z.eq_dec (x - hPos) k) as [Hxk | Hxk].
      * exfalso. rewrite Hxk in Hb.
        rewrite Hb, andb_true_r in Hdraw.
        apply Z.leb_gt in Hdraw. lia.
      * apply (Hcols x Hx); [lia | exact Hb].
Qed.

Lemma spriteSlot_eq (t0 : VrEmuTms9918a) (y i shown st : Z) (rb px : list Z) :
  0 <= i < MAX_SPRITES ->
  spriteSlot beyond y (spriteSizePx t0) (tmsSpriteAttrTableAddr t0)
             (tmsSpritePatternTableAddr t0) i shown (touch st rb t0) px
  = if slotEnds beyond t0 i then
      SlotBreak (touch (if Z.land st STATUS_5S =? 0
                        then u8 (Z.lor st i) else st) rb t0) px
    else if negb (slotOnLine beyond t0 y i) then
      SlotNext shown (touch st rb t0) px
    else
      let rb1 := if shown =? 0
                 then memset rb 0 TMS9918A_PIXELS_X else rb in
      if MAX_SCANLINE_SPRITES <? shown + 1 then
        SlotBreak (touch (if Z.land st STATUS_5S =? 0
                          then u8 (Z.lor st (Z.lor STATUS_5S i)) else st)
                         rb1 t0) px
      else
        let '(t', px') :=
          spriteColumns beyond (Z.to_nat (spriteSizePx t0))
                        (slotColor beyond t0 i)
                        (slotPatternOffset beyond t0 y i)
                        (slotHPos beyond t0 i) 0 0
                        (vramAt beyond (touch st rb1 t0)
                                (slotPatternOffset beyond t0 y i))
                        (touch st rb1 t0) px in
        SlotNext (shown + 1) t' px'.
Proof.
  intros Hi.
  pose proof (slotAttr_inside t0 i 0 Hi ltac:(lia)) as H0.
  pose proof (slotAttr_inside t0 i 1 Hi ltac:(lia)) as H1.
  pose proof (slotAttr_inside t0 i 2 Hi ltac:(lia)) as H2.
  pose proof (slotAttr_inside t0 i 3 Hi ltac:(lia)) as H3.
  rewrite Z.add_0_r in H0.
  unfold spriteSlot, slotEnds, slotOnLine, slotRow, slotColor, slotHPos,
    slotPatternOffset.
  fold (slotAttr t0 i).
  change (tmsSpriteMag (touch st rb t0)) with (tmsSpriteMag t0).
  change (tmsSpriteSize (touch st rb t0)) with (tmsSpriteSize t0).
  change (status (touch st rb t0)) with st.
  rewrite (vramAt_touch st rb t0 (slotAttr t0 i) H0).
  rewrite (vramAt_touch st rb t0 (slotAttr t0 i + 3) H3).
  destruct (_ =? LAST_SPRITE_VPOS).
  { destruct (Z.land st STATUS_5S =? 0); reflexivity. }
  destruct (_ || _); cbn [negb]; [reflexivity |].
  cbv zeta.
  set (rb1 := if shown =? 0 then memset rb 0 TMS9918A_PIXELS_X else rb).
  replace (if shown =? 0
           then set_rowSpriteBits
                  (memset (rowSpriteBits (touch st rb t0)) 0
                          TMS9918A_PIXELS_X) (touch st rb t0)
           else touch st rb t0)
    with (touch st rb1 t0)
    by (unfold rb1; destruct (shown =? 0); reflexivity).
  change (status (touch st rb1 t0)) with st.
  destruct (MAX_SCANLINE_SPRITES <? shown + 1).
  { destruct (Z.land st STATUS_5S =? 0); reflexivity. }
  rewrite (vramAt_touch st rb1 t0 (slotAttr t0 i + 1) H1).
  rewrite (vramAt_touch st rb1 t0 (slotAttr t0 i + 2) H2).
  rewrite (vramAt_touch st rb1 t0 (slotAttr t0 i + 3) H3).
  reflexivity.
Qed.

Lemma onLineCount_nonneg (n : nat) (t : VrEmuTms9918a) (y i : Z) :
  0 <= onLineCount beyond n t y i.
Proof.
  revert i. induction n as [| n IH]; intros i; cbn [onLineCount]; [lia |].
  specialize (IH (i + 1)). destruct (slotOnLine beyond t y i); lia.
Qed.

Lemma drawnFrom_step (t : VrEmuTms9918a) (y i shown j : Z) :
  drawnFrom beyond t y i shown j ->
  slotEnds beyond t i = false
  /\ ((j = i /\ slotOnLine beyond t y i = true
       /\ shown < MAX_SCANLINE_SPRITES)
      \/ (i < j
          /\ drawnFrom beyond t y (i + 1)
                (shown + (if slotOnLine beyond t y i then 1 else 0)) j)).
Proof.
  unfold drawnFrom, MAX_SCANLINE_SPRITES.
  intros (Hij & Hne & Hon & Hcnt).
  replace (Z.to_nat (j + 1 - i)) with (S (Z.to_nat (j - i))) in Hne by lia.
  cbn [noEnd] in Hne. apply andb_true_iff in Hne as [He Hne].
  apply negb_true_iff in He. split; [exact He |].
  destruct (Z.eq_dec j i) as [-> | Hneq].
  - left. rewrite Z.sub_diag in Hcnt.
    change (Z.to_nat 0) with O in Hcnt. cbn [onLineCount] in Hcnt.
    split; [reflexivity |]. split; [exact Hon | lia].
  - right. split; [lia |]. split; [lia |].
    replace (j + 1 - (i + 1)) with (j - i) by lia.
    split; [exact Hne |]. split; [exact Hon |].
    replace (Z.to_nat (j - i)) with (S (Z.to_nat (j - (i + 1)))) in Hcnt
      by lia.
    cbn [onLineCount] in Hcnt. lia.
Qed.

Lemma slotBitAt_range (t : VrEmuTms9918a) (y i x : Z) :
  slotBitAt beyond t y i x = true ->
  0 <= x - slotHPos beyond t i < spriteSizePx t
  /\ patternBitAt beyond t (slotPatternOffset beyond t y i)
                  (x - slotHPos beyond t i) = true.
Proof.
  unfold slotBitAt. cbv zeta. intros H.
  apply andb_true_iff in H as [H Hb].
  apply andb_true_iff in H as [H0 H1].
  apply Z.leb_le in H0. apply Z.ltb_lt in H1. auto.
Qed.

Lemma testbit5_flag_index (st i : Z) (with5S : bool) :
  Z.testbit st 5 = true ->
  Z.testbit (if Z.land st STATUS_5S =? 0
             then u8 (Z.lor st (if with5S then Z.lor STATUS_5S i else i))
             else st) 5 = true.
Proof.
  intros H. destruct (Z.land st STATUS_5S =? 0); [| exact H].
  rewrite testbit_u8 by lia. rewrite Z.lor_spec, H. reflexivity.
Qed.

Lemma memset_long (a : list Z) (c n : Z) :
  (Z.to_nat n <= length (memset a c n))%nat.
Proof.
  unfold memset. rewrite length_app, length_replicate. lia.
Qed.

Lemma spriteSizePx_pos (t : VrEmuTms9918a) : 0 < spriteSizePx t.
Proof.
  unfold spriteSizePx.
  destruct (nonzero (tmsSpriteSize t)), (nonzero (tmsSpriteMag t)); lia.
Qed.

Lemma pattern_start (t : VrEmuTms9918a) (off : Z) :
  patternIndex t 0 mod 8 = 0
  /\ patternByteAt beyond t off 0 = vramAt beyond t off.
Proof.
  unfold patternByteAt, patternIndex.
  destruct (nonzero (tmsSpriteMag t)); split; reflexivity.
Qed.

(** The column loop of a slot whose pattern bytes lie inside the array,
    as the slot loop calls it. *)
Lemma drawn_columns (t0 : VrEmuTms9918a) (y i st : Z) (rb1 px : list Z) :
  slotInside beyond t0 y i = true ->
  (Z.to_nat TMS9918A_PIXELS_X <= length rb1)%nat ->
  exists st1 rb2 px1,
    spriteColumns beyond (Z.to_nat (spriteSizePx t0))
                  (slotColor beyond t0 i) (slotPatternOffset beyond t0 y i)
                  (slotHPos beyond t0 i) 0 0
                  (vramAt beyond (touch st rb1 t0)
                          (slotPatternOffset beyond t0 y i))
                  (touch st rb1 t0) px
    = (touch st1 rb2 t0, px1)
    /\ (forall x, 0 <= x < TMS9918A_PIXELS_X ->
          slotBitAt beyond t0 y i x = true ->
          cell rb2 x <> 0 /\ (cell rb1 x <> 0 -> Z.testbit st1 5 = true)).
Proof.
  intros Hin Hrb1. unfold slotInside in Hin. apply Z.ltb_lt in Hin.
  destruct (pattern_start t0 (slotPatternOffset beyond t0 y i)) as [Hp0 Hb0].
  destruct (spriteColumns_run t0 (slotColor beyond t0 i)
              (slotPatternOffset beyond t0 y i) (slotHPos beyond t0 i)
              (Z.to_nat (spriteSizePx t0)) 0 st rb1 px ltac:(lia) Hin Hrb1)
    as (st1 & rb2 & px1 & Hrun1 & _ & _ & _ & _ & Hcols1).
  rewrite Hp0, Hb0, Z.add_0_r in Hrun1.
  exists st1, rb2, px1. split.
  - rewrite vramAt_touch by lia. exact Hrun1.
  - intros x Hx Hb. apply slotBitAt_range in Hb as [Hr Hb].
    apply (Hcols1 x Hx); [| exact Hb].
    pose proof (spriteSizePx_pos t0). lia.
Qed.

Lemma spriteSlots_run (t0 : VrEmuTms9918a) (y : Z) (n : nat) :
  forall (i shown st : Z) (rb px : list Z),
  0 <= i -> i + Z.of_nat n <= MAX_SPRITES ->
  0 <= shown ->
  (0 < shown -> (Z.to_nat TMS9918A_PIXELS_X <= length rb)%nat) ->
  exists st' rb' px',
    spriteSlots beyond n y (spriteSizePx t0) (tmsSpriteAttrTableAddr t0)
                (tmsSpritePatternTableAddr t0) i shown (touch st rb t0) px
    = (touch st' rb' t0, px')
    /\ (Z.testbit st 5 = true -> Z.testbit st' 5 = true)
    /\ (forall x j, 0 <= x < TMS9918A_PIXELS_X ->
          0 < shown -> cell rb x <> 0 -> j < i + Z.of_nat n ->
          drawnFrom beyond t0 y i shown j ->
          slotInside beyond t0 y j = true ->
          slotBitAt beyond t0 y j x = true ->
          Z.testbit st' 5 = true)
    /\ (forall x j1 j2, 0 <= x < TMS9918A_PIXELS_X ->
          j1 < j2 -> j2 < i + Z.of_nat n ->
          drawnFrom beyond t0 y i shown j1 ->
          drawnFrom beyond t0 y i shown j2 ->
          slotInside beyond t0 y j1 = true ->
          slotInside beyond t0 y j2 = true ->
          slotBitAt beyond t0 y j1 x = true ->
          slotBitAt beyond t0 y j2 x = true ->
          Z.testbit st' 5 = true).
Proof.
  induction n as [| n IH]; intros i shown st rb px Hi Hn Hshown Hrb.
  { exists st, rb, px. cbn [spriteSlots].
    split; [reflexivity |]. split; [auto |]. split.
    - intros x j _ _ _ Hj (Hij & _). lia.
    - intros x j1 j2 _ Hlt Hj2 (Hij & _) _. lia. }
  cbn [spriteSlots]. rewrite spriteSlot_eq by lia.
  destruct (slotEnds beyond t0 i) eqn:He.
  { eexists _, rb, px. split; [reflexivity |].
    split; [apply (testbit5_flag_index st i false) |]. split.
    - intros x j _ _ _ _ Hd _. apply drawnFrom_step in Hd as [Hd _].
      congruence.
    - intros x j1 j2 _ _ _ Hd _ _. apply drawnFrom_step in Hd as [Hd _].
      congruence. }
  destruct (slotOnLine beyond t0 y i) eqn:Hon; cbn [negb]; cycle 1.
  { destruct (IH (i + 1) shown st rb px ltac:(lia) ltac:(lia) Hshown Hrb)
      as (st' & rb' & px' & Hrun & Hst & H2 & H3).
    exists st', rb', px'. split; [exact Hrun |]. split; [exact Hst |]. split.
    - intros x j Hx Hs Hnz Hj Hd Hin Hb.
      apply drawnFrom_step in Hd as [_ [(-> & Hon' & _) | (Hlt & Hd)]];
        [congruence |].
      rewrite Hon, Z.add_0_r in Hd.
      apply (H2 x j); auto. lia.
    - intros x j1 j2 Hx Hlt Hj2 Hd1 Hd2 Hin1 Hin2 Hb1 Hb2.
      apply drawnFrom_step in Hd1 as [_ [(-> & Hon' & _) | (Hlt1 & Hd1)]];
        [congruence |].
      apply drawnFrom_step in Hd2 as [_ [(-> & Hon' & _) | (Hlt2 & Hd2)]];
        [congruence |].
      rewrite Hon, Z.add_0_r in Hd1, Hd2.
      apply (H3 x j1 j2); auto. lia. }
  cbv zeta.
  set (rb1 := if shown =? 0 then memset rb 0 TMS9918A_PIXELS_X else rb).
  destruct (MAX_SCANLINE_SPRITES <? shown + 1) eqn:Hmax.
  { apply Z.ltb_lt in Hmax.
    eexists _, rb1, px. split; [reflexivity |].
    split; [apply (testbit5_flag_index st i true) |].
    assert (Hnone : forall j, ~ drawnFrom beyond t0 y i shown j).
    { intros j Hd.
      apply drawnFrom_step in Hd as [_ [(-> & _ & Hlim) | (Hlt & Hd)]];
        [lia |].
      destruct Hd as (_ & _ & _ & Hcnt). rewrite Hon in Hcnt.
      pose proof (onLineCount_nonneg (Z.to_nat (j - (i + 1))) t0 y (i + 1)).
      lia. }
    split.
    - intros x j _ _ _ _ Hd _. destruct (Hnone j Hd).
    - intros x j1 j2 _ _ _ Hd _ _. destruct (Hnone j1 Hd). }
  apply Z.ltb_ge in Hmax.
  assert (Hrb1 : (Z.to_nat TMS9918A_PIXELS_X <= length rb1)%nat).
  { unfold rb1. destruct (Z.eqb_spec shown 0) as [_ | Hnz].
    - apply memset_long.
    - apply Hrb. lia. }
  destruct (spriteColumns_frame t0 (Z.to_nat (spriteSizePx t0))
              (slotColor beyond t0 i) (slotPatternOffset beyond t0 y i)
              (slotHPos beyond t0 i) 0 0
              (vramAt beyond (touch st rb1 t0)
                      (slotPatternOffset beyond t0 y i)) st rb1 px)
    as (st1 & rb2 & px1 & Hrun1 & Hlen1 & Hst1 & Hmono1).
  rewrite Hrun1.
  destruct (IH (i + 1) (shown + 1) st1 rb2 px1 ltac:(lia) ltac:(lia)
              ltac:(lia) ltac:(intros _; rewrite Hlen1; exact Hrb1))
    as (st' & rb' & px' & Hrun & Hst & H2 & H3).
  exists st', rb', px'. split; [exact Hrun |].
  split; [auto |].
  assert (Hhere : forall x, 0 <= x < TMS9918A_PIXELS_X ->
            slotInside beyond t0 y i = true ->
            slotBitAt beyond t0 y i x = true ->
            cell rb2 x <> 0 /\ (cell rb1 x <> 0 -> Z.testbit st1 5 = true)).
  { intros x Hx Hin Hb.
    destruct (drawn_columns t0 y i st rb1 px Hin Hrb1)
      as (st1' & rb2' & px1' & Hrun1' & Hcols1).
    rewrite Hrun1 in Hrun1'. injection Hrun1' as <- <- <-.
    apply (Hcols1 x Hx Hb). }
  split.
  - intros x j Hx Hs Hnz Hj Hd Hin Hb.
    assert (Erb : rb1 = rb).
    { unfold rb1. destruct (Z.eqb_spec shown 0); [lia | reflexivity]. }
    apply drawnFrom_step in Hd as [_ [(-> & _ & _) | (Hlt & Hd)]].
    + apply Hst. apply (Hhere x Hx Hin Hb). rewrite Erb. exact Hnz.
    + rewrite Hon in Hd. apply (H2 x j); auto; try lia.
      apply Hmono1; [exact Hx |]. rewrite Erb. exact Hnz.
  - intros x j1 j2 Hx Hlt Hj2 Hd1 Hd2 Hin1 Hin2 Hb1 Hb2.
    apply drawnFrom_step in Hd2 as [_ [(-> & _ & _) | (Hlt2 & Hd2)]].
    { destruct Hd1 as (Hij & _). lia. }
    rewrite Hon in Hd2.
    apply drawnFrom_step in Hd1 as [_ [(-> & _ & _) | (Hlt1 & Hd1)]].
    + apply (H2 x j2); auto; try lia.
      apply (Hhere x Hx Hin1 Hb1).
    + rewrite Hon in Hd1. apply (H3 x j1 j2); auto. lia.
Qed.

Lemma outputSprites_run (t : VrEmuTms9918a) (y : Z) (pixels : list Z) :
  vrEmuTms9918aOutputSprites beyond t y pixels
  = spriteSlots beyond (Z.to_nat MAX_SPRITES) y (spriteSizePx t)
      (tmsSpriteAttrTableAddr t) (tmsSpritePatternTableAddr t) 0 0
      (touch (if y =? 0 then 0 else status t) (rowSpriteBits t) t) pixels.
Proof.
  unfold vrEmuTms9918aOutputSprites, spriteSizePx.
  replace (if y =? 0 then set_status 0 t else t)
    with (touch (if y =? 0 then 0 else status t) (rowSpriteBits t) t);
    [reflexivity |].
  destruct t, (y =? 0); reflexivity.
Qed.

(** The sprite pass writes the status byte and the occupancy row only. *)
Lemma outputSprites_touch (t : VrEmuTms9918a) (y : Z) (pixels : list Z) :
  exists st rb,
    fst (vrEmuTms9918aOutputSprites beyond t y pixels) = touch st rb t.
Proof.
  rewrite outputSprites_run.
  destruct (spriteSlots_run t y (Z.to_nat MAX_SPRITES) 0 0
              (if y =? 0 then 0 else status t) (rowSpriteBits t) pixels
              ltac:(lia) ltac:(unfold MAX_SPRITES; lia) ltac:(lia)
              ltac:(lia))
    as (st & rb & px & Hrun & _).
  exists st, rb. rewrite Hrun. reflexivity.
Qed.

Lemma scanLine_touch (t : VrEmuTms9918a) (y : Z) (pixels : list Z) :
  exists st rb,
    fst (vrEmuTms9918aScanLine beyond t y pixels) = touch st rb t.
Proof.
  unfold vrEmuTms9918aScanLine.
  destruct (_ || _).
  { exists (status t), (rowSpriteBits t). symmetry. apply touch_self. }
  assert (Hmode : exists st rb,
    fst (match mode t with
         | TMS_MODE_GRAPHICS_I =>
             vrEmuTms9918aGraphicsIScanLine beyond t y pixels
         | TMS_MODE_GRAPHICS_II =>
             vrEmuTms9918aGraphicsIIScanLine beyond t y pixels
         | TMS_MODE_TEXT => vrEmuTms9918aTextScanLine beyond t y pixels
         | TMS_MODE_MULTICOLOR =>
             vrEmuTms9918aMulticolorScanLine beyond t y pixels
         end) = touch st rb t).
  { destruct (mode t).
    - unfold vrEmuTms9918aGraphicsIScanLine.
      destruct (graphicsITiles _ _ _ _ _ _ _ _ _ _) as [? bg].
      apply outputSprites_touch.
    - unfold vrEmuTms9918aGraphicsIIScanLine.
      destruct (graphicsIITiles _ _ _ _ _ _ _ _ _ _) as [? bg].
      apply outputSprites_touch.
    - unfold vrEmuTms9918aTextScanLine.
      destruct (margin _ _ _ _ _) as [? p1].
      destruct (textTiles _ _ _ _ _ _ _ _ _ _) as [? p2].
      destruct (margin _ _ _ _ _) as [? p3].
      exists (status t), (rowSpriteBits t). symmetry. apply touch_self.
    - unfold vrEmuTms9918aMulticolorScanLine.
      destruct (multicolorTiles _ _ _ _ _ _ _ _) as [? bg].
      apply outputSprites_touch. }
  destruct Hmode as (st & rb & Hm).
  destruct (match mode t with
            | TMS_MODE_GRAPHICS_I => _ | TMS_MODE_GRAPHICS_II => _
            | TMS_MODE_TEXT => _ | TMS_MODE_MULTICOLOR => _ end) as [t1 px1].
  cbn [fst] in Hm. subst t1.
  destruct (y =? TMS9918A_PIXELS_Y - 1); cbn [fst].
  - eexists _, rb. reflexivity.
  - exists st, rb. reflexivity.
Qed.



(** *** The fifth sprite of a line *)

Lemma fifthFrom_step (t : VrEmuTms9918a) (y i shown j : Z) :
  fifthFrom beyond t y i shown j ->
  slotEnds beyond t i = false
  /\ ((j = i /\ slotOnLine beyond t y i = true
       /\ shown = MAX_SCANLINE_SPRITES)
      \/ (i < j
          /\ fifthFrom beyond t y (i + 1)
                (shown + (if slotOnLine beyond t y i then 1 else 0)) j)).
Proof.
  unfold fifthFrom, MAX_SCANLINE_SPRITES.
  intros (Hij & Hne & Hon & Hcnt).
  replace (Z.to_nat (j + 1 - i)) with (S (Z.to_nat (j - i))) in Hne by lia.
  cbn [noEnd] in Hne. apply andb_true_iff in Hne as [He Hne].
  apply negb_true_iff in He. split; [exact He |].
  destruct (Z.eq_dec j i) as [-> | Hneq].
  - left. rewrite Z.sub_diag in Hcnt.
    change (Z.to_nat 0) with O in Hcnt. cbn [onLineCount] in Hcnt.
    split; [reflexivity |]. split; [exact Hon | lia].
  - right. split; [lia |]. split; [lia |].
    replace (j + 1 - (i + 1)) with (j - i) by lia.
    split; [exact Hne |]. split; [exact Hon |].
    replace (Z.to_nat (j - i)) with (S (Z.to_nat (j - (i + 1)))) in Hcnt
      by lia.
    cbn [onLineCount] in Hcnt. lia.
Qed.

(** Rendering a sprite changes no status bit but COL. *)
Lemma spriteColumns_status (n : nat) :
  forall (c off x sb pb byte : Z) (t : VrEmuTms9918a) (px : list Z) (k : Z),
  0 <= k < 8 -> k <> 5 ->
  Z.testbit (status (fst (spriteColumns beyond n c off x sb pb byte t px))) k
  = Z.testbit (status t) k.
Proof.
  induction n as [| n IH]; intros c off x sb pb byte t px k Hk H5;
    [reflexivity |].
  cbn [spriteColumns].
  destruct (TMS9918A_PIXELS_X <=? x); [reflexivity |].
  set (r := if (0 <=? x) && nonzero (Z.land byte (Z.shiftr 128 pb))
            then spriteColumn c x t px else (t, px)).
  assert (Hr : Z.testbit (status (fst r)) k = Z.testbit (status t) k).
  { unfold r. destruct (_ && _); [| reflexivity].
    unfold spriteColumn. cbn [fst status set_rowSpriteBits].
    destruct (nonzero (cell (rowSpriteBits t) x)); [| reflexivity].
    cbn [status set_status]. rewrite testbit_u8 by lia.
    rewrite Z.lor_spec.
    replace (Z.testbit STATUS_COL k) with false; [apply orb_false_r |].
    symmetry. unfold STATUS_COL. change 32 with (2 ^ 5).
    apply Z.pow2_bits_false. lia. }
  destruct r as [t1 px1]. cbn [fst] in Hr.
  destruct (negb (nonzero (tmsSpriteMag t1)) || nonzero (Z.land sb 1));
    [destruct (pb + 1 =? 8) |]; rewrite IH by assumption; exact Hr.
Qed.

Lemma low5_of_bits (a b : Z) :
  (forall k, 0 <= k < 5 -> Z.testbit a k = Z.testbit b k) ->
  Z.land a 0x1f = Z.land b 0x1f.
Proof.
  intros H. apply Z.bits_inj'. intros k Hk.
  rewrite !Z.land_spec. change 0x1f with (Z.ones 5).
  rewrite Z.testbit_ones_nonneg by lia.
  destruct (Z.ltb_spec k 5) as [Hlt | Hge].
  - rewrite H by lia. reflexivity.
  - rewrite !andb_false_r. reflexivity.
Qed.

(** What the 5S path leaves in the status byte. *)
Lemma fifth_flag_index (st j : Z) :
  0 <= j < MAX_SPRITES ->
  let st' := if Z.land st STATUS_5S =? 0
             then u8 (Z.lor st (Z.lor STATUS_5S j)) else st in
  Z.testbit st' 6 = true
  /\ (Z.testbit st 6 = false ->
      Z.land st' 0x1f = Z.lor (Z.land st 0x1f) j)
  /\ (Z.testbit st 6 = true -> st' = st).
Proof.
  intros Hj. cbv zeta. unfold MAX_SPRITES in Hj.
  pose proof (nonzero_land_pow2 st 6 ltac:(lia)) as Hnz.
  unfold nonzero in Hnz. change (2 ^ 6) with STATUS_5S in Hnz.
  destruct (Z.land st STATUS_5S =? 0); cbn [negb] in Hnz.
  - split; [| split].
    + rewrite testbit_u8 by lia. rewrite !Z.lor_spec.
      change (Z.testbit STATUS_5S 6) with true.
      rewrite orb_true_l. apply orb_true_r.
    + intros _. apply Z.bits_inj'. intros k Hk.
      rewrite Z.lor_spec, !Z.land_spec. change 0x1f with (Z.ones 5).
      rewrite Z.testbit_ones_nonneg by lia.
      destruct (Z.ltb_spec k 5) as [Hlt | Hge].
      * rewrite testbit_u8 by lia. rewrite !Z.lor_spec.
        replace (Z.testbit STATUS_5S k) with false.
        { rewrite !andb_true_r. reflexivity. }
        symmetry. unfold STATUS_5S. change 64 with (2 ^ 6).
        apply Z.pow2_bits_false. lia.
      * rewrite !andb_false_r.
        rewrite (testbit_beyond 5 j k); [reflexivity | lia | exact Hge].
    + intros H6. congruence.
  - split; [congruence |]. split; [congruence | reflexivity].
Qed.

(** From a fifth visible slot [j] on, the slot loop does the turns up
    to [j] and no more, ends with 5S set and, when 5S was clear, with
    [j] or-ed into what status bits 0..4 held. *)
Lemma spriteSlots_fifth (t0 : VrEmuTms9918a) (y : Z) (n : nat) :
  forall (i shown st : Z) (rb px : list Z) (j : Z),
  0 <= shown -> 0 <= i ->
  (0 < shown -> (Z.to_nat TMS9918A_PIXELS_X <= length rb)%nat) ->
  j < i + Z.of_nat n -> j < MAX_SPRITES ->
  fifthFrom beyond t0 y i shown j ->
  let run m :=
    spriteSlots beyond m y (spriteSizePx t0) (tmsSpriteAttrTableAddr t0)
                (tmsSpritePatternTableAddr t0) i shown (touch st rb t0) px in
  run n = run (Z.to_nat (j + 1 - i))
  /\ Z.testbit (status (fst (run n))) 6 = true
  /\ (Z.testbit st 6 = false ->
      Z.land (status (fst (run n))) 0x1f = Z.lor (Z.land st 0x1f) j)
  /\ (Z.testbit st 6 = true ->
      Z.land (status (fst (run n))) 0x1f = Z.land st 0x1f).
Proof.
  induction n as [| n IH]; intros i shown st rb px j Hshown Hi Hrb Hjn Hj Hf;
    cbv zeta.
  { destruct Hf as (Hij & _). lia. }
  destruct (fifthFrom_step _ _ _ _ _ Hf) as [He Hcase].
  replace (Z.to_nat (j + 1 - i)) with (S (Z.to_nat (j - i)))
    by (destruct Hf as (Hij & _); lia).
  assert (Hir : 0 <= i < MAX_SPRITES) by (destruct Hf as (Hij & _); lia).
  cbn [spriteSlots]. rewrite (spriteSlot_eq t0 y i shown st rb px Hir), He.
  destruct Hcase as [(-> & Hon & Hlim) | (Hlt & Hf')].
  - rewrite Hon. cbn [negb]. cbv zeta. rewrite Hlim.
    change (MAX_SCANLINE_SPRITES <? MAX_SCANLINE_SPRITES + 1) with true.
    cbv iota. cbn [fst status touch set_rowSpriteBits set_status].
    destruct (fifth_flag_index st i ltac:(lia)) as (H6 & Hlow & Hsame).
    split; [reflexivity |]. split; [exact H6 |]. split; [exact Hlow |].
    intros Hset. rewrite (Hsame Hset). reflexivity.
  - destruct (slotOnLine beyond t0 y i) eqn:Hon; cbn [negb].
    + cbv zeta.
      assert (Hroom : shown + 1 <= MAX_SCANLINE_SPRITES).
      { destruct Hf' as (_ & _ & _ & Hcnt).
        pose proof (onLineCount_nonneg (Z.to_nat (j - (i + 1))) t0 y (i + 1)).
        lia. }
      replace (MAX_SCANLINE_SPRITES <? shown + 1) with false
        by (symmetry; apply Z.ltb_ge; exact Hroom).
      set (rb1 := if shown =? 0 then memset rb 0 TMS9918A_PIXELS_X else rb).
      assert (Hrb1 : (Z.to_nat TMS9918A_PIXELS_X <= length rb1)%nat).
      { unfold rb1. destruct (Z.eqb_spec shown 0) as [_ | Hnz].
        - apply memset_long.
        - apply Hrb. lia. }
      destruct (spriteColumns_frame t0 (Z.to_nat (spriteSizePx t0))
                  (slotColor beyond t0 i) (slotPatternOffset beyond t0 y i)
                  (slotHPos beyond t0 i) 0 0
                  (vramAt beyond (touch st rb1 t0)
                          (slotPatternOffset beyond t0 y i)) st rb1 px)
        as (st1 & rb2 & px1 & Hrun1 & Hlen1 & _).
      pose proof (spriteColumns_status (Z.to_nat (spriteSizePx t0))
                    (slotColor beyond t0 i) (slotPatternOffset beyond t0 y i)
                    (slotHPos beyond t0 i) 0 0
                    (vramAt beyond (touch st rb1 t0)
                            (slotPatternOffset beyond t0 y i))
                    (touch st rb1 t0) px) as Hbits.
      rewrite Hrun1 in Hbits |- *.
      cbn [fst status touch set_rowSpriteBits set_status] in Hbits.
      replace (Z.to_nat (j - i)) with (S (Z.to_nat (j - (i + 1)))) by lia.
      replace (S (Z.to_nat (j - (i + 1))))
        with (Z.to_nat (j + 1 - (i + 1))) by lia.
      destruct (IH (i + 1) (shown + 1) st1 rb2 px1 j ltac:(lia) ltac:(lia)
                  ltac:(intros _; rewrite Hlen1; exact Hrb1) ltac:(lia) Hj Hf')
        as (Heq & H6 & Hlow & Hkeep).
      split; [exact Heq |]. split; [exact H6 |].
      assert (Hl5 : Z.land st1 0x1f = Z.land st 0x1f).
      { apply low5_of_bits. intros k Hk. apply Hbits; lia. }
      split.
      * intros Hclr. rewrite Hlow, Hl5; [reflexivity |].
        rewrite Hbits by lia. exact Hclr.
      * intros Hset. rewrite Hkeep, Hl5; [reflexivity |].
        rewrite Hbits by lia. exact Hset.
    + rewrite Z.add_0_r in Hf'.
      replace (Z.to_nat (j - i)) with (Z.to_nat (j + 1 - (i + 1))) by lia.
      apply (IH (i + 1) shown st rb px j); auto; lia.
Qed.

(** On a line with a fifth visible slot [j], the sprite pass stops at
    [j] and sets 5S; where 5S was clear on entry, status bits 0..4 end
    as the bitwise or of [j] with what they held on entry: [j] itself on
    line 0, which clears the byte first. *)
Lemma fifth_sprite_status (t : VrEmuTms9918a) (y j : Z) (pixels : list Z) :
  slotFifth beyond t y j ->
  let entry := if y =? 0 then 0 else status t in
  let result := vrEmuTms9918aOutputSprites beyond t y pixels in
  result
  = spriteSlots beyond (Z.to_nat (j + 1)) y (spriteSizePx t)
      (tmsSpriteAttrTableAddr t) (tmsSpritePatternTableAddr t) 0 0
      (touch entry (rowSpriteBits t) t) pixels
  /\ Z.testbit (status (fst result)) 6 = true
  /\ (Z.testbit entry 6 = false ->
      Z.land (status (fst result)) 0x1f = Z.lor (Z.land entry 0x1f) j)
  /\ (y = 0 -> Z.land (status (fst result)) 0x1f = j).
Proof.
  intros [Hj Hf]. cbv zeta. rewrite outputSprites_run.
  destruct (spriteSlots_fifth t y (Z.to_nat MAX_SPRITES) 0 0
              (if y =? 0 then 0 else status t) (rowSpriteBits t) pixels j
              ltac:(lia) ltac:(lia) ltac:(lia)
              ltac:(unfold MAX_SPRITES in *; lia) ltac:(lia) Hf)
    as (Heq & H6 & Hlow & _).
  rewrite Z.sub_0_r in Heq.
  split; [exact Heq |]. split; [exact H6 |]. split; [exact Hlow |].
  intros ->. change (0 =? 0) with true in *. cbv iota in *.
  rewrite Hlow by reflexivity. reflexivity.
Qed.



(** ** Scanline dispatcher *)

(** C7: with the display enabled and a cached mode other than Text,
    rendering scanline 0 runs the sprite slot loop from a state whose
    status byte is zero; in Text mode, which has no sprite pass, and
    with the display disabled, rendering scanline 0 leaves the state,
    and so the status byte, as it was. *)
Theorem scanline0_status_cleared_before_sprites
    (t : VrEmuTms9918a) (pixels : list Z) :
  (Z.testbit (reg t TMS_REG_1) 6 = true ->
   mode t <> TMS_MODE_TEXT ->
   exists background,
     vrEmuTms9918aScanLine beyond t 0 pixels
     = spriteSlots beyond (Z.to_nat MAX_SPRITES) 0 (spriteSizePx t)
         (tmsSpriteAttrTableAddr t) (tmsSpritePatternTableAddr t) 0 0
         (set_status 0 t) background)
  /\ (Z.testbit (reg t TMS_REG_1) 6 = false \/ mode t = TMS_MODE_TEXT ->
      fst (vrEmuTms9918aScanLine beyond t 0 pixels) = t).
Proof.
  unfold vrEmuTms9918aScanLine, vrEmuTms9918aDisplayEnabled.
  change 0x40 with (2 ^ 6). rewrite nonzero_land_pow2 by lia.
  change (0 =? TMS9918A_PIXELS_Y - 1) with false.
  change (TMS9918A_PIXELS_Y <=? 0) with false.
  split.
  - intros Hen Hmode. rewrite Hen. cbn [nonzero negb orb Z.eqb].
    destruct (mode t); [| | contradiction |].
    + unfold vrEmuTms9918aGraphicsIScanLine.
      destruct (graphicsITiles _ _ _ _ _ _ _ _ _ _) as [? bg].
      exists bg. destruct (vrEmuTms9918aOutputSprites beyond t 0 bg) eqn:E.
      rewrite <- E. reflexivity.
    + unfold vrEmuTms9918aGraphicsIIScanLine.
      destruct (graphicsIITiles _ _ _ _ _ _ _ _ _ _) as [? bg].
      exists bg. destruct (vrEmuTms9918aOutputSprites beyond t 0 bg) eqn:E.
      rewrite <- E. reflexivity.
    + unfold vrEmuTms9918aMulticolorScanLine.
      destruct (multicolorTiles _ _ _ _ _ _ _ _) as [? bg].
      exists bg. destruct (vrEmuTms9918aOutputSprites beyond t 0 bg) eqn:E.
      rewrite <- E. reflexivity.
  - intros [Hoff | Htext].
    + rewrite Hoff. reflexivity.
    + destruct (Z.testbit (reg t TMS_REG_1) 6); [| reflexivity].
      cbn [nonzero negb orb Z.eqb]. rewrite Htext.
      unfold vrEmuTms9918aTextScanLine.
      destruct (margin _ _ _ _ _) as [? p1].
      destruct (textTiles _ _ _ _ _ _ _ _ _ _) as [? p2].
      destruct (margin _ _ _ _ _) as [? p3].
      reflexivity.
Qed.

(** C8: for every line [y], [scanline(y)] with the display disabled
    (R1 bit 6 = 0) leaves the state alone and fills the 256-byte buffer
    with the color index of black, which is 1. *)
Theorem scanline_blank_is_black (t : VrEmuTms9918a) (y : Z)
    (pixels : list Z) :
  length pixels = Z.to_nat TMS9918A_PIXELS_X ->
  Z.testbit (reg t TMS_REG_1) 6 = false ->
  vrEmuTms9918aScanLine beyond t y pixels
  = (t, replicate (Z.to_nat TMS9918A_PIXELS_X) TMS_BLACK).
Proof.
  intros Hlen Hoff.
  unfold vrEmuTms9918aScanLine, tmsMainBgColor, vrEmuTms9918aDisplayEnabled.
  change 0x40 with (2 ^ 6). rewrite nonzero_land_pow2 by lia.
  rewrite Hoff. cbn [nonzero negb orb Z.eqb].
  rewrite (memset_all _ _ _ Hlen). reflexivity.
Qed.

(** ** Address pointer *)

Lemma perform_address (t : VrEmuTms9918a) (op : operation) :
  is_u16 (currentAddress t) -> operation_ok op ->
  is_u16 (currentAddress (perform beyond t op)).
Proof.
  intros Ha Hop. destruct op as [data | data | | | y pixels |]; cbn [perform].
  - unfold vrEmuTms9918aWriteAddr.
    destruct (nonzero (lastMode t)); [destruct (nonzero (Z.land data 128)) |];
      cbn; try exact Ha; try apply is_u16_u16.
    cbn in Hop. unfold is_u8, is_u16 in *. lia.
  - apply is_u16_u16.
  - apply is_u16_u16.
  - exact Ha.
  - destruct (scanLine_touch t y pixels) as (st & rb & ->). exact Ha.
  - cbn. unfold is_u16. lia.
Qed.

Lemma perform_vram_length (t : VrEmuTms9918a) (op : operation) :
  length (vram t) = Z.to_nat VRAM_SIZE ->
  length (vram (perform beyond t op)) = Z.to_nat VRAM_SIZE.
Proof.
  intros Hlen. destruct op as [data | data | | | y pixels |]; cbn [perform].
  - unfold vrEmuTms9918aWriteAddr.
    destruct (nonzero (lastMode t)); [destruct (nonzero (Z.land data 128)) |];
      exact Hlen.
  - cbn. rewrite length_store. exact Hlen.
  - exact Hlen.
  - exact Hlen.
  - destruct (scanLine_touch t y pixels) as (st & rb & ->). exact Hlen.
  - cbn. rewrite (memset_all _ _ _ Hlen). apply length_replicate.
Qed.

(** C9: after every operation the address field holds a 16-bit value
    and the VRAM keeps its 16384 cells; the cell a data-port access
    then takes is the one at index [address mod 16384], inside the
    array: [write_data] stores its byte there and changes no other
    cell, [read_data] and the read without increment return the byte
    found there. *)
Theorem address_index_in_range (t : VrEmuTms9918a) (ops : list operation) :
  is_u16 (currentAddress t) ->
  length (vram t) = Z.to_nat VRAM_SIZE ->
  Forall operation_ok ops ->
  let t' := run beyond t ops in
  let index := Z.to_nat (currentAddress t' mod 16384) in
  is_u16 (currentAddress t')
  /\ length (vram t') = Z.to_nat VRAM_SIZE
  /\ (index < length (vram t'))%nat
  /\ (forall data,
        vram (vrEmuTms9918aWriteData t' data) !! index = Some data
        /\ forall k, k <> index ->
             vram (vrEmuTms9918aWriteData t' data) !! k = vram t' !! k)
  /\ vram t' !! index = Some (fst (vrEmuTms9918aReadData t'))
  /\ vram t' !! index = Some (vrEmuTms9918aReadDataNoInc t').
Proof.
  intros Ha Hlen Hops. cbv zeta.
  assert (Hrun : is_u16 (currentAddress (run beyond t ops))
                 /\ length (vram (run beyond t ops)) = Z.to_nat VRAM_SIZE).
  { revert t Ha Hlen. induction Hops as [| op ops Hop _ IH]; intros t Ha Hlen.
    - split; [exact Ha | exact Hlen].
    - cbn [run fold_left]. apply IH.
      + now apply perform_address.
      + now apply perform_vram_length. }
  destruct Hrun as [Hrun Hlen'].
  set (t' := run beyond t ops) in *.
  assert (Hidx : (Z.to_nat (currentAddress t' mod 16384)
                  < length (vram t'))%nat).
  { rewrite Hlen'. change VRAM_SIZE with 16384.
    pose proof (Z.mod_pos_bound (currentAddress t') 16384). lia. }
  destruct (lookup_lt_is_Some_2 _ _ Hidx) as [b Hb].
  split; [exact Hrun |]. split; [exact Hlen' |]. split; [exact Hidx |].
  split; [| split].
  - intros data. unfold vrEmuTms9918aWriteData.
    cbn [vram set_vram set_currentAddress]. unfold store.
    rewrite land_3fff. split.
    + apply list_lookup_insert_eq. exact Hidx.
    + intros k Hk. apply list_lookup_insert_ne. congruence.
  - unfold vrEmuTms9918aReadData. cbn [fst vram set_currentAddress].
    rewrite land_3fff. unfold cell. rewrite Hb. reflexivity.
  - unfold vrEmuTms9918aReadDataNoInc. rewrite land_3fff.
    unfold cell. rewrite Hb. reflexivity.
Qed.

End SpriteFacts.

(** ** Worked traces *)


Lemma scanline0_status_cleared_before_sprites_witness :
  exists background,
    vrEmuTms9918aScanLine nothingBeyond fiveInARow 0 blankLine
    = spriteSlots nothingBeyond (Z.to_nat MAX_SPRITES) 0
        (spriteSizePx fiveInARow) (tmsSpriteAttrTableAddr fiveInARow)
        (tmsSpritePatternTableAddr fiveInARow) 0 0
        (set_status 0 fiveInARow) background.
Proof.
  apply (proj1 (scanline0_status_cleared_before_sprites nothingBeyond
                  fiveInARow blankLine)).
  - vm_compute. reflexivity.
  - vm_compute. discriminate.
Defined.

(** Text mode: the INT flag raised by line 191 is still there after
    line 0 has been rendered. *)
Lemma scanline0_text_keeps_status :
  let t1 := fst (vrEmuTms9918aScanLine nothingBeyond textMode 191 blankLine) in
  let t2 := fst (vrEmuTms9918aScanLine nothingBeyond t1 0 blankLine) in
  mode textMode = TMS_MODE_TEXT
  /\ vrEmuTms9918aDisplayEnabled textMode = 1
  /\ status t1 = STATUS_INT
  /\ status t2 = STATUS_INT
  /\ status t2 <> 0.
Proof. vm_compute. repeat split. discriminate. Qed.

Lemma scanline_blank_is_black_witness :
  vrEmuTms9918aScanLine nothingBeyond (vrEmuTms9918aReset raw) 100 blankLine
  = (vrEmuTms9918aReset raw, replicate (Z.to_nat TMS9918A_PIXELS_X) 1).
Proof.
  apply (scanline_blank_is_black nothingBeyond (vrEmuTms9918aReset raw) 100
           blankLine).
  - reflexivity.
  - reflexivity.
Defined.

(** After reset the display is disabled, and a scanline is 256 bytes of
    color index 1, not 0. *)
Lemma scanline_blank_not_zero :
  let pixels :=
    snd (vrEmuTms9918aScanLine nothingBeyond (vrEmuTms9918aReset raw) 0
           blankLine) in
  Z.testbit (reg (vrEmuTms9918aReset raw) TMS_REG_1) 6 = false
  /\ pixels = replicate (Z.to_nat TMS9918A_PIXELS_X) 1
  /\ pixels <> replicate (Z.to_nat TMS9918A_PIXELS_X) 0.
Proof. vm_compute. repeat split. discriminate. Qed.

Lemma address_index_in_range_witness :
  let t' :=
    run nothingBeyond (vrEmuTms9918aReset raw)
        [OpWriteAddr 0xFF; OpWriteAddr 0x3F; OpWriteData 0; OpReadData;
         OpReadStatus; OpScanLine 0 blankLine] in
  currentAddress t' = 0x4001
  /\ vram (vrEmuTms9918aWriteData t' 7) !! 1%nat = Some 7
  /\ vram t' !! 1%nat = Some (fst (vrEmuTms9918aReadData t')).
Proof.
  destruct (address_index_in_range nothingBeyond (vrEmuTms9918aReset raw)
              [OpWriteAddr 0xFF; OpWriteAddr 0x3F; OpWriteData 0; OpReadData;
               OpReadStatus; OpScanLine 0 blankLine])
    as (_ & _ & _ & Hw & Hr & _).
  - unfold is_u16. simpl. lia.
  - reflexivity.
  - repeat constructor; unfold is_u8; lia.
  - split; [reflexivity |]. split; [exact (proj1 (Hw 7)) | exact Hr].
Defined.

(** One [write_data] at address 0x3FFF leaves 0x4000 in the address
    field. *)
Lemma address_field_exceeds_3fff :
  let t := setAddress (vrEmuTms9918aReset raw) 0x3FFF in
  let t' := vrEmuTms9918aWriteData t 0 in
  currentAddress t = 0x3FFF
  /\ currentAddress t' = 0x4000
  /\ ~ (0 <= currentAddress t' <= 0x3FFF).
Proof. vm_compute. repeat split. intros [_ H]. apply H. reflexivity. Qed.

(** C5: with the terminator in slot 5 and slots 0..4 on line 10, line 0
    leaves the terminator index 5 in status bits 0..4; line 10 then
    stops at slot 4, the fifth visible one, sets 5S, and ors 4 into
    those bits, which read 5, not 4. *)
Theorem fifth_sprite_index_merged :
  let t1 :=
    fst (vrEmuTms9918aScanLine nothingBeyond fiveInARow 0 blankLine) in
  let t2 := fst (vrEmuTms9918aScanLine nothingBeyond t1 10 blankLine) in
  slotFifth nothingBeyond t1 10 4
  /\ status t1 = 5
  /\ Z.testbit (status t2) 6 = true
  /\ Z.land (status t2) 0x1f = 5.
Proof.
  cbv zeta. split.
  - split; [unfold MAX_SPRITES; lia |].
    unfold fifthFrom. split; [lia |].
    repeat split; vm_compute; reflexivity.
  - vm_compute. repeat split.
Qed.

(** Pattern bytes past the end of [vram], in the usual layout: on line 9
    the first pattern byte of the sprite of [pastTheEnd] is register 0
    and the second one the first cell of the occupancy row, which the
    pass has set by then, when it drew column 0; so column 15 is
    painted as well, though that cell was clear when the pass began and
    the description of the pattern bits, taken on the state the pass
    starts from, has no bit there. *)
Lemma pattern_bytes_past_the_array :
  let r := vrEmuTms9918aOutputSprites fieldsBeyond pastTheEnd 9 blankLine in
  slotPatternOffset fieldsBeyond pastTheEnd 9 0 = VRAM_SIZE
  /\ slotInside fieldsBeyond pastTheEnd 9 0 = false
  /\ vramAt fieldsBeyond pastTheEnd VRAM_SIZE = reg pastTheEnd TMS_REG_0
  /\ vramAt fieldsBeyond (fst r) (VRAM_SIZE + 16)
     = cell (rowSpriteBits (fst r)) 0
  /\ snd r = store (store blankLine 0 5) 15 5
  /\ slotBitAt fieldsBeyond pastTheEnd 9 0 15 = false.
Proof. vm_compute. repeat split. Qed.

(** C10: on a null handle, reset, destroy, scanline and the register,
    VRAM and display-enable accessors return at once, with 0 where they return
    a byte; the address port, the data port and the status read
    dereference the handle. *)
Theorem null_handle_calls (data y r addr : Z) (pixels : list Z)
    (beyond : VrEmuTms9918a -> Z -> Z) :
  (Handle.vrEmuTms9918aReset None = Returns None
   /\ Handle.vrEmuTms9918aDestroy None = Returns tt
   /\ Handle.vrEmuTms9918aScanLine beyond None y pixels
      = Returns (None, pixels)
   /\ Handle.vrEmuTms9918aRegValue None r = Returns 0
   /\ Handle.vrEmuTms9918aVramValue None addr = Returns 0
   /\ Handle.vrEmuTms9918aDisplayEnabled None = Returns 0)
  /\ (Handle.vrEmuTms9918aWriteAddr None data = NullDereference
      /\ Handle.vrEmuTms9918aWriteData None data = NullDereference
      /\ Handle.vrEmuTms9918aReadStatus None = NullDereference
      /\ Handle.vrEmuTms9918aReadData None = NullDereference
      /\ Handle.vrEmuTms9918aReadDataNoInc None = NullDereference).
Proof. repeat split. Qed.

(** * Further properties of the code *)

(** *** Reset *)

Lemma memset_memset (a : list Z) (c n : Z) :
  memset (memset a c n) c n = memset a c n.
Proof.
  unfold memset. f_equal.
  rewrite drop_app_length'; [reflexivity |].
  symmetry. apply length_replicate.
Qed.

(** X2: a reset right after a reset changes nothing. *)
Theorem reset_idempotent (t : VrEmuTms9918a) :
  vrEmuTms9918aReset (vrEmuTms9918aReset t) = vrEmuTms9918aReset t.
Proof.
  unfold vrEmuTms9918aReset.
  cbn [set_vram set_registers set_status set_lastMode set_currentAddress
       vram registers status lastMode currentAddress mode rowSpriteBits].
  rewrite !memset_memset. reflexivity.
Qed.

(** *** Data port *)

Lemma writeAll_fields (l : list Z) (t : VrEmuTms9918a) :
  lastMode (writeAll t l) = lastMode t
  /\ registers (writeAll t l) = registers t
  /\ status (writeAll t l) = status t
  /\ mode (writeAll t l) = mode t
  /\ u16 (currentAddress (writeAll t l))
     = u16 (currentAddress t + Z.of_nat (length l)).
Proof.
  revert t. induction l as [| b l IH]; intros t.
  - cbn [writeAll length]. rewrite Z.add_0_r. repeat split.
  - cbn [writeAll]. destruct (IH (vrEmuTms9918aWriteData t b))
      as (H1 & H2 & H3 & H4 & H5).
    rewrite H1, H2, H3, H4, H5. cbn. repeat split.
    unfold u16. Z.div_mod_to_equations. lia.
Qed.

(** X6: the low byte latched by a first address write lives in the
    address pointer: data writes before the second address write leave
    the latch in second phase, and a register write then stores the
    first byte plus the number of data writes, modulo 256. *)
Theorem latch_shares_address_pointer (t : VrEmuTms9918a) (b1 b2 : Z)
    (l : list Z) :
  is_u8 b1 -> is_u8 b2 ->
  length (registers t) = Z.to_nat TMS_NUM_REGISTERS ->
  lastMode t = 0 ->
  let t1 := vrEmuTms9918aWriteAddr t b1 in
  let t2 := writeAll t1 l in
  let t3 := vrEmuTms9918aWriteAddr t2 b2 in
  lastMode t2 = 1
  /\ lastMode t3 = 0
  /\ (Z.testbit b2 7 = true ->
      vrEmuTms9918aRegValue t3 (Z.land b2 0x07)
      = (b1 + Z.of_nat (length l)) mod 256).
Proof.
  intros Hb1 Hb2 Hlen Hph t1 t2 t3.
  assert (E1 : t1 = set_lastMode 1 (set_currentAddress b1 t)).
  { unfold t1, vrEmuTms9918aWriteAddr. rewrite Hph. reflexivity. }
  destruct (writeAll_fields l t1) as (Hm & Hr & _ & _ & Ha).
  fold t2 in Hm, Hr, Ha. rewrite E1 in Hm, Hr, Ha.
  cbn [lastMode registers currentAddress set_lastMode set_currentAddress]
    in Hm, Hr, Ha.
  split; [exact Hm |].
  unfold t3, vrEmuTms9918aWriteAddr. rewrite Hm.
  change (nonzero 1) with true. cbv iota.
  change 0x80 with (2 ^ 7). rewrite nonzero_land_pow2 by lia.
  destruct (Z.testbit b2 7); cbn [lastMode set_lastMode]; split;
    try reflexivity; intros Hbit; try discriminate.
  unfold vrEmuTms9918aRegValue.
  cbn [registers set_lastMode set_mode set_registers].
  rewrite <- Z.land_assoc. change (Z.land 7 7) with 7.
  rewrite cell_store_eq.
  - rewrite land_ff. unfold u8. rewrite Z.mod_mod by lia.
    unfold u16 in Ha. Z.div_mod_to_equations. lia.
  - change 7 with (Z.ones 3). rewrite land_low_mod by lia.
    apply Z.mod_pos_bound. lia.
  - rewrite Hr, Hlen. change 7 with (Z.ones 3).
    rewrite land_low_mod by lia.
    pose proof (Z.mod_pos_bound b2 (2 ^ 3) ltac:(lia)).
    unfold TMS_NUM_REGISTERS. lia.
Qed.

(** X7: after any run of data writes from address [A], the VRAM cell at
    [A + i] (modulo 16384) holds the [i]-th byte, provided no later
    byte of the run went to the same cell. *)
Theorem vram_last_write_wins (l : list Z) :
  forall (t : VrEmuTms9918a) (i : nat) (b : Z),
  length (vram t) = Z.to_nat VRAM_SIZE ->
  l !! i = Some b ->
  (forall j, (i < j < length l)%nat ->
             (Z.of_nat j - Z.of_nat i) mod 16384 <> 0) ->
  vrEmuTms9918aVramValue (writeAll t l) (currentAddress t + Z.of_nat i) = b.
Proof.
  induction l as [| c l IH]; intros t i b Hlen Hi Hlast; [discriminate |].
  cbn [writeAll].
  assert (Hlen1 : length (vram (vrEmuTms9918aWriteData t c))
                  = Z.to_nat VRAM_SIZE).
  { cbn. rewrite length_store. exact Hlen. }
  destruct i as [| i].
  - cbn in Hi. injection Hi as ->.
    unfold vrEmuTms9918aVramValue. rewrite Z.add_0_r, land_3fff.
    rewrite writeAll_frame.
    + cbn. rewrite land_3fff. apply cell_store_eq.
      * apply Z.mod_pos_bound. lia.
      * rewrite Hlen. change VRAM_SIZE with 16384.
        pose proof (Z.mod_pos_bound (currentAddress t) 16384). lia.
    + apply Z.mod_pos_bound. lia.
    + intros j Hj. cbn. unfold u16.
      specialize (Hlast (S (Z.to_nat j))). cbn [length] in Hlast.
      specialize (Hlast ltac:(lia)).
      Z.div_mod_to_equations. lia.
  - cbn in Hi.
    specialize (IH (vrEmuTms9918aWriteData t c) i b Hlen1 Hi).
    unfold vrEmuTms9918aVramValue in *.
    rewrite land_3fff in *.
    replace ((currentAddress t + Z.of_nat (S i)) mod 16384)
      with ((currentAddress (vrEmuTms9918aWriteData t c) + Z.of_nat i)
            mod 16384).
    + apply IH. intros j Hj.
      specialize (Hlast (S j)). cbn [length] in Hlast.
      specialize (Hlast ltac:(lia)).
      replace (Z.of_nat j - Z.of_nat i)
        with (Z.of_nat (S j) - Z.of_nat (S i)) by lia.
      exact Hlast.
    + cbn. unfold u16. Z.div_mod_to_equations. lia.
Qed.

(** *** Reading through the data port *)

(** X19: [n] reads through the data port return the [n] bytes that lie
    in VRAM from the address pointer on, wrapping at 16384; they leave the
    VRAM as it is and advance the pointer by [n]. *)
Theorem read_data_sequence (n : nat) :
  forall (t : VrEmuTms9918a),
  let r := readAll n t in
  length (fst r) = n
  /\ vram (snd r) = vram t
  /\ u16 (currentAddress (snd r)) = u16 (currentAddress t + Z.of_nat n)
  /\ (forall (i : nat) (b : Z), fst r !! i = Some b ->
        b = vrEmuTms9918aVramValue t (currentAddress t + Z.of_nat i)).
Proof.
  induction n as [| n IH]; intros t; cbv zeta.
  - cbn [readAll fst snd length]. rewrite Z.add_0_r.
    repeat split. intros i b Hi. discriminate.
  - cbn [readAll].
    destruct (vrEmuTms9918aReadData t) as [b0 t1] eqn:Hrd.
    unfold vrEmuTms9918aReadData in Hrd. injection Hrd as Hb Ht.
    destruct (IH t1) as (H1 & H2 & H3 & H4).
    destruct (readAll n t1) as [bs t2]. cbn [fst snd] in *.
    subst t1. cbn [vram currentAddress set_currentAddress] in *.
    split; [cbn [length]; lia |]. split; [exact H2 |]. split.
    + rewrite H3. unfold u16. Z.div_mod_to_equations. lia.
    + intros [| i] b Hi.
      * cbn in Hi. injection Hi as <-. subst b0.
        unfold vrEmuTms9918aVramValue. rewrite Z.add_0_r. reflexivity.
      * cbn in Hi. rewrite (H4 i b Hi).
        unfold vrEmuTms9918aVramValue. cbn [vram set_currentAddress].
        rewrite !land_3fff. f_equal. unfold u16.
        Z.div_mod_to_equations. lia.
Qed.

(** *** Mode decoding *)

Lemma mode_field (r : Z) :
  Z.shiftr (Z.land r 0x18) 3
  = (if Z.testbit r 4 then 2 else 0) + (if Z.testbit r 3 then 1 else 0).
Proof.
  apply Z.bits_inj'. intros k Hk.
  rewrite Z.shiftr_spec, Z.land_spec by exact Hk.
  destruct (Z.eq_dec k 0) as [-> | H0];
    [| destruct (Z.eq_dec k 1) as [-> | H1]].
  - change (Z.testbit 24 (0 + 3)) with true. rewrite andb_true_r.
    change (0 + 3) with 3.
    destruct (Z.testbit r 4), (Z.testbit r 3); reflexivity.
  - change (Z.testbit 24 (1 + 3)) with true. rewrite andb_true_r.
    change (1 + 3) with 4.
    destruct (Z.testbit r 4), (Z.testbit r 3); reflexivity.
  - replace (Z.testbit 24 (k + 3)) with false.
    + rewrite andb_false_r.
      destruct (Z.testbit r 4), (Z.testbit r 3); symmetry;
        apply (testbit_beyond 2); lia.
    + symmetry. apply (testbit_beyond 5); lia.
Qed.

(** X20: the mode decoded from the registers, bit by bit: bit 1 of R0
    selects Graphics II whatever R1 holds; else bit 4 of R1 alone is
    Text, bit 3 alone is Multicolor, and both or neither is Graphics I. *)
Theorem tmsMode_by_bits (t : VrEmuTms9918a) :
  tmsMode t
  = if Z.testbit (reg t TMS_REG_0) 1 then TMS_MODE_GRAPHICS_II
    else match Z.testbit (reg t TMS_REG_1) 4,
               Z.testbit (reg t TMS_REG_1) 3 with
         | true, false => TMS_MODE_TEXT
         | false, true => TMS_MODE_MULTICOLOR
         | _, _ => TMS_MODE_GRAPHICS_I
         end.
Proof.
  unfold tmsMode. change 0x02 with (2 ^ 1).
  rewrite nonzero_land_pow2 by lia.
  destruct (Z.testbit (reg t TMS_REG_0) 1); [reflexivity |].
  rewrite mode_field.
  destruct (Z.testbit (reg t TMS_REG_1) 4), (Z.testbit (reg t TMS_REG_1) 3);
    reflexivity.
Qed.

Section Coverage.
Variable beyond : VrEmuTms9918a -> Z -> Z.

(** *** The mode cache *)

Lemma perform_keeps_cache (t : VrEmuTms9918a) (op : operation) :
  operation_keeps_cache op ->
  mode t = tmsMode t ->
  mode (perform beyond t op) = tmsMode (perform beyond t op).
Proof.
  intros Hop Hc. destruct op as [data | data | | | y pixels |];
    cbn [perform]; try exact Hc; try contradiction.
  - unfold vrEmuTms9918aWriteAddr.
    destruct (nonzero (lastMode t));
      [destruct (nonzero (Z.land data 128)) |]; try exact Hc.
    reflexivity.
  - destruct (scanLine_touch beyond t y pixels) as (st & rb & ->). exact Hc.
Qed.

(** X1: every host event other than a reset keeps the cached mode equal
    to the mode the registers decode to. *)
Theorem mode_cache_coherent (t : VrEmuTms9918a) (ops : list operation) :
  mode t = tmsMode t ->
  Forall operation_keeps_cache ops ->
  mode (run beyond t ops) = tmsMode (run beyond t ops).
Proof.
  intros Hc Hops. revert t Hc.
  induction Hops as [| op ops Hop _ IH]; intros t Hc; [exact Hc |].
  cbn [run fold_left]. apply IH. now apply perform_keeps_cache.
Qed.

(** *** Status flags across a scanline *)

Lemma flagsGrow_refl (s : Z) : flagsGrow s s.
Proof. split; auto. Qed.

Lemma flagsGrow_trans (a b c : Z) :
  flagsGrow a b -> flagsGrow b c -> flagsGrow a c.
Proof.
  intros [H1 H1'] [H2 H2']. split; [auto | congruence].
Qed.

Lemma flagsGrow_lor (s m : Z) :
  0 <= m < 128 -> flagsGrow s (u8 (Z.lor s m)).
Proof.
  intros Hm. split.
  - intros k Hk Hs. rewrite testbit_u8 by lia.
    rewrite Z.lor_spec, Hs. reflexivity.
  - rewrite testbit_u8 by lia. rewrite Z.lor_spec.
    rewrite (testbit_beyond 7 m 7) by lia. apply orb_false_r.
Qed.

Lemma spriteColumns_flags (n : nat) :
  forall (c off x sb pb byte : Z) (t : VrEmuTms9918a) (px : list Z),
  flagsGrow (status t)
            (status (fst (spriteColumns beyond n c off x sb pb byte t px))).
Proof.
  induction n as [| n IH]; intros c off x sb pb byte t px;
    [apply flagsGrow_refl |].
  cbn [spriteColumns].
  destruct (TMS9918A_PIXELS_X <=? x); [apply flagsGrow_refl |].
  set (r := if (0 <=? x) && nonzero (Z.land byte (Z.shiftr 128 pb))
            then spriteColumn c x t px else (t, px)).
  assert (Hr : flagsGrow (status t) (status (fst r))).
  { unfold r. destruct (_ && _); [| apply flagsGrow_refl].
    unfold spriteColumn. cbn [fst status set_rowSpriteBits].
    destruct (nonzero (cell (rowSpriteBits t) x)); [| apply flagsGrow_refl].
    cbn [status set_status]. apply flagsGrow_lor.
    unfold STATUS_COL. lia. }
  destruct r as [t1 px1]. cbn [fst] in Hr.
  destruct (negb (nonzero (tmsSpriteMag t1)) || nonzero (Z.land sb 1));
    [destruct (pb + 1 =? 8) |];
    (eapply flagsGrow_trans; [exact Hr | apply IH]).
Qed.

Lemma spriteSlot_flags (y sizePx attr patt i shown : Z)
    (t : VrEmuTms9918a) (px : list Z) :
  0 <= i < MAX_SPRITES ->
  flagsGrow (status t)
    (status (slotState (spriteSlot beyond y sizePx attr patt i shown t px))).
Proof.
  intros Hi. unfold MAX_SPRITES in Hi. unfold spriteSlot.
  assert (H5 : 0 <= Z.lor STATUS_5S i < 128).
  { apply (lor_below 7); unfold STATUS_5S; lia. }
  destruct (_ =? LAST_SPRITE_VPOS).
  { cbn [slotState]. destruct (Z.land (status t) STATUS_5S =? 0);
      [apply flagsGrow_lor; lia | apply flagsGrow_refl]. }
  destruct (_ || _); [apply flagsGrow_refl |].
  cbv zeta.
  set (t1 := if shown =? 0 then set_rowSpriteBits _ t else t).
  assert (Ht1 : status t1 = status t).
  { unfold t1. destruct (shown =? 0); reflexivity. }
  destruct (MAX_SCANLINE_SPRITES <? shown + 1).
  { cbn [slotState]. rewrite <- Ht1.
    destruct (Z.land (status t1) STATUS_5S =? 0);
      [apply flagsGrow_lor; exact H5 | apply flagsGrow_refl]. }
  match goal with
  | |- context [spriteColumns beyond ?n ?c ?o ?x ?sb ?pb ?b t1 px] =>
      pose proof (spriteColumns_flags n c o x sb pb b t1 px) as Hk;
      destruct (spriteColumns beyond n c o x sb pb b t1 px) as [t2 px2]
  end.
  cbn [slotState]. rewrite <- Ht1. exact Hk.
Qed.

Lemma spriteSlots_flags (n : nat) :
  forall (y sizePx attr patt i shown : Z) (t : VrEmuTms9918a) (px : list Z),
  0 <= i -> i + Z.of_nat n <= MAX_SPRITES ->
  flagsGrow (status t)
    (status (fst (spriteSlots beyond n y sizePx attr patt i shown t px))).
Proof.
  induction n as [| n IH]; intros y sizePx attr patt i shown t px Hi Hn;
    [apply flagsGrow_refl |].
  cbn [spriteSlots].
  pose proof (spriteSlot_flags y sizePx attr patt i shown t px
                ltac:(lia)) as Hs.
  destruct (spriteSlot beyond y sizePx attr patt i shown t px)
    as [t1 px1 | sh1 t1 px1]; cbn [slotState] in Hs; [exact Hs |].
  eapply flagsGrow_trans; [exact Hs |]. apply IH; lia.
Qed.

(** Status after a line that is rendered (display on, [y] below 192)
    in terms of the sprite pass. *)
Lemma scanLine_status_flags (t : VrEmuTms9918a) (y : Z) (pixels : list Z) :
  y <> 0 ->
  exists mid,
    flagsGrow (status t) mid
    /\ (status (fst (vrEmuTms9918aScanLine beyond t y pixels)) = mid
        \/ (y = TMS9918A_PIXELS_Y - 1
            /\ Z.testbit (reg t TMS_REG_1) 6 = true
            /\ status (fst (vrEmuTms9918aScanLine beyond t y pixels))
               = u8 (Z.lor mid STATUS_INT))).
Proof.
  intros Hy. unfold vrEmuTms9918aScanLine, vrEmuTms9918aDisplayEnabled.
  change 0x40 with (2 ^ 6). rewrite nonzero_land_pow2 by lia.
  destruct (Z.testbit (reg t TMS_REG_1) 6) eqn:Hen;
    cbn [nonzero negb orb Z.eqb];
    [| exists (status t); split; [apply flagsGrow_refl | left; reflexivity]].
  destruct (TMS9918A_PIXELS_Y <=? y);
    [exists (status t); split; [apply flagsGrow_refl | left; reflexivity] |].
  assert (Hpass : forall px, flagsGrow (status t)
            (status (fst (vrEmuTms9918aOutputSprites beyond t y px)))).
  { intros px. unfold vrEmuTms9918aOutputSprites.
    replace (y =? 0) with false by (symmetry; apply Z.eqb_neq; exact Hy).
    apply spriteSlots_flags; unfold MAX_SPRITES; lia. }
  assert (Hmode : flagsGrow (status t) (status (fst
    (match mode t with
     | TMS_MODE_GRAPHICS_I =>
         vrEmuTms9918aGraphicsIScanLine beyond t y pixels
     | TMS_MODE_GRAPHICS_II =>
         vrEmuTms9918aGraphicsIIScanLine beyond t y pixels
     | TMS_MODE_TEXT => vrEmuTms9918aTextScanLine beyond t y pixels
     | TMS_MODE_MULTICOLOR =>
         vrEmuTms9918aMulticolorScanLine beyond t y pixels
     end)))).
  { destruct (mode t).
    - unfold vrEmuTms9918aGraphicsIScanLine.
      destruct (graphicsITiles _ _ _ _ _ _ _ _ _ _) as [? bg]. apply Hpass.
    - unfold vrEmuTms9918aGraphicsIIScanLine.
      destruct (graphicsIITiles _ _ _ _ _ _ _ _ _ _) as [? bg]. apply Hpass.
    - unfold vrEmuTms9918aTextScanLine.
      destruct (margin _ _ _ _ _) as [? p1].
      destruct (textTiles _ _ _ _ _ _ _ _ _ _) as [? p2].
      destruct (margin _ _ _ _ _) as [? p3]. apply flagsGrow_refl.
    - unfold vrEmuTms9918aMulticolorScanLine.
      destruct (multicolorTiles _ _ _ _ _ _ _ _) as [? bg]. apply Hpass. }
  destruct (match mode t with
            | TMS_MODE_GRAPHICS_I => _ | TMS_MODE_GRAPHICS_II => _
            | TMS_MODE_TEXT => _ | TMS_MODE_MULTICOLOR => _ end) as [t1 px1].
  cbn [fst] in Hmode. exists (status t1). split; [exact Hmode |].
  destruct (Z.eqb_spec y (TMS9918A_PIXELS_Y - 1)) as [-> | Hne].
  - right. repeat split.
  - left. reflexivity.
Qed.

(** X3: rendering a line other than line 0 clears no status flag: a
    bit among 0..7 that is set before the call is set after it. *)
Theorem scanline_keeps_flags (t : VrEmuTms9918a) (y : Z) (pixels : list Z)
    (k : Z) :
  y <> 0 -> 0 <= k < 8 ->
  Z.testbit (status t) k = true ->
  Z.testbit (status (fst (vrEmuTms9918aScanLine beyond t y pixels))) k = true.
Proof.
  intros Hy Hk Hs.
  destruct (scanLine_status_flags t y pixels Hy)
    as (mid & [Hg _] & [-> | (_ & _ & ->)]).
  - apply Hg; assumption.
  - rewrite testbit_u8 by lia. rewrite Z.lor_spec.
    rewrite (Hg k Hk Hs). reflexivity.
Qed.

(** X4: with the display on, rendering line 191 leaves INT set; a line
    other than 0 and 191 leaves the INT bit as it was. *)
Theorem scanline_int_flag (t : VrEmuTms9918a) (y : Z) (pixels : list Z) :
  let t' := fst (vrEmuTms9918aScanLine beyond t y pixels) in
  (Z.testbit (reg t TMS_REG_1) 6 = true -> y = TMS9918A_PIXELS_Y - 1 ->
   Z.testbit (status t') 7 = true)
  /\ (y <> 0 -> y <> TMS9918A_PIXELS_Y - 1 ->
      Z.testbit (status t') 7 = Z.testbit (status t) 7).
Proof.
  cbv zeta. split.
  - intros Hen ->.
    unfold vrEmuTms9918aScanLine, vrEmuTms9918aDisplayEnabled.
    change 0x40 with (2 ^ 6). rewrite nonzero_land_pow2 by lia.
    rewrite Hen. cbn [nonzero negb orb Z.eqb].
    change (TMS9918A_PIXELS_Y <=? TMS9918A_PIXELS_Y - 1) with false.
    cbv iota.
    destruct (match mode t with
              | TMS_MODE_GRAPHICS_I => _ | TMS_MODE_GRAPHICS_II => _
              | TMS_MODE_TEXT => _ | TMS_MODE_MULTICOLOR => _ end)
      as [t1 px1].
    rewrite Z.eqb_refl. cbn [fst status set_status].
    rewrite testbit_u8 by lia. rewrite Z.lor_spec. apply orb_true_r.
  - intros Hy Hl.
    destruct (scanLine_status_flags t y pixels Hy)
      as (mid & [_ H7] & [-> | (Heq & _)]); [exact H7 | contradiction].
Qed.

(** *** Which lines a sprite is on *)

(** X5: a sprite with attribute byte [vPos] is on the lines from
    [top = (vPos > 224 ? vPos - 256 : vPos) + 1] to the line before
    [top + spriteSizePx], and a magnified one also on the line above
    [top], since the division of [y - top] by 2 truncates towards
    zero; off these lines the turn of a slot that is not the terminator
    changes neither the state nor the pixels. *)
Theorem sprite_on_line_range (t : VrEmuTms9918a) (y i : Z) :
  let vPos := vramAt beyond t (slotAttr t i) in
  let top := (if 224 <? vPos then vPos - 256 else vPos) + 1 in
  let above := if nonzero (tmsSpriteMag t) then 1 else 0 in
  (slotOnLine beyond t y i = true
   <-> top - above <= y < top + spriteSizePx t)
  /\ (forall spritesShown pixels,
        slotEnds beyond t i = false ->
        ~ (top - above <= y < top + spriteSizePx t) ->
        spriteSlot beyond y (spriteSizePx t) (tmsSpriteAttrTableAddr t)
                   (tmsSpritePatternTableAddr t) i spritesShown t pixels
        = SlotNext spritesShown t pixels).
Proof.
  cbv zeta.
  assert (Hiff : slotOnLine beyond t y i = true
    <-> (if 224 <? vramAt beyond t (slotAttr t i)
         then vramAt beyond t (slotAttr t i) - 256
         else vramAt beyond t (slotAttr t i)) + 1
        - (if nonzero (tmsSpriteMag t) then 1 else 0) <= y
        < (if 224 <? vramAt beyond t (slotAttr t i)
           then vramAt beyond t (slotAttr t i) - 256
           else vramAt beyond t (slotAttr t i)) + 1 + spriteSizePx t).
  { unfold slotOnLine, slotRow, spriteSizePx. cbv zeta.
    change (u8 (-32)) with 224.
    set (top := (if 224 <? _ then _ else _) + 1).
    rewrite negb_true_iff, orb_false_iff, Z.ltb_ge, Z.leb_gt.
    destruct (nonzero (tmsSpriteMag t)), (nonzero (tmsSpriteSize t));
      Z.to_euclidean_division_equations; lia. }
  split; [exact Hiff |].
  intros shown pixels He Hout.
  assert (Hon : slotOnLine beyond t y i = false).
  { destruct (slotOnLine beyond t y i) eqn:Hon; [| reflexivity].
    exfalso. apply Hout. apply Hiff. reflexivity. }
  unfold slotEnds in He. unfold slotOnLine, slotRow in Hon.
  apply negb_false_iff in Hon.
  unfold spriteSlot. fold (slotAttr t i). rewrite He.
  cbv zeta. rewrite Hon. reflexivity.
Qed.

(** *** Colors in the pixel buffer *)

Lemma cell_of_lookup (a : list Z) (i : nat) (x : Z) :
  a !! i = Some x -> cell a (Z.of_nat i) = x.
Proof. intros H. unfold cell. rewrite Nat2Z.id, H. reflexivity. Qed.

Lemma cell_in_bytes (a : list Z) (i : Z) :
  Forall is_u8 a -> is_u8 (cell a i).
Proof.
  intros Ha. unfold cell. destruct (a !! Z.to_nat i) as [x |] eqn:Hx.
  - exact (Forall_lookup_1 _ _ _ _ Ha Hx).
  - unfold is_u8. simpl. lia.
Qed.

Lemma vramAt_byte (t : VrEmuTms9918a) (i : Z) :
  Forall is_u8 (vram t) -> is_u8 (vramAt beyond t i).
Proof.
  intros Hv. unfold vramAt. destruct (i <? VRAM_SIZE).
  - now apply cell_in_bytes.
  - apply is_u8_u8.
Qed.

Lemma land_0f_range (z : Z) : 0 <= Z.land z 0x0f <= 15.
Proof.
  replace (Z.land z 0x0f) with (z mod 16)
    by (symmetry; exact (land_low_mod z 4 ltac:(lia))).
  pose proof (Z.mod_pos_bound z 16 ltac:(lia)). lia.
Qed.

Lemma shiftr_4_range (z : Z) : is_u8 z -> 0 <= Z.shiftr z 4 <= 15.
Proof.
  intros Hz. unfold is_u8 in Hz. rewrite Z.shiftr_div_pow2 by lia.
  change (2 ^ 4) with 16. Z.div_mod_to_equations. lia.
Qed.

Section Colors.
Variable P : Z -> Prop.
Variable t : VrEmuTms9918a.
Hypothesis P_color : forall c, 1 <= c <= 15 -> P c.
Hypothesis P_backdrop : P (tmsMainBgColor t).
Hypothesis vram_bytes : Forall is_u8 (vram t).
Hypothesis r7_byte : is_u8 (reg t TMS_REG_7).

Lemma fg_color_ok (colorByte : Z) :
  is_u8 colorByte -> P (tmsFgColor t colorByte).
Proof.
  intros Hb. unfold tmsFgColor. cbv zeta.
  pose proof (shiftr_4_range colorByte Hb).
  destruct (Z.eqb_spec (Z.shiftr colorByte 4) TMS_TRANSPARENT) as [_ | Hne];
    [exact P_backdrop |].
  apply P_color. unfold TMS_TRANSPARENT in Hne. lia.
Qed.

Lemma bg_color_ok (colorByte : Z) : P (tmsBgColor t colorByte).
Proof.
  unfold tmsBgColor. cbv zeta.
  pose proof (land_0f_range colorByte).
  destruct (Z.eqb_spec (Z.land colorByte 15) TMS_TRANSPARENT) as [_ | Hne];
    [exact P_backdrop |].
  apply P_color. unfold TMS_TRANSPARENT in Hne. lia.
Qed.

Lemma main_fg_color_ok : P (tmsMainFgColor t).
Proof.
  unfold tmsMainFgColor. cbv zeta.
  pose proof (shiftr_4_range _ r7_byte).
  destruct (Z.eqb_spec (Z.shiftr (reg t TMS_REG_7) 4) TMS_TRANSPARENT)
    as [_ | Hne]; [exact P_backdrop |].
  apply P_color. unfold TMS_TRANSPARENT in Hne. lia.
Qed.

(** A store of a good color after the painted prefix extends it. *)
Lemma paint_next (px : list Z) (p c : Z) :
  P c -> -1 <= p -> p + 1 < Z.of_nat (length px) ->
  (forall x, 0 <= x <= p -> P (cell px x)) ->
  forall x, 0 <= x <= p + 1 -> P (cell (store px (p + 1) c) x).
Proof.
  intros Hc Hp Hlen Hpx x Hx.
  destruct (Z.eq_dec x (p + 1)) as [-> | Hne].
  - rewrite cell_store_eq by lia. exact Hc.
  - rewrite cell_store_ne by lia. apply Hpx. lia.
Qed.

Lemma patternBits_paints (n : nat) :
  forall (byte fg bg p : Z) (px : list Z),
  P fg -> P bg -> -1 <= p ->
  p + Z.of_nat n < Z.of_nat (length px) ->
  (forall x, 0 <= x <= p -> P (cell px x)) ->
  fst (patternBits n byte fg bg p px) = p + Z.of_nat n
  /\ length (snd (patternBits n byte fg bg p px)) = length px
  /\ (forall x, 0 <= x <= p + Z.of_nat n ->
        P (cell (snd (patternBits n byte fg bg p px)) x)).
Proof.
  induction n as [| n IH]; intros byte fg bg p px Hfg Hbg Hp Hlen Hpx.
  - cbn [patternBits fst snd]. rewrite Z.add_0_r. auto.
  - cbn [patternBits].
    set (c := if nonzero (Z.land byte 128) then fg else bg).
    assert (Hc : P c) by (unfold c; destruct (nonzero _); assumption).
    destruct (IH (u8 (Z.shiftl byte 1)) fg bg (p + 1) (store px (p + 1) c)
                Hfg Hbg ltac:(lia)
                ltac:(rewrite length_store; lia)
                (paint_next px p c Hc Hp ltac:(lia) Hpx))
      as (H1 & H2 & H3).
    rewrite H1, H2, length_store.
    split; [lia |]. split; [reflexivity |].
    intros x Hx. apply H3. lia.
Qed.

Lemma colorRun_paints (n : nat) :
  forall (c p : Z) (px : list Z),
  P c -> -1 <= p ->
  p + Z.of_nat n < Z.of_nat (length px) ->
  (forall x, 0 <= x <= p -> P (cell px x)) ->
  fst (colorRun n c p px) = p + Z.of_nat n
  /\ length (snd (colorRun n c p px)) = length px
  /\ (forall x, 0 <= x <= p + Z.of_nat n ->
        P (cell (snd (colorRun n c p px)) x)).
Proof.
  induction n as [| n IH]; intros c p px Hc Hp Hlen Hpx.
  - cbn [colorRun fst snd]. rewrite Z.add_0_r. auto.
  - cbn [colorRun].
    destruct (IH c (p + 1) (store px (p + 1) c) Hc ltac:(lia)
                ltac:(rewrite length_store; lia)
                (paint_next px p c Hc Hp ltac:(lia) Hpx))
      as (H1 & H2 & H3).
    rewrite H1, H2, length_store.
    split; [lia |]. split; [reflexivity |].
    intros x Hx. apply H3. lia.
Qed.

Lemma margin_paints (n : nat) :
  forall (limit c p : Z) (px : list Z),
  P c -> -1 <= p ->
  limit <= Z.of_nat (length px) ->
  limit - p - 1 <= Z.of_nat n ->
  (forall x, 0 <= x <= p -> P (cell px x)) ->
  length (snd (margin n limit c p px)) = length px
  /\ (forall x, 0 <= x <= Z.max p (limit - 1) ->
        P (cell (snd (margin n limit c p px)) x)).
Proof.
  induction n as [| n IH]; intros limit c p px Hc Hp Hlen Hn Hpx;
    cbn [margin]; destruct (Z.ltb_spec (p + 1) limit) as [Hlt | Hge];
    cbn [snd]; try lia.
  - split; [reflexivity |]. intros x Hx. apply Hpx. lia.
  - destruct (IH limit c (p + 1) (store px (p + 1) c) Hc ltac:(lia)
                ltac:(rewrite length_store; lia) ltac:(lia)
                (paint_next px p c Hc Hp ltac:(lia) Hpx))
      as (H2 & H3).
    rewrite H2, length_store. split; [reflexivity |].
    intros x Hx. apply H3. lia.
  - split; [reflexivity |]. intros x Hx. apply Hpx. lia.
Qed.

Lemma graphicsITiles_paints (n : nat) :
  forall (names patt color row tileX p : Z) (px : list Z),
  -1 <= p ->
  p + 8 * Z.of_nat n < Z.of_nat (length px) ->
  (forall x, 0 <= x <= p -> P (cell px x)) ->
  let r := graphicsITiles beyond n t names patt color row tileX p px in
  length (snd r) = length px
  /\ (forall x, 0 <= x <= p + 8 * Z.of_nat n -> P (cell (snd r) x)).
Proof.
  induction n as [| n IH]; intros names patt color row tileX p px Hp Hlen Hpx;
    cbv zeta.
  - cbn [graphicsITiles snd]. rewrite Z.add_0_r. auto.
  - cbn [graphicsITiles].
    match goal with
    | |- context [patternBits ?m ?b ?fg ?bg p px] =>
        destruct (patternBits_paints m b fg bg p px) as (H1 & H2 & H3);
        [apply fg_color_ok, vramAt_byte, vram_bytes
        | apply bg_color_ok | exact Hp
        | change (Z.of_nat m) with 8; lia | exact Hpx |];
        destruct (patternBits m b fg bg p px) as [p1 px1]
    end.
    cbn [fst snd] in H1, H2, H3. subst p1.
    change (Z.of_nat (Z.to_nat GRAPHICS_CHAR_WIDTH)) with 8 in *.
    destruct (IH names patt color row (tileX + 1) (p + 8) px1
                ltac:(lia) ltac:(rewrite H2; lia) H3) as (H4 & H5).
    rewrite H4, H2. split; [reflexivity |].
    intros x Hx. apply H5. lia.
Qed.

Lemma graphicsIITiles_paints (n : nat) :
  forall (names patt color row tileX p : Z) (px : list Z),
  -1 <= p ->
  p + 8 * Z.of_nat n < Z.of_nat (length px) ->
  (forall x, 0 <= x <= p -> P (cell px x)) ->
  let r := graphicsIITiles beyond n t names patt color row tileX p px in
  length (snd r) = length px
  /\ (forall x, 0 <= x <= p + 8 * Z.of_nat n -> P (cell (snd r) x)).
Proof.
  induction n as [| n IH]; intros names patt color row tileX p px Hp Hlen Hpx;
    cbv zeta.
  - cbn [graphicsIITiles snd]. rewrite Z.add_0_r. auto.
  - cbn [graphicsIITiles].
    match goal with
    | |- context [patternBits ?m ?b ?fg ?bg p px] =>
        destruct (patternBits_paints m b fg bg p px) as (H1 & H2 & H3);
        [apply fg_color_ok, vramAt_byte, vram_bytes
        | apply bg_color_ok | exact Hp
        | change (Z.of_nat m) with 8; lia | exact Hpx |];
        destruct (patternBits m b fg bg p px) as [p1 px1]
    end.
    cbn [fst snd] in H1, H2, H3. subst p1.
    change (Z.of_nat (Z.to_nat GRAPHICS_CHAR_WIDTH)) with 8 in *.
    destruct (IH names patt color row (tileX + 1) (p + 8) px1
                ltac:(lia) ltac:(rewrite H2; lia) H3) as (H4 & H5).
    rewrite H4, H2. split; [reflexivity |].
    intros x Hx. apply H5. lia.
Qed.

Lemma textTiles_paints (n : nat) :
  forall (names row fg bg tileX p : Z) (px : list Z),
  P fg -> P bg -> -1 <= p ->
  p + 6 * Z.of_nat n < Z.of_nat (length px) ->
  (forall x, 0 <= x <= p -> P (cell px x)) ->
  let r := textTiles beyond n t names row fg bg tileX p px in
  fst r = p + 6 * Z.of_nat n
  /\ length (snd r) = length px
  /\ (forall x, 0 <= x <= p + 6 * Z.of_nat n -> P (cell (snd r) x)).
Proof.
  induction n as [| n IH];
    intros names row fg bg tileX p px Hfg Hbg Hp Hlen Hpx; cbv zeta.
  - cbn [textTiles fst snd]. rewrite Z.add_0_r. auto.
  - cbn [textTiles].
    match goal with
    | |- context [patternBits ?m ?b fg bg p px] =>
        destruct (patternBits_paints m b fg bg p px Hfg Hbg Hp
                    ltac:(change (Z.of_nat m) with 6; lia) Hpx)
          as (H1 & H2 & H3);
        destruct (patternBits m b fg bg p px) as [p1 px1]
    end.
    cbn [fst snd] in H1, H2, H3. subst p1.
    change (Z.of_nat (Z.to_nat TEXT_CHAR_WIDTH)) with 6 in *.
    destruct (IH names row fg bg (tileX + 1) (p + 6) px1 Hfg Hbg
                ltac:(lia) ltac:(rewrite H2; lia) H3) as (H4 & H5 & H6).
    rewrite H4, H5, H2. split; [lia |]. split; [reflexivity |].
    intros x Hx. apply H6. lia.
Qed.

Lemma multicolorTiles_paints (n : nat) :
  forall (names row tileX p : Z) (px : list Z),
  -1 <= p ->
  p + 8 * Z.of_nat n < Z.of_nat (length px) ->
  (forall x, 0 <= x <= p -> P (cell px x)) ->
  let r := multicolorTiles beyond n t names row tileX p px in
  length (snd r) = length px
  /\ (forall x, 0 <= x <= p + 8 * Z.of_nat n -> P (cell (snd r) x)).
Proof.
  induction n as [| n IH]; intros names row tileX p px Hp Hlen Hpx;
    cbv zeta.
  - cbn [multicolorTiles snd]. rewrite Z.add_0_r. auto.
  - cbn [multicolorTiles].
    match goal with
    | |- context [colorRun 4 ?c p px] =>
        destruct (colorRun_paints 4 c p px) as (H1 & H2 & H3);
        [apply fg_color_ok, vramAt_byte, vram_bytes | exact Hp
        | change (Z.of_nat 4) with 4; lia | exact Hpx |];
        destruct (colorRun 4 c p px) as [p1 px1]
    end.
    cbn [fst snd] in H1, H2, H3. subst p1.
    match goal with
    | |- context [colorRun 4 ?c ?q px1] =>
        destruct (colorRun_paints 4 c q px1) as (H4 & H5 & H6);
        [apply bg_color_ok | lia
        | rewrite H2; change (Z.of_nat 4) with 4; lia | exact H3 |];
        destruct (colorRun 4 c q px1) as [p2 px2]
    end.
    cbn [fst snd] in H4, H5, H6. subst p2.
    change (Z.of_nat 4) with 4 in *.
    destruct (IH names row (tileX + 1) (p + 4 + 4) px2
                ltac:(lia) ltac:(rewrite H5, H2; lia) H6) as (H7 & H8).
    rewrite H7, H5, H2. split; [reflexivity |].
    intros x Hx. apply H8. lia.
Qed.

Lemma store_keeps_colors (px : list Z) (i c : Z) :
  P c -> 0 <= i ->
  (forall x, 0 <= x < TMS9918A_PIXELS_X -> P (cell px x)) ->
  forall x, 0 <= x < TMS9918A_PIXELS_X -> P (cell (store px i c) x).
Proof.
  intros Hc Hi Hpx x Hx.
  destruct (Z.eq_dec i x) as [-> | Hne].
  - destruct (decide (Z.to_nat x < length px)%nat) as [Hin | Hout].
    + rewrite cell_store_eq by lia. exact Hc.
    + unfold store. rewrite list_insert_ge by lia. now apply Hpx.
  - rewrite cell_store_ne by lia. now apply Hpx.
Qed.

Lemma spriteColumns_paints (n : nat) :
  forall (c off x sb pb byte : Z) (t' : VrEmuTms9918a) (px : list Z),
  (c <> TMS_TRANSPARENT -> P c) ->
  (forall x, 0 <= x < TMS9918A_PIXELS_X -> P (cell px x)) ->
  let r := spriteColumns beyond n c off x sb pb byte t' px in
  length (snd r) = length px
  /\ (forall x, 0 <= x < TMS9918A_PIXELS_X -> P (cell (snd r) x)).
Proof.
  induction n as [| n IH]; intros c off x sb pb byte t' px Hc Hpx; cbv zeta;
    [cbn [spriteColumns snd]; auto |].
  cbn [spriteColumns].
  destruct (TMS9918A_PIXELS_X <=? x); [cbn [snd]; auto |].
  set (r := if (0 <=? x) && nonzero (Z.land byte (Z.shiftr 128 pb))
            then spriteColumn c x t' px else (t', px)).
  assert (Hr : length (snd r) = length px
               /\ (forall x0, 0 <= x0 < TMS9918A_PIXELS_X ->
                      P (cell (snd r) x0))).
  { unfold r. destruct (0 <=? x) eqn:H0; cbn [andb]; [| cbn [snd]; auto].
    destruct (nonzero _); [| cbn [snd]; auto].
    unfold spriteColumn. cbn [snd].
    destruct (Z.eqb_spec c TMS_TRANSPARENT) as [_ | Hne]; cbn [negb];
      [auto |].
    split; [apply length_store |].
    apply store_keeps_colors; auto. apply Z.leb_le. exact H0. }
  destruct r as [t1 px1]. cbn [snd] in Hr. destruct Hr as [Hl1 Hp1].
  destruct (negb (nonzero (tmsSpriteMag t1)) || nonzero (Z.land sb 1));
    [destruct (pb + 1 =? 8) |];
    match goal with
    | |- context [spriteColumns beyond n c off ?a ?b ?d ?e t1 px1] =>
        destruct (IH c off a b d e t1 px1 Hc Hp1) as [H1 H2]
    end;
    (split; [congruence | exact H2]).
Qed.

Lemma spriteSlot_paints (y sizePx attr patt i shown : Z)
    (t' : VrEmuTms9918a) (px : list Z) :
  (forall x, 0 <= x < TMS9918A_PIXELS_X -> P (cell px x)) ->
  let r := spriteSlot beyond y sizePx attr patt i shown t' px in
  length (slotPixels r) = length px
  /\ (forall x, 0 <= x < TMS9918A_PIXELS_X -> P (cell (slotPixels r) x)).
Proof.
  intros Hpx. cbv zeta. unfold spriteSlot.
  destruct (_ =? LAST_SPRITE_VPOS); [cbn [slotPixels]; auto |].
  destruct (_ || _); [cbn [slotPixels]; auto |].
  cbv zeta.
  destruct (MAX_SCANLINE_SPRITES <? shown + 1); [cbn [slotPixels]; auto |].
  match goal with
  | |- context [spriteColumns beyond ?n ?c ?o ?x ?sb ?pb ?b ?t1 px] =>
      destruct (spriteColumns_paints n c o x sb pb b t1 px) as [H1 H2];
      [| exact Hpx
       | destruct (spriteColumns beyond n c o x sb pb b t1 px) as [t2 px2]]
  end.
  - intros Hne. apply P_color.
    match goal with
    | |- _ <= Z.land ?v 15 <= _ => pose proof (land_0f_range v)
    end.
    unfold TMS_TRANSPARENT in Hne. lia.
  - cbn [slotPixels snd] in *. auto.
Qed.

Lemma spriteSlots_paints (n : nat) :
  forall (y sizePx attr patt i shown : Z) (t' : VrEmuTms9918a)
         (px : list Z),
  (forall x, 0 <= x < TMS9918A_PIXELS_X -> P (cell px x)) ->
  let r := spriteSlots beyond n y sizePx attr patt i shown t' px in
  length (snd r) = length px
  /\ (forall x, 0 <= x < TMS9918A_PIXELS_X -> P (cell (snd r) x)).
Proof.
  induction n as [| n IH]; intros y sizePx attr patt i shown t' px Hpx;
    cbv zeta; [cbn [spriteSlots snd]; auto |].
  cbn [spriteSlots].
  destruct (spriteSlot_paints y sizePx attr patt i shown t' px Hpx)
    as [H1 H2].
  destruct (spriteSlot beyond y sizePx attr patt i shown t' px)
    as [t1 px1 | sh1 t1 px1]; cbn [slotPixels snd] in *; [auto |].
  destruct (IH y sizePx attr patt (i + 1) sh1 t1 px1 H2) as [H3 H4].
  split; [congruence | exact H4].
Qed.

Lemma outputSprites_paints (y : Z) (t' : VrEmuTms9918a) (px : list Z) :
  (forall x, 0 <= x < TMS9918A_PIXELS_X -> P (cell px x)) ->
  let r := vrEmuTms9918aOutputSprites beyond t' y px in
  length (snd r) = length px
  /\ (forall x, 0 <= x < TMS9918A_PIXELS_X -> P (cell (snd r) x)).
Proof.
  intros Hpx. unfold vrEmuTms9918aOutputSprites. now apply spriteSlots_paints.
Qed.

Lemma scanLine_paints (y : Z) (pixels : list Z) :
  length pixels = Z.to_nat TMS9918A_PIXELS_X ->
  let r := vrEmuTms9918aScanLine beyond t y pixels in
  length (snd r) = Z.to_nat TMS9918A_PIXELS_X
  /\ (forall x, 0 <= x < TMS9918A_PIXELS_X -> P (cell (snd r) x)).
Proof.
  intros Hlen. cbv zeta. unfold vrEmuTms9918aScanLine.
  assert (Hnone : forall x, 0 <= x <= -1 -> P (cell pixels x))
    by (intros; lia).
  assert (HL : Z.of_nat (length pixels) = 256) by (rewrite Hlen; reflexivity).
  destruct (_ || _).
  { cbn [snd]. rewrite (memset_all _ _ _ Hlen).
    split; [apply length_replicate |].
    intros x Hx. unfold cell.
    rewrite lookup_replicate_2
      by (unfold TMS9918A_PIXELS_X in *; lia).
    cbn [default].
    assert (Hu : u8 (tmsMainBgColor t) = tmsMainBgColor t).
    { unfold tmsMainBgColor, u8.
      match goal with
      | |- Z.land ?v 15 mod 256 = _ => pose proof (land_0f_range v)
      end.
      apply Z.mod_small. lia. }
    rewrite Hu. exact P_backdrop. }
  assert (Hmode : let r := match mode t with
     | TMS_MODE_GRAPHICS_I =>
         vrEmuTms9918aGraphicsIScanLine beyond t y pixels
     | TMS_MODE_GRAPHICS_II =>
         vrEmuTms9918aGraphicsIIScanLine beyond t y pixels
     | TMS_MODE_TEXT => vrEmuTms9918aTextScanLine beyond t y pixels
     | TMS_MODE_MULTICOLOR =>
         vrEmuTms9918aMulticolorScanLine beyond t y pixels
     end in
     length (snd r) = Z.to_nat TMS9918A_PIXELS_X
     /\ (forall x, 0 <= x < TMS9918A_PIXELS_X -> P (cell (snd r) x))).
  { cbv zeta. destruct (mode t).
    - unfold vrEmuTms9918aGraphicsIScanLine. cbv zeta.
      match goal with
      | |- context [graphicsITiles beyond ?n t ?a ?b ?c ?d 0 (-1) pixels] =>
          destruct (graphicsITiles_paints n a b c d 0 (-1) pixels
                      ltac:(lia)
                      ltac:(change (Z.of_nat n) with 32; lia) Hnone)
            as [H1 H2];
          destruct (graphicsITiles beyond n t a b c d 0 (-1) pixels)
            as [p1 bg]
      end.
      cbn [snd] in H1, H2.
      change (Z.of_nat (Z.to_nat GRAPHICS_NUM_COLS)) with 32 in H2.
      destruct (outputSprites_paints y t bg) as [H3 H4].
      { intros x Hx. apply H2. unfold TMS9918A_PIXELS_X in Hx. lia. }
      split; [congruence | exact H4].
    - unfold vrEmuTms9918aGraphicsIIScanLine. cbv zeta.
      match goal with
      | |- context [graphicsIITiles beyond ?n t ?a ?b ?c ?d 0 (-1) pixels] =>
          destruct (graphicsIITiles_paints n a b c d 0 (-1) pixels
                      ltac:(lia)
                      ltac:(change (Z.of_nat n) with 32; lia) Hnone)
            as [H1 H2];
          destruct (graphicsIITiles beyond n t a b c d 0 (-1) pixels)
            as [p1 bg]
      end.
      cbn [snd] in H1, H2.
      change (Z.of_nat (Z.to_nat GRAPHICS_NUM_COLS)) with 32 in H2.
      destruct (outputSprites_paints y t bg) as [H3 H4].
      { intros x Hx. apply H2. unfold TMS9918A_PIXELS_X in Hx. lia. }
      split; [congruence | exact H4].
    - unfold vrEmuTms9918aTextScanLine. cbv zeta.
      destruct (margin_paints (Z.to_nat 8) 8 (tmsMainBgColor t) (-1) pixels
                  P_backdrop ltac:(lia) ltac:(lia) ltac:(lia) Hnone)
        as [H1 H2].
      pose proof (margin_enough (Z.to_nat 8) 8 (tmsMainBgColor t) (-1) pixels
                    ltac:(lia)) as H0.
      destruct (margin (Z.to_nat 8) 8 (tmsMainBgColor t) (-1) pixels)
        as [p1 px1].
      cbn [fst snd] in H0, H1, H2. subst p1.
      change (Z.max (-1 + 1) 8 - 1) with 7.
      match goal with
      | |- context [textTiles beyond ?n t ?a ?b ?fg ?bg 0 7 px1] =>
          destruct (textTiles_paints n a b fg bg 0 7 px1
                      main_fg_color_ok P_backdrop ltac:(lia)
                      ltac:(rewrite H1; change (Z.of_nat n) with 40; lia)
                      ltac:(intros x Hx; apply H2; lia))
            as (H3 & H4 & H5);
          destruct (textTiles beyond n t a b fg bg 0 7 px1) as [p2 px2]
      end.
      cbn [fst snd] in H3, H4, H5.
      change (Z.of_nat (Z.to_nat TEXT_NUM_COLS)) with 40 in *.
      subst p2.
      destruct (margin_paints (Z.to_nat TMS9918A_PIXELS_X) TMS9918A_PIXELS_X
                  (tmsMainBgColor t) (7 + 6 * 40) px2 P_backdrop ltac:(lia)
                  ltac:(rewrite H4, H1; unfold TMS9918A_PIXELS_X; lia)
                  ltac:(unfold TMS9918A_PIXELS_X; lia) H5)
        as [H6 H7].
      destruct (margin (Z.to_nat TMS9918A_PIXELS_X) TMS9918A_PIXELS_X
                  (tmsMainBgColor t) (7 + 6 * 40) px2) as [p3 px3].
      cbn [snd] in *. split; [congruence |].
      intros x Hx. apply H7. unfold TMS9918A_PIXELS_X in *. lia.
    - unfold vrEmuTms9918aMulticolorScanLine. cbv zeta.
      match goal with
      | |- context [multicolorTiles beyond ?n t ?a ?b 0 (-1) pixels] =>
          destruct (multicolorTiles_paints n a b 0 (-1) pixels
                      ltac:(lia)
                      ltac:(change (Z.of_nat n) with 32; lia) Hnone)
            as [H1 H2];
          destruct (multicolorTiles beyond n t a b 0 (-1) pixels)
            as [p1 bg]
      end.
      cbn [snd] in H1, H2.
      change (Z.of_nat (Z.to_nat GRAPHICS_NUM_COLS)) with 32 in H2.
      destruct (outputSprites_paints y t bg) as [H3 H4].
      { intros x Hx. apply H2. unfold TMS9918A_PIXELS_X in Hx. lia. }
      split; [congruence | exact H4]. }
  cbv zeta in Hmode.
  destruct (match mode t with
            | TMS_MODE_GRAPHICS_I => _ | TMS_MODE_GRAPHICS_II => _
            | TMS_MODE_TEXT => _ | TMS_MODE_MULTICOLOR => _ end) as [t1 px1].
  exact Hmode.
Qed.

End Colors.

Lemma forall_of_cells (P : Z -> Prop) (l : list Z) :
  length l = Z.to_nat TMS9918A_PIXELS_X ->
  (forall x, 0 <= x < TMS9918A_PIXELS_X -> P (cell l x)) ->
  Forall P l.
Proof.
  intros Hlen Hc. apply Forall_lookup_2. intros i x Hi.
  rewrite <- (cell_of_lookup l i x Hi). apply Hc.
  apply lookup_lt_Some in Hi. unfold TMS9918A_PIXELS_X in *. lia.
Qed.

(** X8: a scanline call overwrites the whole 256-byte buffer with
    palette indices 0..15, whatever the buffer held. *)
Theorem scanline_pixels_are_colors (t : VrEmuTms9918a) (y : Z)
    (pixels : list Z) :
  length pixels = Z.to_nat TMS9918A_PIXELS_X ->
  Forall is_u8 (vram t) ->
  is_u8 (reg t TMS_REG_7) ->
  let out := snd (vrEmuTms9918aScanLine beyond t y pixels) in
  length out = Z.to_nat TMS9918A_PIXELS_X
  /\ Forall (fun c => 0 <= c <= 15) out.
Proof.
  intros Hlen Hv H7. cbv zeta.
  destruct (scanLine_paints (fun c => 0 <= c <= 15) t
              ltac:(intros c Hc; cbv beta; lia)
              ltac:(apply land_0f_range) Hv H7 y pixels Hlen) as [H1 H2].
  split; [exact H1 |]. now apply forall_of_cells.
Qed.

(** X9: no pixel of a scanline is the transparent index 0, unless the
    display is on and the backdrop nibble of R7 is 0. *)
Theorem scanline_no_transparent_pixel (t : VrEmuTms9918a) (y : Z)
    (pixels : list Z) :
  length pixels = Z.to_nat TMS9918A_PIXELS_X ->
  Forall is_u8 (vram t) ->
  is_u8 (reg t TMS_REG_7) ->
  (Z.testbit (reg t TMS_REG_1) 6 = true ->
   Z.land (reg t TMS_REG_7) 0x0f <> 0) ->
  Forall (fun c => 1 <= c <= 15)
         (snd (vrEmuTms9918aScanLine beyond t y pixels)).
Proof.
  intros Hlen Hv H7 Hbd.
  assert (Hbg : 1 <= tmsMainBgColor t <= 15).
  { unfold tmsMainBgColor, vrEmuTms9918aDisplayEnabled.
    change 0x40 with (2 ^ 6). rewrite nonzero_land_pow2 by lia.
    destruct (Z.testbit (reg t TMS_REG_1) 6); cbn [nonzero negb Z.eqb].
    - pose proof (land_0f_range (reg t TMS_REG_7)).
      specialize (Hbd eq_refl). lia.
    - vm_compute. split; discriminate. }
  destruct (scanLine_paints (fun c => 1 <= c <= 15) t
              ltac:(intros c Hc; cbv beta; lia)
              Hbg Hv H7 y pixels Hlen) as [H1 H2].
  now apply forall_of_cells.
Qed.

(** X10: with the display on, a line at or beyond 192 is 256 bytes of
    the backdrop, the low nibble of R7, and the state is unchanged. *)
Theorem scanline_outside_raster_is_backdrop (t : VrEmuTms9918a) (y : Z)
    (pixels : list Z) :
  length pixels = Z.to_nat TMS9918A_PIXELS_X ->
  Z.testbit (reg t TMS_REG_1) 6 = true ->
  TMS9918A_PIXELS_Y <= y ->
  vrEmuTms9918aScanLine beyond t y pixels
  = (t, replicate (Z.to_nat TMS9918A_PIXELS_X)
                  (Z.land (reg t TMS_REG_7) 0x0f)).
Proof.
  intros Hlen Hen Hy.
  unfold vrEmuTms9918aScanLine, tmsMainBgColor, vrEmuTms9918aDisplayEnabled.
  change 0x40 with (2 ^ 6). rewrite nonzero_land_pow2 by lia.
  rewrite Hen. cbn [nonzero negb orb Z.eqb].
  replace (TMS9918A_PIXELS_Y <=? y) with true
    by (symmetry; apply Z.leb_le; exact Hy).
  rewrite (memset_all _ _ _ Hlen). unfold u8.
  pose proof (land_0f_range (reg t TMS_REG_7)).
  rewrite Z.mod_small by lia. reflexivity.
Qed.

(** *** Pixels written by the sprite pass *)

Lemma spriteColumns_pixels (t0 : VrEmuTms9918a) (c off hPos : Z) (n : nat) :
  forall (k st : Z) (rb px : list Z) (x : Z),
  0 <= k ->
  off + 16 < VRAM_SIZE ->
  0 <= x < TMS9918A_PIXELS_X ->
  (Z.to_nat x < length px)%nat ->
  let r := spriteColumns beyond n c off (hPos + k) k
             (patternIndex t0 k mod 8) (patternByteAt beyond t0 off k)
             (touch st rb t0) px in
  length (snd r) = length px
  /\ cell (snd r) x
     = if (k <=? x - hPos) && (x - hPos <? k + Z.of_nat n)
          && patternBitAt beyond t0 off (x - hPos)
          && negb (c =? TMS_TRANSPARENT)
       then c else cell px x.
Proof.
  induction n as [| n IH]; intros k st rb px x Hk Hoff Hx Hin; cbv zeta.
  - cbn [spriteColumns snd]. split; [reflexivity |].
    replace ((k <=? x - hPos) && (x - hPos <? k + Z.of_nat 0)) with false;
      [reflexivity |].
    symmetry. apply andb_false_iff.
    destruct (Z.leb_spec k (x - hPos)); [right; apply Z.ltb_ge; lia | now left].
  - cbn [spriteColumns].
    destruct (Z.leb_spec TMS9918A_PIXELS_X (hPos + k)) as [Hout | Hin'].
    { cbn [snd]. split; [reflexivity |].
      replace (k <=? x - hPos) with false; [reflexivity |].
      symmetry. apply Z.leb_gt. lia. }
    fold (patternBitAt beyond t0 off k).
    remember ((0 <=? hPos + k) && patternBitAt beyond t0 off k) as draw
      eqn:Hdraw.
    set (px1 := if draw && negb (c =? TMS_TRANSPARENT)
                then store px (hPos + k) c else px).
    assert (Hr1 : exists st1 rb1,
              (if draw then spriteColumn c (hPos + k) (touch st rb t0) px
               else (touch st rb t0, px))
              = (touch st1 rb1 t0, px1)).
    { unfold px1. destruct draw; cbn [andb].
      - unfold spriteColumn.
        cbn [rowSpriteBits touch set_rowSpriteBits set_status status].
        destruct (nonzero (cell rb (hPos + k)));
          destruct (negb (c =? TMS_TRANSPARENT));
          eexists _, _; reflexivity.
      - exists st, rb. reflexivity. }
    destruct Hr1 as (st1 & rb1 & Hr1). rewrite Hr1.
    change (tmsSpriteMag (touch st1 rb1 t0)) with (tmsSpriteMag t0).
    rewrite (vramAt_touch beyond st1 rb1 t0 (off + 16) Hoff).
    rewrite (advance_pattern beyond t0 off k Hk).
    replace (hPos + k + 1) with (hPos + (k + 1)) by lia.
    assert (Hl1 : length px1 = length px).
    { unfold px1. destruct (draw && negb (c =? TMS_TRANSPARENT));
        [apply length_store | reflexivity]. }
    destruct (IH (k + 1) st1 rb1 px1 x ltac:(lia) Hoff Hx
                ltac:(rewrite Hl1; exact Hin)) as [Hlen Hcell].
    split; [congruence |]. rewrite Hcell.
    destruct (Z.eq_dec (x - hPos) k) as [Hxk | Hxk].
    + replace (k + 1 <=? x - hPos) with false
        by (symmetry; apply Z.leb_gt; lia).
      replace (k <=? x - hPos) with true by (symmetry; apply Z.leb_le; lia).
      replace (x - hPos <? k + Z.of_nat (S n)) with true
        by (symmetry; apply Z.ltb_lt; lia).
      cbn [andb]. rewrite Hxk.
      unfold px1. rewrite Hdraw.
      replace (0 <=? hPos + k) with true by (symmetry; apply Z.leb_le; lia).
      cbn [andb].
      destruct (patternBitAt beyond t0 off k && negb (c =? TMS_TRANSPARENT));
        [| reflexivity].
      replace (hPos + k) with x by lia.
      apply cell_store_eq; lia.
    + replace (k + 1 <=? x - hPos) with (k <=? x - hPos).
      2:{ destruct (Z.leb_spec k (x - hPos)), (Z.leb_spec (k + 1) (x - hPos));
            try reflexivity; lia. }
      replace (x - hPos <? k + 1 + Z.of_nat n)
        with (x - hPos <? k + Z.of_nat (S n)) by (f_equal; lia).
      assert (Hsame : cell px1 x = cell px x).
      { unfold px1. destruct draw; cbn [andb]; [| reflexivity].
        destruct (negb (c =? TMS_TRANSPARENT)); [| reflexivity].
        symmetry in Hdraw. apply andb_true_iff in Hdraw as [Hpos _].
        apply Z.leb_le in Hpos. apply cell_store_ne; lia. }
      rewrite Hsame. reflexivity.
Qed.

Lemma spriteColumns_length (n : nat) :
  forall (c off x sb pb byte : Z) (t : VrEmuTms9918a) (px : list Z),
  length (snd (spriteColumns beyond n c off x sb pb byte t px)) = length px.
Proof.
  induction n as [| n IH]; intros c off x sb pb byte t px; [reflexivity |].
  cbn [spriteColumns].
  destruct (TMS9918A_PIXELS_X <=? x); [reflexivity |].
  set (r := if (0 <=? x) && nonzero (Z.land byte (Z.shiftr 128 pb))
            then spriteColumn c x t px else (t, px)).
  assert (Hr : length (snd r) = length px).
  { unfold r. destruct (_ && _); [| reflexivity].
    unfold spriteColumn. cbn [snd].
    destruct (negb (c =? TMS_TRANSPARENT));
      [apply length_store | reflexivity]. }
  destruct r as [t1 px1]. cbn [snd] in Hr.
  destruct (negb (nonzero (tmsSpriteMag t1)) || nonzero (Z.land sb 1));
    [destruct (pb + 1 =? 8) |]; rewrite IH; exact Hr.
Qed.

Lemma drawnFrom_cons (t : VrEmuTms9918a) (y i shown j : Z) :
  slotEnds beyond t i = false -> i + 1 <= j ->
  drawnFrom beyond t y (i + 1)
    (shown + (if slotOnLine beyond t y i then 1 else 0)) j ->
  drawnFrom beyond t y i shown j.
Proof.
  unfold drawnFrom, MAX_SCANLINE_SPRITES.
  intros He Hij (_ & Hne & Hon & Hcnt).
  split; [lia |].
  replace (Z.to_nat (j + 1 - i)) with (S (Z.to_nat (j + 1 - (i + 1))))
    by lia.
  replace (Z.to_nat (j - i)) with (S (Z.to_nat (j - (i + 1)))) by lia.
  cbn [noEnd onLineCount]. rewrite He, Hne.
  split; [reflexivity |]. split; [exact Hon | lia].
Qed.

Lemma drawnFrom_self (t : VrEmuTms9918a) (y i shown : Z) :
  slotEnds beyond t i = false -> slotOnLine beyond t y i = true ->
  shown < MAX_SCANLINE_SPRITES ->
  drawnFrom beyond t y i shown i.
Proof.
  unfold drawnFrom. intros He Hon Hs.
  replace (i + 1 - i) with 1 by lia. rewrite Z.sub_diag.
  change (Z.to_nat 1) with 1%nat. change (Z.to_nat 0) with 0%nat.
  cbn [noEnd onLineCount]. rewrite He.
  split; [lia |]. split; [reflexivity |]. split; [exact Hon | lia].
Qed.

(** The turn of a slot that is rendered and whose pattern bytes lie
    inside the array. *)
Lemma drawn_slot_effect (t0 : VrEmuTms9918a) (y i shown st : Z)
    (rb px : list Z) :
  0 <= i < MAX_SPRITES ->
  slotEnds beyond t0 i = false ->
  slotOnLine beyond t0 y i = true ->
  slotInside beyond t0 y i = true ->
  0 <= shown < MAX_SCANLINE_SPRITES ->
  (0 < shown -> (Z.to_nat TMS9918A_PIXELS_X <= length rb)%nat) ->
  exists st1 rb2 px1,
    spriteSlot beyond y (spriteSizePx t0) (tmsSpriteAttrTableAddr t0)
               (tmsSpritePatternTableAddr t0) i shown (touch st rb t0) px
    = SlotNext (shown + 1) (touch st1 rb2 t0) px1
    /\ (Z.to_nat TMS9918A_PIXELS_X <= length rb2)%nat
    /\ length px1 = length px
    /\ (forall x, 0 <= x < TMS9918A_PIXELS_X ->
          (Z.to_nat x < length px)%nat ->
          cell px1 x
          = if slotBitAt beyond t0 y i x
               && negb (slotColor beyond t0 i =? TMS_TRANSPARENT)
            then slotColor beyond t0 i else cell px x).
Proof.
  intros Hi He Hon Hin Hs Hrb. unfold MAX_SCANLINE_SPRITES in Hs.
  unfold slotInside in Hin. apply Z.ltb_lt in Hin.
  rewrite spriteSlot_eq by exact Hi. rewrite He, Hon. cbn [negb]. cbv zeta.
  replace (MAX_SCANLINE_SPRITES <? shown + 1) with false
    by (symmetry; apply Z.ltb_ge; unfold MAX_SCANLINE_SPRITES; lia).
  set (rb1 := if shown =? 0 then memset rb 0 TMS9918A_PIXELS_X else rb).
  assert (Hrb1 : (Z.to_nat TMS9918A_PIXELS_X <= length rb1)%nat).
  { unfold rb1. destruct (Z.eqb_spec shown 0) as [_ | Hnz].
    - apply memset_long.
    - apply Hrb. lia. }
  destruct (pattern_start beyond t0 (slotPatternOffset beyond t0 y i))
    as [Hp0 Hb0].
  destruct (spriteColumns_run beyond t0 (slotColor beyond t0 i)
              (slotPatternOffset beyond t0 y i) (slotHPos beyond t0 i)
              (Z.to_nat (spriteSizePx t0)) 0 st rb1 px ltac:(lia) Hin Hrb1)
    as (st1 & rb2 & px1 & Hrun1 & Hlen1 & _).
  pose proof (spriteColumns_pixels t0 (slotColor beyond t0 i)
                (slotPatternOffset beyond t0 y i) (slotHPos beyond t0 i)
                (Z.to_nat (spriteSizePx t0)) 0 st rb1 px) as Hpix.
  cbv zeta in Hpix. rewrite Hrun1 in Hpix. cbn [snd] in Hpix.
  rewrite Hp0, Hb0, Z.add_0_r in Hrun1.
  rewrite (vramAt_touch beyond st rb1 t0) by lia. rewrite Hrun1.
  exists st1, rb2, px1. split; [reflexivity |].
  split; [rewrite Hlen1; exact Hrb1 |].
  pose proof (spriteSizePx_pos t0) as Hsz.
  split.
  - rewrite <- (spriteColumns_length (Z.to_nat (spriteSizePx t0))
                  (slotColor beyond t0 i) (slotPatternOffset beyond t0 y i)
                  (slotHPos beyond t0 i) 0 0
                  (vramAt beyond t0 (slotPatternOffset beyond t0 y i))
                  (touch st rb1 t0) px).
    rewrite Hrun1. reflexivity.
  - intros x Hx Hlt. destruct (Hpix x ltac:(lia) Hin Hx Hlt) as [_ Hc].
    rewrite Hc. unfold slotBitAt. cbv zeta.
    rewrite Z2Nat.id by lia. rewrite Z.add_0_l. reflexivity.
Qed.

(** A column that no rendered slot paints keeps its pixel. *)
Lemma spriteSlots_unpainted (t0 : VrEmuTms9918a) (y x : Z) (n : nat) :
  forall (i shown st : Z) (rb px : list Z),
  0 <= i -> i + Z.of_nat n <= MAX_SPRITES ->
  0 <= shown ->
  (0 < shown -> (Z.to_nat TMS9918A_PIXELS_X <= length rb)%nat) ->
  0 <= x < TMS9918A_PIXELS_X ->
  (Z.to_nat x < length px)%nat ->
  (forall j, j < i + Z.of_nat n ->
             drawnFrom beyond t0 y i shown j ->
             slotInside beyond t0 y j = true) ->
  (forall j, j < i + Z.of_nat n ->
             drawnFrom beyond t0 y i shown j ->
             slotBitAt beyond t0 y j x = true ->
             slotColor beyond t0 j = TMS_TRANSPARENT) ->
  cell (snd (spriteSlots beyond n y (spriteSizePx t0)
               (tmsSpriteAttrTableAddr t0) (tmsSpritePatternTableAddr t0)
               i shown (touch st rb t0) px)) x
  = cell px x.
Proof.
  induction n as [| n IH];
    intros i shown st rb px Hi Hn Hshown Hrb Hx Hin Hins Hnone;
    [reflexivity |].
  assert (Hir : 0 <= i < MAX_SPRITES) by lia.
  cbn [spriteSlots].
  destruct (slotEnds beyond t0 i) eqn:He.
  { rewrite spriteSlot_eq by exact Hir. rewrite He. reflexivity. }
  destruct (slotOnLine beyond t0 y i) eqn:Hon.
  2:{ rewrite spriteSlot_eq by exact Hir. rewrite He, Hon. cbn [negb].
      assert (Hcons : forall j, drawnFrom beyond t0 y (i + 1) shown j ->
                                drawnFrom beyond t0 y i shown j).
      { intros j Hd. apply drawnFrom_cons; [exact He | destruct Hd; lia |].
        rewrite Hon, Z.add_0_r. exact Hd. }
      apply IH; auto; try lia.
      - intros j Hj Hd. apply Hins; [lia | apply Hcons; exact Hd].
      - intros j Hj Hd. apply Hnone; [lia | apply Hcons; exact Hd]. }
  destruct (Z.ltb_spec shown MAX_SCANLINE_SPRITES) as [Hroom | Hfull].
  2:{ rewrite spriteSlot_eq by exact Hir. rewrite He, Hon.
      cbn [negb]. cbv zeta.
      replace (MAX_SCANLINE_SPRITES <? shown + 1) with true
        by (symmetry; apply Z.ltb_lt; lia).
      reflexivity. }
  pose proof (drawnFrom_self t0 y i shown He Hon Hroom) as Hself.
  destruct (drawn_slot_effect t0 y i shown st rb px Hir He Hon
              (Hins i ltac:(lia) Hself) ltac:(lia) Hrb)
    as (st1 & rb2 & px1 & Hslot & Hrb2 & Hl1 & Hpix).
  assert (Hcons : forall j, drawnFrom beyond t0 y (i + 1) (shown + 1) j ->
                            drawnFrom beyond t0 y i shown j).
  { intros j Hd. apply drawnFrom_cons; [exact He | destruct Hd; lia |].
    rewrite Hon. exact Hd. }
  rewrite Hslot. rewrite IH; auto; try lia.
  - rewrite (Hpix x Hx Hin).
    destruct (slotBitAt beyond t0 y i x) eqn:Hb; cbn [andb]; [| reflexivity].
    rewrite (Hnone i ltac:(lia) Hself Hb).
    reflexivity.
  - intros j Hj Hd. apply Hins; [lia | apply Hcons; exact Hd].
  - intros j Hj Hd. apply Hnone; [lia | apply Hcons; exact Hd].
Qed.

(** The last rendered slot that paints a column gives it its color. *)
Lemma spriteSlots_topmost (t0 : VrEmuTms9918a) (y x j : Z) (n : nat) :
  forall (i shown st : Z) (rb px : list Z),
  0 <= i -> i + Z.of_nat n <= MAX_SPRITES ->
  0 <= shown ->
  (0 < shown -> (Z.to_nat TMS9918A_PIXELS_X <= length rb)%nat) ->
  0 <= x < TMS9918A_PIXELS_X ->
  (Z.to_nat x < length px)%nat ->
  j < i + Z.of_nat n ->
  drawnFrom beyond t0 y i shown j ->
  (forall j', j' < i + Z.of_nat n ->
              drawnFrom beyond t0 y i shown j' ->
              slotInside beyond t0 y j' = true) ->
  slotBitAt beyond t0 y j x = true ->
  slotColor beyond t0 j <> TMS_TRANSPARENT ->
  (forall j', j < j' < i + Z.of_nat n ->
              drawnFrom beyond t0 y i shown j' ->
              slotBitAt beyond t0 y j' x = true ->
              slotColor beyond t0 j' = TMS_TRANSPARENT) ->
  cell (snd (spriteSlots beyond n y (spriteSizePx t0)
               (tmsSpriteAttrTableAddr t0) (tmsSpritePatternTableAddr t0)
               i shown (touch st rb t0) px)) x
  = slotColor beyond t0 j.
Proof.
  induction n as [| n IH];
    intros i shown st rb px Hi Hn Hshown Hrb Hx Hin Hjn Hd Hins Hb Hc Hlater.
  { destruct Hd as (Hij & _). lia. }
  assert (Hir : 0 <= i < MAX_SPRITES) by lia.
  cbn [spriteSlots].
  destruct (drawnFrom_step beyond _ _ _ _ _ Hd)
    as [He [(-> & Hon & Hroom) | (Hlt & Hd')]].
  - destruct (drawn_slot_effect t0 y i shown st rb px Hir He Hon
                (Hins i ltac:(lia) Hd) ltac:(lia) Hrb)
      as (st1 & rb2 & px1 & Hslot & Hrb2 & Hl1 & Hpix).
    assert (Hcons : forall j, drawnFrom beyond t0 y (i + 1) (shown + 1) j ->
                              drawnFrom beyond t0 y i shown j).
    { intros j Hdj. apply drawnFrom_cons; [exact He | destruct Hdj; lia |].
      rewrite Hon. exact Hdj. }
    rewrite Hslot. rewrite spriteSlots_unpainted; auto; try lia.
    + rewrite (Hpix x Hx Hin), Hb. cbn [andb].
      destruct (Z.eqb_spec (slotColor beyond t0 i) TMS_TRANSPARENT);
        [contradiction | reflexivity].
    + intros j' Hj' Hd''. apply Hins; [lia | apply Hcons; exact Hd''].
    + intros j' Hj' Hd''. apply Hlater; [destruct Hd''; lia |].
      apply Hcons. exact Hd''.
  - destruct (slotOnLine beyond t0 y i) eqn:Hon.
    + assert (Hroom : shown < MAX_SCANLINE_SPRITES).
      { destruct Hd' as (_ & _ & _ & Hcnt).
        pose proof (onLineCount_nonneg beyond (Z.to_nat (j - (i + 1))) t0 y
                      (i + 1)).
        lia. }
      pose proof (drawnFrom_self t0 y i shown He Hon Hroom) as Hself.
      destruct (drawn_slot_effect t0 y i shown st rb px Hir He Hon
                  (Hins i ltac:(lia) Hself) ltac:(lia) Hrb)
        as (st1 & rb2 & px1 & Hslot & Hrb2 & Hl1 & Hpix).
      assert (Hcons : forall j, drawnFrom beyond t0 y (i + 1) (shown + 1) j ->
                                drawnFrom beyond t0 y i shown j).
      { intros j0 Hdj. apply drawnFrom_cons; [exact He | destruct Hdj; lia |].
        rewrite Hon. exact Hdj. }
      rewrite Hslot. apply IH; auto; try lia.
      * intros j' Hj' Hd''. apply Hins; [lia | apply Hcons; exact Hd''].
      * intros j' Hj' Hd''. apply Hlater; [lia |]. apply Hcons. exact Hd''.
    + rewrite spriteSlot_eq by exact Hir. rewrite He, Hon. cbn [negb].
      rewrite Z.add_0_r in Hd'.
      assert (Hcons : forall j, drawnFrom beyond t0 y (i + 1) shown j ->
                                drawnFrom beyond t0 y i shown j).
      { intros j0 Hdj. apply drawnFrom_cons; [exact He | destruct Hdj; lia |].
        rewrite Hon, Z.add_0_r. exact Hdj. }
      apply IH; auto; try lia.
      * intros j' Hj' Hd''. apply Hins; [lia | apply Hcons; exact Hd''].
      * intros j' Hj' Hd''. apply Hlater; [lia |]. apply Hcons. exact Hd''.
Qed.

(** X11: when the pattern bytes of the rendered slots lie inside the
    array, the sprite pass leaves the pixel of a column alone if every
    rendered slot with a set pattern bit there is transparent. *)
Theorem sprite_pass_keeps_unpainted_pixels (t : VrEmuTms9918a) (y x : Z)
    (pixels : list Z) :
  length pixels = Z.to_nat TMS9918A_PIXELS_X ->
  0 <= x < TMS9918A_PIXELS_X ->
  (forall j, slotDrawn beyond t y j -> slotInside beyond t y j = true) ->
  (forall j, slotDrawn beyond t y j ->
             slotBitAt beyond t y j x = true ->
             slotColor beyond t j = TMS_TRANSPARENT) ->
  cell (snd (vrEmuTms9918aOutputSprites beyond t y pixels)) x
  = cell pixels x.
Proof.
  intros Hlen Hx Hins Hnone. rewrite outputSprites_run.
  assert (Hslot : forall j, j < 0 + Z.of_nat (Z.to_nat MAX_SPRITES) ->
                            drawnFrom beyond t y 0 0 j ->
                            slotDrawn beyond t y j).
  { intros j Hj Hd. split; [| exact Hd].
    destruct Hd as (H0 & _). unfold MAX_SPRITES in *. lia. }
  apply spriteSlots_unpainted;
    [lia | unfold MAX_SPRITES; lia | lia | intros H0; lia | exact Hx | | |].
  - rewrite Hlen. unfold TMS9918A_PIXELS_X in *. lia.
  - intros j Hj Hd. apply Hins. apply Hslot; assumption.
  - intros j Hj Hd. apply Hnone. apply Hslot; assumption.
Qed.

(** X12: when the pattern bytes of the rendered slots lie inside the
    array, the pixel where rendered sprites overlap gets the color of
    the highest-numbered rendered slot that has a set pattern bit there
    and is not transparent. *)
Theorem sprite_pass_topmost_color (t : VrEmuTms9918a) (y x j : Z)
    (pixels : list Z) :
  length pixels = Z.to_nat TMS9918A_PIXELS_X ->
  0 <= x < TMS9918A_PIXELS_X ->
  (forall j', slotDrawn beyond t y j' -> slotInside beyond t y j' = true) ->
  slotDrawn beyond t y j ->
  slotBitAt beyond t y j x = true ->
  slotColor beyond t j <> TMS_TRANSPARENT ->
  (forall j', j < j' ->
              slotDrawn beyond t y j' ->
              slotBitAt beyond t y j' x = true ->
              slotColor beyond t j' = TMS_TRANSPARENT) ->
  cell (snd (vrEmuTms9918aOutputSprites beyond t y pixels)) x
  = slotColor beyond t j.
Proof.
  intros Hlen Hx Hins [Hj Hd] Hb Hc Hlater. rewrite outputSprites_run.
  assert (Hslot : forall j', j' < 0 + Z.of_nat (Z.to_nat MAX_SPRITES) ->
                             drawnFrom beyond t y 0 0 j' ->
                             slotDrawn beyond t y j').
  { intros j' Hj' Hd'. split; [| exact Hd'].
    destruct Hd' as (H0 & _). unfold MAX_SPRITES in *. lia. }
  apply (spriteSlots_topmost t y x j);
    [lia | unfold MAX_SPRITES; lia | lia | intros H0; lia | exact Hx | |
     | exact Hd | | exact Hb | exact Hc |].
  - rewrite Hlen. unfold TMS9918A_PIXELS_X in *. lia.
  - unfold MAX_SPRITES in *. lia.
  - intros j' Hj' Hd'. apply Hins. apply Hslot; assumption.
  - intros j' Hj' Hd'. apply Hlater; [lia |]. apply Hslot; [lia | exact Hd'].
Qed.

(** *** The backgrounds as maps over the columns *)

Lemma line_eq (f : Z -> Z) (l : list Z) :
  length l = Z.to_nat TMS9918A_PIXELS_X ->
  (forall x, 0 <= x < TMS9918A_PIXELS_X -> cell l x = f x) ->
  l = lineOf f.
Proof.
  intros Hlen Hc. apply list_eq. intros i. unfold lineOf.
  rewrite list_lookup_fmap.
  destruct (decide (Z.of_nat i < TMS9918A_PIXELS_X)) as [Hlt | Hge].
  - rewrite lookup_seqZ_lt by exact Hlt. cbn [fmap option_fmap option_map].
    rewrite Z.add_0_l, <- Hc by lia.
    unfold cell. rewrite Nat2Z.id.
    destruct (lookup_lt_is_Some_2 l i) as [v Hv]; [lia |].
    rewrite Hv. reflexivity.
  - rewrite lookup_seqZ_ge by lia.
    rewrite lookup_ge_None_2 by lia. reflexivity.
Qed.

Lemma shifted_bit (cur k : Z) :
  k < 8 -> Z.testbit (u8 (Z.shiftl cur 1)) k = Z.testbit cur (k - 1).
Proof.
  intros Hk. destruct (Z.ltb_spec k 0) as [Hneg | Hpos].
  - rewrite !Z.testbit_neg_r by lia. reflexivity.
  - rewrite testbit_u8 by lia. apply Z.shiftl_spec. exact Hpos.
Qed.

Lemma patternBits_cells (n : nat) :
  forall (cur fg bg p : Z) (px : list Z) (x : Z),
  -1 <= p -> p + Z.of_nat n < Z.of_nat (length px) -> 0 <= x ->
  let r := patternBits n cur fg bg p px in
  fst r = p + Z.of_nat n
  /\ length (snd r) = length px
  /\ cell (snd r) x
     = if (p <? x) && (x <=? p + Z.of_nat n)
       then (if Z.testbit cur (7 - (x - p - 1)) then fg else bg)
       else cell px x.
Proof.
  induction n as [| n IH]; intros cur fg bg p px x Hp Hlen Hx; cbv zeta.
  - cbn [patternBits fst snd]. rewrite Z.add_0_r.
    split; [reflexivity |]. split; [reflexivity |].
    destruct (Z.ltb_spec p x), (Z.leb_spec x p); cbn [andb];
      try reflexivity; lia.
  - cbn [patternBits].
    change 128 with (2 ^ 7). rewrite nonzero_land_pow2 by lia.
    set (c := if Z.testbit cur 7 then fg else bg).
    destruct (IH (u8 (Z.shiftl cur 1)) fg bg (p + 1) (store px (p + 1) c) x
                ltac:(lia) ltac:(rewrite length_store; lia) Hx)
      as (H1 & H2 & H3).
    rewrite H1, H2, H3, length_store.
    split; [lia |]. split; [reflexivity |].
    destruct (Z.eq_dec x (p + 1)) as [-> | Hne].
    + replace (p + 1 <? p + 1) with false by (symmetry; apply Z.ltb_irrefl).
      replace (p <? p + 1) with true by (symmetry; apply Z.ltb_lt; lia).
      replace (p + 1 <=? p + Z.of_nat (S n)) with true
        by (symmetry; apply Z.leb_le; lia).
      cbn [andb]. rewrite cell_store_eq by lia.
      replace (7 - (p + 1 - p - 1)) with 7 by lia. reflexivity.
    + rewrite cell_store_ne by lia.
      replace (p + 1 <? x) with (p <? x).
      2:{ destruct (Z.ltb_spec p x), (Z.ltb_spec (p + 1) x);
            try reflexivity; lia. }
      replace (x <=? p + 1 + Z.of_nat n) with (x <=? p + Z.of_nat (S n))
        by (f_equal; lia).
      destruct ((p <? x) && (x <=? p + Z.of_nat (S n))) eqn:Hc;
        [| reflexivity].
      apply andb_true_iff in Hc as [Hc _]. apply Z.ltb_lt in Hc.
      rewrite shifted_bit by lia.
      replace (7 - (x - (p + 1) - 1) - 1) with (7 - (x - p - 1)) by lia.
      reflexivity.
Qed.

Lemma colorRun_cells (n : nat) :
  forall (c p : Z) (px : list Z) (x : Z),
  -1 <= p -> p + Z.of_nat n < Z.of_nat (length px) -> 0 <= x ->
  let r := colorRun n c p px in
  fst r = p + Z.of_nat n
  /\ length (snd r) = length px
  /\ cell (snd r) x
     = if (p <? x) && (x <=? p + Z.of_nat n) then c else cell px x.
Proof.
  induction n as [| n IH]; intros c p px x Hp Hlen Hx; cbv zeta.
  - cbn [colorRun fst snd]. rewrite Z.add_0_r.
    split; [reflexivity |]. split; [reflexivity |].
    destruct (Z.ltb_spec p x), (Z.leb_spec x p); cbn [andb];
      try reflexivity; lia.
  - cbn [colorRun].
    destruct (IH c (p + 1) (store px (p + 1) c) x
                ltac:(lia) ltac:(rewrite length_store; lia) Hx)
      as (H1 & H2 & H3).
    rewrite H1, H2, H3, length_store.
    split; [lia |]. split; [reflexivity |].
    destruct (Z.eq_dec x (p + 1)) as [-> | Hne].
    + replace (p + 1 <? p + 1) with false by (symmetry; apply Z.ltb_irrefl).
      replace (p <? p + 1) with true by (symmetry; apply Z.ltb_lt; lia).
      replace (p + 1 <=? p + Z.of_nat (S n)) with true
        by (symmetry; apply Z.leb_le; lia).
      cbn [andb]. apply cell_store_eq; lia.
    + rewrite cell_store_ne by lia.
      replace (p + 1 <? x) with (p <? x).
      2:{ destruct (Z.ltb_spec p x), (Z.ltb_spec (p + 1) x);
            try reflexivity; lia. }
      replace (x <=? p + 1 + Z.of_nat n) with (x <=? p + Z.of_nat (S n))
        by (f_equal; lia).
      reflexivity.
Qed.

Lemma margin_cells (n : nat) :
  forall (limit c p : Z) (px : list Z) (x : Z),
  -1 <= p -> limit <= Z.of_nat (length px) ->
  limit - p - 1 <= Z.of_nat n -> 0 <= x ->
  let r := margin n limit c p px in
  length (snd r) = length px
  /\ cell (snd r) x = if (p <? x) && (x <? limit) then c else cell px x.
Proof.
  induction n as [| n IH]; intros limit c p px x Hp Hlen Hn Hx; cbv zeta;
    cbn [margin]; destruct (Z.ltb_spec (p + 1) limit) as [Hlt | Hge];
    cbn [snd]; try lia.
  - split; [reflexivity |].
    destruct (Z.ltb_spec p x), (Z.ltb_spec x limit); cbn [andb];
      try reflexivity; lia.
  - destruct (IH limit c (p + 1) (store px (p + 1) c) x ltac:(lia)
                ltac:(rewrite length_store; lia) ltac:(lia) Hx)
      as (H2 & H3).
    rewrite H2, H3, length_store. split; [reflexivity |].
    destruct (Z.eq_dec x (p + 1)) as [-> | Hne].
    + replace (p + 1 <? p + 1) with false by (symmetry; apply Z.ltb_irrefl).
      replace (p <? p + 1) with true by (symmetry; apply Z.ltb_lt; lia).
      replace (p + 1 <? limit) with true by (symmetry; apply Z.ltb_lt; lia).
      cbn [andb]. apply cell_store_eq; lia.
    + rewrite cell_store_ne by lia.
      replace (p + 1 <? x) with (p <? x).
      2:{ destruct (Z.ltb_spec p x), (Z.ltb_spec (p + 1) x);
            try reflexivity; lia. }
      reflexivity.
  - split; [reflexivity |].
    destruct (Z.ltb_spec p x), (Z.ltb_spec x limit); cbn [andb];
      try reflexivity; lia.
Qed.

(** Tile and bit of a column behind a run of tiles [w] wide. *)
Lemma tile_of_column (w d : Z) :
  0 < w -> w <= d ->
  d / w = 1 + (d - w) / w /\ d mod w = (d - w) mod w.
Proof.
  intros Hw Hd.
  replace d with (d - w + 1 * w) at 1 3 by lia.
  rewrite Z.div_add, Z.mod_add by lia. lia.
Qed.

Lemma graphicsITiles_cells (t : VrEmuTms9918a) (n : nat) :
  forall (names patt color row tileX p : Z) (px : list Z) (x : Z),
  -1 <= p -> p + 8 * Z.of_nat n < Z.of_nat (length px) -> 0 <= x ->
  let r := graphicsITiles beyond n t names patt color row tileX p px in
  length (snd r) = length px
  /\ cell (snd r) x
     = if (p <? x) && (x <=? p + 8 * Z.of_nat n)
       then graphicsITile beyond t names patt color row
              (tileX + (x - p - 1) / 8) ((x - p - 1) mod 8)
       else cell px x.
Proof.
  induction n as [| n IH];
    intros names patt color row tileX p px x Hp Hlen Hx; cbv zeta.
  - cbn [graphicsITiles snd]. split; [reflexivity |].
    destruct (Z.ltb_spec p x), (Z.leb_spec x (p + 8 * Z.of_nat 0));
      cbn [andb]; try reflexivity; lia.
  - cbn [graphicsITiles].
    match goal with
    | |- context [patternBits ?m ?b ?fg ?bg p px] =>
        destruct (patternBits_cells m b fg bg p px x Hp
                    ltac:(change (Z.of_nat m) with 8; lia) Hx)
          as (H1 & H2 & H3);
        destruct (patternBits m b fg bg p px) as [p1 px1]
    end.
    cbn [fst snd] in H1, H2, H3.
    change (Z.of_nat (Z.to_nat GRAPHICS_CHAR_WIDTH)) with 8 in *. subst p1.
    destruct (IH names patt color row (tileX + 1) (p + 8) px1 x ltac:(lia)
                ltac:(rewrite H2; lia) Hx) as (H4 & H5).
    rewrite H4, H5, H2, H3. split; [reflexivity |].
    destruct (Z.ltb_spec (p + 8) x) as [Hfar | Hnear].
    + replace (p <? x) with true by (symmetry; apply Z.ltb_lt; lia).
      replace (x <=? p + 8 + 8 * Z.of_nat n)
        with (x <=? p + 8 * Z.of_nat (S n)) by (f_equal; lia).
      cbn [andb].
      destruct (x <=? p + 8 * Z.of_nat (S n)); [|
        replace (x <=? p + 8) with false by (symmetry; apply Z.leb_gt; lia);
        reflexivity].
      destruct (tile_of_column 8 (x - p - 1) ltac:(lia) ltac:(lia))
        as [Hq Hr].
      replace (x - (p + 8) - 1) with (x - p - 1 - 8) by lia.
      rewrite Hq, Hr. f_equal. lia.
    + cbn [andb].
      destruct (Z.ltb_spec p x) as [Hin | Hout]; cbn [andb];
        [| reflexivity].
      replace (x <=? p + 8) with true by (symmetry; apply Z.leb_le; lia).
      replace (x <=? p + 8 * Z.of_nat (S n)) with true
        by (symmetry; apply Z.leb_le; lia).
      unfold graphicsITile. cbv zeta.
      rewrite Z.div_small, Z.mod_small, Z.add_0_r by lia. reflexivity.
Qed.

Lemma graphicsIITiles_cells (t : VrEmuTms9918a) (n : nat) :
  forall (names patt color row tileX p : Z) (px : list Z) (x : Z),
  -1 <= p -> p + 8 * Z.of_nat n < Z.of_nat (length px) -> 0 <= x ->
  let r := graphicsIITiles beyond n t names patt color row tileX p px in
  length (snd r) = length px
  /\ cell (snd r) x
     = if (p <? x) && (x <=? p + 8 * Z.of_nat n)
       then graphicsIITile beyond t names patt color row
              (tileX + (x - p - 1) / 8) ((x - p - 1) mod 8)
       else cell px x.
Proof.
  induction n as [| n IH];
    intros names patt color row tileX p px x Hp Hlen Hx; cbv zeta.
  - cbn [graphicsIITiles snd]. split; [reflexivity |].
    destruct (Z.ltb_spec p x), (Z.leb_spec x (p + 8 * Z.of_nat 0));
      cbn [andb]; try reflexivity; lia.
  - cbn [graphicsIITiles].
    match goal with
    | |- context [patternBits ?m ?b ?fg ?bg p px] =>
        destruct (patternBits_cells m b fg bg p px x Hp
                    ltac:(change (Z.of_nat m) with 8; lia) Hx)
          as (H1 & H2 & H3);
        destruct (patternBits m b fg bg p px) as [p1 px1]
    end.
    cbn [fst snd] in H1, H2, H3.
    change (Z.of_nat (Z.to_nat GRAPHICS_CHAR_WIDTH)) with 8 in *. subst p1.
    destruct (IH names patt color row (tileX + 1) (p + 8) px1 x ltac:(lia)
                ltac:(rewrite H2; lia) Hx) as (H4 & H5).
    rewrite H4, H5, H2, H3. split; [reflexivity |].
    destruct (Z.ltb_spec (p + 8) x) as [Hfar | Hnear].
    + replace (p <? x) with true by (symmetry; apply Z.ltb_lt; lia).
      replace (x <=? p + 8 + 8 * Z.of_nat n)
        with (x <=? p + 8 * Z.of_nat (S n)) by (f_equal; lia).
      cbn [andb].
      destruct (x <=? p + 8 * Z.of_nat (S n)); [|
        replace (x <=? p + 8) with false by (symmetry; apply Z.leb_gt; lia);
        reflexivity].
      destruct (tile_of_column 8 (x - p - 1) ltac:(lia) ltac:(lia))
        as [Hq Hr].
      replace (x - (p + 8) - 1) with (x - p - 1 - 8) by lia.
      rewrite Hq, Hr. f_equal. lia.
    + cbn [andb].
      destruct (Z.ltb_spec p x) as [Hin | Hout]; cbn [andb];
        [| reflexivity].
      replace (x <=? p + 8) with true by (symmetry; apply Z.leb_le; lia).
      replace (x <=? p + 8 * Z.of_nat (S n)) with true
        by (symmetry; apply Z.leb_le; lia).
      unfold graphicsIITile. cbv zeta.
      rewrite Z.div_small, Z.mod_small, Z.add_0_r by lia. reflexivity.
Qed.

Lemma textTiles_cells (t : VrEmuTms9918a) (n : nat) :
  forall (names row tileX p : Z) (px : list Z) (x : Z),
  -1 <= p -> p + 6 * Z.of_nat n < Z.of_nat (length px) -> 0 <= x ->
  let r := textTiles beyond n t names row (tmsMainFgColor t)
             (tmsMainBgColor t) tileX p px in
  fst r = p + 6 * Z.of_nat n
  /\ length (snd r) = length px
  /\ cell (snd r) x
     = if (p <? x) && (x <=? p + 6 * Z.of_nat n)
       then textTile beyond t names row
              (tileX + (x - p - 1) / 6) ((x - p - 1) mod 6)
       else cell px x.
Proof.
  induction n as [| n IH];
    intros names row tileX p px x Hp Hlen Hx; cbv zeta.
  - cbn [textTiles fst snd]. split; [lia |]. split; [reflexivity |].
    destruct (Z.ltb_spec p x), (Z.leb_spec x (p + 6 * Z.of_nat 0));
      cbn [andb]; try reflexivity; lia.
  - cbn [textTiles].
    match goal with
    | |- context [patternBits ?m ?b ?fg ?bg p px] =>
        destruct (patternBits_cells m b fg bg p px x Hp
                    ltac:(change (Z.of_nat m) with 6; lia) Hx)
          as (H1 & H2 & H3);
        destruct (patternBits m b fg bg p px) as [p1 px1]
    end.
    cbn [fst snd] in H1, H2, H3.
    change (Z.of_nat (Z.to_nat TEXT_CHAR_WIDTH)) with 6 in *. subst p1.
    destruct (IH names row (tileX + 1) (p + 6) px1 x ltac:(lia)
                ltac:(rewrite H2; lia) Hx) as (H0 & H4 & H5).
    rewrite H0, H4, H5, H2, H3. split; [lia |]. split; [reflexivity |].
    destruct (Z.ltb_spec (p + 6) x) as [Hfar | Hnear].
    + replace (p <? x) with true by (symmetry; apply Z.ltb_lt; lia).
      replace (x <=? p + 6 + 6 * Z.of_nat n)
        with (x <=? p + 6 * Z.of_nat (S n)) by (f_equal; lia).
      cbn [andb].
      destruct (x <=? p + 6 * Z.of_nat (S n)); [|
        replace (x <=? p + 6) with false by (symmetry; apply Z.leb_gt; lia);
        reflexivity].
      destruct (tile_of_column 6 (x - p - 1) ltac:(lia) ltac:(lia))
        as [Hq Hr].
      replace (x - (p + 6) - 1) with (x - p - 1 - 6) by lia.
      rewrite Hq, Hr. f_equal. lia.
    + cbn [andb].
      destruct (Z.ltb_spec p x) as [Hin | Hout]; cbn [andb];
        [| reflexivity].
      replace (x <=? p + 6) with true by (symmetry; apply Z.leb_le; lia).
      replace (x <=? p + 6 * Z.of_nat (S n)) with true
        by (symmetry; apply Z.leb_le; lia).
      unfold textTile. cbv zeta.
      rewrite Z.div_small, Z.mod_small, Z.add_0_r by lia. reflexivity.
Qed.

Lemma multicolorTiles_cells (t : VrEmuTms9918a) (n : nat) :
  forall (names row tileX p : Z) (px : list Z) (x : Z),
  -1 <= p -> p + 8 * Z.of_nat n < Z.of_nat (length px) -> 0 <= x ->
  let r := multicolorTiles beyond n t names row tileX p px in
  length (snd r) = length px
  /\ cell (snd r) x
     = if (p <? x) && (x <=? p + 8 * Z.of_nat n)
       then multicolorTile beyond t names row
              (tileX + (x - p - 1) / 8) ((x - p - 1) mod 8)
       else cell px x.
Proof.
  induction n as [| n IH];
    intros names row tileX p px x Hp Hlen Hx; cbv zeta.
  - cbn [multicolorTiles snd]. split; [reflexivity |].
    destruct (Z.ltb_spec p x), (Z.leb_spec x (p + 8 * Z.of_nat 0));
      cbn [andb]; try reflexivity; lia.
  - cbn [multicolorTiles].
    match goal with
    | |- context [colorRun 4 ?c p px] =>
        destruct (colorRun_cells 4 c p px x Hp
                    ltac:(change (Z.of_nat 4) with 4; lia) Hx)
          as (H1 & H2 & H3);
        destruct (colorRun 4 c p px) as [p1 px1]
    end.
    cbn [fst snd] in H1, H2, H3. change (Z.of_nat 4) with 4 in *. subst p1.
    match goal with
    | |- context [colorRun 4 ?c (p + 4) px1] =>
        destruct (colorRun_cells 4 c (p + 4) px1 x ltac:(lia)
                    ltac:(rewrite H2; change (Z.of_nat 4) with 4; lia) Hx)
          as (H4 & H5 & H6);
        destruct (colorRun 4 c (p + 4) px1) as [p2 px2]
    end.
    cbn [fst snd] in H4, H5, H6. change (Z.of_nat 4) with 4 in *. subst p2.
    destruct (IH names row (tileX + 1) (p + 4 + 4) px2 x ltac:(lia)
                ltac:(rewrite H5, H2; lia) Hx) as (H7 & H8).
    rewrite H7, H8, H5, H2, H6, H3. split; [reflexivity |].
    destruct (Z.ltb_spec (p + 4 + 4) x) as [Hfar | Hnear].
    + replace (p <? x) with true by (symmetry; apply Z.ltb_lt; lia).
      replace (x <=? p + 4 + 4 + 8 * Z.of_nat n)
        with (x <=? p + 8 * Z.of_nat (S n)) by (f_equal; lia).
      cbn [andb].
      destruct (x <=? p + 8 * Z.of_nat (S n)).
      * destruct (tile_of_column 8 (x - p - 1) ltac:(lia) ltac:(lia))
          as [Hq Hr].
        replace (x - (p + 4 + 4) - 1) with (x - p - 1 - 8) by lia.
        rewrite Hq, Hr. f_equal. lia.
      * replace (p + 4 <? x) with true by (symmetry; apply Z.ltb_lt; lia).
        replace (x <=? p + 4 + 4) with false
          by (symmetry; apply Z.leb_gt; lia).
        replace (x <=? p + 4) with false by (symmetry; apply Z.leb_gt; lia).
        reflexivity.
    + destruct (Z.ltb_spec p x) as [Hin | Hout]; cbn [andb].
      2:{ replace (p + 4 <? x) with false by (symmetry; apply Z.ltb_ge; lia).
          reflexivity. }
      replace (x <=? p + 8 * Z.of_nat (S n)) with true
        by (symmetry; apply Z.leb_le; lia).
      replace (x <=? p + 4 + 4) with true by (symmetry; apply Z.leb_le; lia).
      unfold multicolorTile. cbv zeta.
      rewrite Z.div_small, Z.mod_small, Z.add_0_r by lia.
      destruct (Z.ltb_spec (p + 4) x) as [Hbg | Hfg]; cbn [andb].
      * replace (x - p - 1 <? 4) with false
          by (symmetry; apply Z.ltb_ge; lia).
        reflexivity.
      * replace (x <=? p + 4) with true by (symmetry; apply Z.leb_le; lia).
        replace (x - p - 1 <? 4) with true by (symmetry; apply Z.ltb_lt; lia).
        reflexivity.
Qed.

Lemma graphicsIScanLine_map (t : VrEmuTms9918a) (y : Z) (pixels : list Z) :
  length pixels = Z.to_nat TMS9918A_PIXELS_X ->
  vrEmuTms9918aGraphicsIScanLine beyond t y pixels
  = vrEmuTms9918aOutputSprites beyond t y
      (lineOf (graphicsIPixel beyond t y)).
Proof.
  intros Hlen. unfold vrEmuTms9918aGraphicsIScanLine. cbv zeta.
  match goal with
  | |- context [graphicsITiles beyond ?n t ?a ?b ?c ?d 0 (-1) pixels] =>
      pose proof (fun x Hx =>
        graphicsITiles_cells t n a b c d 0 (-1) pixels x ltac:(lia)
          ltac:(rewrite Hlen; change (Z.of_nat n) with 32;
                unfold TMS9918A_PIXELS_X; lia) Hx) as Hcells;
      destruct (graphicsITiles beyond n t a b c d 0 (-1) pixels) as [p1 bg]
  end.
  cbv zeta in Hcells. cbn [snd] in Hcells.
  f_equal. apply line_eq.
  - destruct (Hcells 0 ltac:(lia)) as [Hl _]. congruence.
  - intros x Hx. destruct (Hcells x ltac:(lia)) as [_ Hc]. rewrite Hc.
    change (Z.of_nat (Z.to_nat GRAPHICS_NUM_COLS)) with 32.
    unfold TMS9918A_PIXELS_X in Hx.
    replace (-1 <? x) with true by (symmetry; apply Z.ltb_lt; lia).
    replace (x <=? -1 + 8 * 32) with true by (symmetry; apply Z.leb_le; lia).
    cbn [andb]. unfold graphicsIPixel.
    replace (x - -1 - 1) with x by lia. rewrite Z.add_0_l. reflexivity.
Qed.

Lemma graphicsIIScanLine_map (t : VrEmuTms9918a) (y : Z)
    (pixels : list Z) :
  length pixels = Z.to_nat TMS9918A_PIXELS_X ->
  vrEmuTms9918aGraphicsIIScanLine beyond t y pixels
  = vrEmuTms9918aOutputSprites beyond t y
      (lineOf (graphicsIIPixel beyond t y)).
Proof.
  intros Hlen. unfold vrEmuTms9918aGraphicsIIScanLine. cbv zeta.
  match goal with
  | |- context [graphicsIITiles beyond ?n t ?a ?b ?c ?d 0 (-1) pixels] =>
      pose proof (fun x Hx =>
        graphicsIITiles_cells t n a b c d 0 (-1) pixels x ltac:(lia)
          ltac:(rewrite Hlen; change (Z.of_nat n) with 32;
                unfold TMS9918A_PIXELS_X; lia) Hx) as Hcells;
      destruct (graphicsIITiles beyond n t a b c d 0 (-1) pixels) as [p1 bg]
  end.
  cbv zeta in Hcells. cbn [snd] in Hcells.
  f_equal. apply line_eq.
  - destruct (Hcells 0 ltac:(lia)) as [Hl _]. congruence.
  - intros x Hx. destruct (Hcells x ltac:(lia)) as [_ Hc]. rewrite Hc.
    change (Z.of_nat (Z.to_nat GRAPHICS_NUM_COLS)) with 32.
    unfold TMS9918A_PIXELS_X in Hx.
    replace (-1 <? x) with true by (symmetry; apply Z.ltb_lt; lia).
    replace (x <=? -1 + 8 * 32) with true by (symmetry; apply Z.leb_le; lia).
    cbn [andb]. unfold graphicsIIPixel. cbv zeta.
    replace (x - -1 - 1) with x by lia. rewrite Z.add_0_l. reflexivity.
Qed.

Lemma multicolorScanLine_map (t : VrEmuTms9918a) (y : Z)
    (pixels : list Z) :
  length pixels = Z.to_nat TMS9918A_PIXELS_X ->
  vrEmuTms9918aMulticolorScanLine beyond t y pixels
  = vrEmuTms9918aOutputSprites beyond t y
      (lineOf (multicolorPixel beyond t y)).
Proof.
  intros Hlen. unfold vrEmuTms9918aMulticolorScanLine. cbv zeta.
  match goal with
  | |- context [multicolorTiles beyond ?n t ?a ?b 0 (-1) pixels] =>
      pose proof (fun x Hx =>
        multicolorTiles_cells t n a b 0 (-1) pixels x ltac:(lia)
          ltac:(rewrite Hlen; change (Z.of_nat n) with 32;
                unfold TMS9918A_PIXELS_X; lia) Hx) as Hcells;
      destruct (multicolorTiles beyond n t a b 0 (-1) pixels) as [p1 bg]
  end.
  cbv zeta in Hcells. cbn [snd] in Hcells.
  f_equal. apply line_eq.
  - destruct (Hcells 0 ltac:(lia)) as [Hl _]. congruence.
  - intros x Hx. destruct (Hcells x ltac:(lia)) as [_ Hc]. rewrite Hc.
    change (Z.of_nat (Z.to_nat GRAPHICS_NUM_COLS)) with 32.
    unfold TMS9918A_PIXELS_X in Hx.
    replace (-1 <? x) with true by (symmetry; apply Z.ltb_lt; lia).
    replace (x <=? -1 + 8 * 32) with true by (symmetry; apply Z.leb_le; lia).
    cbn [andb]. unfold multicolorPixel.
    replace (x - -1 - 1) with x by lia. rewrite Z.add_0_l. reflexivity.
Qed.

Lemma textScanLine_map (t : VrEmuTms9918a) (y : Z) (pixels : list Z) :
  length pixels = Z.to_nat TMS9918A_PIXELS_X ->
  vrEmuTms9918aTextScanLine beyond t y pixels
  = (t, lineOf (textPixel beyond t y)).
Proof.
  intros Hlen. unfold vrEmuTms9918aTextScanLine. cbv zeta.
  assert (HL : Z.of_nat (length pixels) = 256) by (rewrite Hlen; reflexivity).
  pose proof (fun x Hx =>
    margin_cells (Z.to_nat 8) 8 (tmsMainBgColor t) (-1) pixels x
      ltac:(lia) ltac:(lia) ltac:(lia) Hx) as Hm1.
  pose proof (margin_enough (Z.to_nat 8) 8 (tmsMainBgColor t) (-1) pixels
                ltac:(lia)) as Hp1.
  destruct (margin (Z.to_nat 8) 8 (tmsMainBgColor t) (-1) pixels)
    as [p1 px1].
  cbv zeta in Hm1. cbn [fst snd] in Hm1, Hp1. subst p1.
  change (Z.max (-1 + 1) 8 - 1) with 7.
  assert (Hl1 : length px1 = length pixels)
    by (destruct (Hm1 0 ltac:(lia)) as [H _]; exact H).
  match goal with
  | |- context [textTiles beyond ?n t ?a ?b ?fg ?bg 0 7 px1] =>
      pose proof (fun x Hx =>
        textTiles_cells t n a b 0 7 px1 x ltac:(lia)
          ltac:(rewrite Hl1; change (Z.of_nat n) with 40; lia) Hx) as Hm2;
      destruct (textTiles beyond n t a b fg bg 0 7 px1) as [p2 px2]
  end.
  cbv zeta in Hm2. cbn [fst snd] in Hm2.
  change (Z.of_nat (Z.to_nat TEXT_NUM_COLS)) with 40 in Hm2.
  destruct (Hm2 0 ltac:(lia)) as (Hp2 & Hl2 & _). subst p2.
  pose proof (fun x Hx =>
    margin_cells (Z.to_nat TMS9918A_PIXELS_X) TMS9918A_PIXELS_X
      (tmsMainBgColor t) (7 + 6 * 40) px2 x ltac:(lia)
      ltac:(rewrite Hl2, Hl1; unfold TMS9918A_PIXELS_X; lia)
      ltac:(unfold TMS9918A_PIXELS_X; lia) Hx) as Hm3.
  destruct (margin (Z.to_nat TMS9918A_PIXELS_X) TMS9918A_PIXELS_X
              (tmsMainBgColor t) (7 + 6 * 40) px2) as [p3 px3].
  cbv zeta in Hm3. cbn [snd] in Hm3.
  f_equal. apply line_eq.
  - destruct (Hm3 0 ltac:(lia)) as [H _]. congruence.
  - intros x Hx.
    destruct (Hm3 x ltac:(lia)) as [_ H3].
    destruct (Hm2 x ltac:(lia)) as (_ & _ & H2).
    destruct (Hm1 x ltac:(lia)) as [_ H1].
    rewrite H3, H2, H1. unfold textPixel, TMS9918A_PIXELS_X in *.
    destruct (Z.ltb_spec x 8) as [Hleft | Hmid]; cbn [orb].
    + replace (7 + 6 * 40 <? x) with false
        by (symmetry; apply Z.ltb_ge; lia).
      replace (7 <? x) with false by (symmetry; apply Z.ltb_ge; lia).
      replace (-1 <? x) with true by (symmetry; apply Z.ltb_lt; lia).
      reflexivity.
    + destruct (Z.leb_spec 248 x) as [Hright | Hin].
      * replace (7 + 6 * 40 <? x) with true
          by (symmetry; apply Z.ltb_lt; lia).
        replace (x <? 256) with true by (symmetry; apply Z.ltb_lt; lia).
        reflexivity.
      * replace (7 + 6 * 40 <? x) with false
          by (symmetry; apply Z.ltb_ge; lia).
        replace (7 <? x) with true by (symmetry; apply Z.ltb_lt; lia).
        replace (x <=? 7 + 6 * 40) with true
          by (symmetry; apply Z.leb_le; lia).
        cbn [andb]. rewrite Z.add_0_l.
        replace (x - 7 - 1) with (x - 8) by lia. reflexivity.
Qed.

(** X13: a Graphics I line is the sprite pass over the line whose pixel
    [x] is given by tile [x / 8] of the row and bit [7 - x mod 8] of its
    pattern byte. *)
Theorem graphicsI_line_is_map (t : VrEmuTms9918a) (y : Z) (pixels : list Z) :
  length pixels = Z.to_nat TMS9918A_PIXELS_X ->
  vrEmuTms9918aGraphicsIScanLine beyond t y pixels
  = vrEmuTms9918aOutputSprites beyond t y
      (lineOf (graphicsIPixel beyond t y)).
Proof. exact (graphicsIScanLine_map t y pixels). Qed.

(** X14: a Graphics II line is the sprite pass over the line whose pixel
    [x] comes from the pattern and color bytes of tile [x / 8] in the
    third of the screen the row is in. *)
Theorem graphicsII_line_is_map (t : VrEmuTms9918a) (y : Z)
    (pixels : list Z) :
  length pixels = Z.to_nat TMS9918A_PIXELS_X ->
  vrEmuTms9918aGraphicsIIScanLine beyond t y pixels
  = vrEmuTms9918aOutputSprites beyond t y
      (lineOf (graphicsIIPixel beyond t y)).
Proof. exact (graphicsIIScanLine_map t y pixels). Qed.

(** X15: a Multicolor line is the sprite pass over the line whose tiles
    show four pixels of the high nibble and four of the low nibble of
    their color byte. *)
Theorem multicolor_line_is_map (t : VrEmuTms9918a) (y : Z)
    (pixels : list Z) :
  length pixels = Z.to_nat TMS9918A_PIXELS_X ->
  vrEmuTms9918aMulticolorScanLine beyond t y pixels
  = vrEmuTms9918aOutputSprites beyond t y
      (lineOf (multicolorPixel beyond t y)).
Proof. exact (multicolorScanLine_map t y pixels). Qed.

(** X16: a Text line leaves the state alone and is 8 backdrop pixels, 40
    tiles of the 6 high bits of their pattern byte, and 8 backdrop
    pixels. *)
Theorem text_line_is_map (t : VrEmuTms9918a) (y : Z) (pixels : list Z) :
  length pixels = Z.to_nat TMS9918A_PIXELS_X ->
  vrEmuTms9918aTextScanLine beyond t y pixels
  = (t, lineOf (textPixel beyond t y)).
Proof. exact (textScanLine_map t y pixels). Qed.

(** X18: on a line with a fifth visible slot [j] the sprite pass runs the
    slots up to [j] and no further and ends with 5S set; if 5S was
    clear on entry, status bits 0..4 end as the bitwise or of [j] and
    what they held, which on line 0 is [j]. *)
Theorem sprite_limit_sets_5s (t : VrEmuTms9918a) (y j : Z)
    (pixels : list Z) :
  slotFifth beyond t y j ->
  let entry := if y =? 0 then 0 else status t in
  let result := vrEmuTms9918aOutputSprites beyond t y pixels in
  result
  = spriteSlots beyond (Z.to_nat (j + 1)) y (spriteSizePx t)
      (tmsSpriteAttrTableAddr t) (tmsSpritePatternTableAddr t) 0 0
      (touch entry (rowSpriteBits t) t) pixels
  /\ Z.testbit (status (fst result)) 6 = true
  /\ (Z.testbit entry 6 = false ->
      Z.land (status (fst result)) 0x1f = Z.lor (Z.land entry 0x1f) j)
  /\ (y = 0 -> Z.land (status (fst result)) 0x1f = j).
Proof. exact (fifth_sprite_status beyond t y j pixels). Qed.

End Coverage.

Section Inside.
Variables b1 b2 : VrEmuTms9918a -> Z -> Z.

(** *** Reads inside the VRAM array *)

Lemma vramAt_inside (t : VrEmuTms9918a) (i : Z) :
  i < VRAM_SIZE -> vramAt b1 t i = vramAt b2 t i.
Proof.
  intros Hi. unfold vramAt.
  replace (i <? VRAM_SIZE) with true by (symmetry; apply Z.ltb_lt; exact Hi).
  reflexivity.
Qed.

Lemma vramAt_range (b : VrEmuTms9918a -> Z -> Z) (t : VrEmuTms9918a)
    (i : Z) :
  Forall is_u8 (vram t) -> 0 <= vramAt b t i <= 255.
Proof.
  intros Hv. pose proof (vramAt_byte b t i Hv) as H. unfold is_u8 in H. lia.
Qed.

Lemma nameTable_range (t : VrEmuTms9918a) :
  0 <= tmsNameTableAddr t <= 15360.
Proof. exact (masked_base (reg t TMS_REG_2) 15 10 ltac:(lia) ltac:(lia)). Qed.

Lemma patternTable_range (t : VrEmuTms9918a) :
  0 <= tmsPatternTableAddr t <= 14336
  /\ (mode t = TMS_MODE_GRAPHICS_II -> tmsPatternTableAddr t <= 8192).
Proof.
  unfold tmsPatternTableAddr.
  pose proof (masked_base (reg t TMS_REG_4) 4 11 ltac:(lia) ltac:(lia)).
  pose proof (masked_base (reg t TMS_REG_4) 7 11 ltac:(lia) ltac:(lia)).
  destruct (mode t); split; try discriminate; try lia.
Qed.

Lemma colorTable_range (t : VrEmuTms9918a) :
  is_u8 (reg t TMS_REG_3) ->
  0 <= tmsColorTableAddr t <= 16320
  /\ (mode t = TMS_MODE_GRAPHICS_II -> tmsColorTableAddr t <= 8192).
Proof.
  intros H3. unfold tmsColorTableAddr, is_u8 in *.
  pose proof (masked_base (reg t TMS_REG_3) 128 6 ltac:(lia) ltac:(lia)).
  assert (0 <= u16 (Z.shiftl (reg t TMS_REG_3) 6) <= 16320).
  { rewrite Z.shiftl_mul_pow2 by lia. change (2 ^ 6) with 64.
    pose proof (u16_le (reg t TMS_REG_3 * 64) ltac:(lia)). lia. }
  destruct (mode t); split; try discriminate; try lia.
Qed.

Lemma spritePatternTable_range (t : VrEmuTms9918a) :
  Z.land (reg t TMS_REG_6) 0x07 <> 7 ->
  0 <= tmsSpritePatternTableAddr t <= 12288.
Proof.
  intros H6. unfold tmsSpritePatternTableAddr.
  pose proof (land_le_mask (reg t TMS_REG_6) 7 ltac:(lia)) as Hl.
  rewrite Z.shiftl_mul_pow2 by lia. change (2 ^ 11) with 2048.
  pose proof (u16_le (Z.land (reg t TMS_REG_6) 7 * 2048) ltac:(lia)). lia.
Qed.

Lemma lineOf_ext (f g : Z -> Z) :
  (forall x, 0 <= x < TMS9918A_PIXELS_X -> f x = g x) ->
  lineOf f = lineOf g.
Proof.
  intros Hfg. unfold lineOf. apply list_eq. intros i.
  rewrite !list_lookup_fmap.
  destruct (seqZ 0 TMS9918A_PIXELS_X !! i) as [x |] eqn:Hx; [| reflexivity].
  apply lookup_seqZ in Hx as [-> Hi]. cbn. f_equal. apply Hfg. lia.
Qed.

Section Bounds.
Variable t : VrEmuTms9918a.
Variables y x : Z.
Hypothesis vram_bytes : Forall is_u8 (vram t).
Hypothesis r3_byte : is_u8 (reg t TMS_REG_3).
Hypothesis y_line : 0 <= y < TMS9918A_PIXELS_Y.
Hypothesis x_column : 0 <= x < TMS9918A_PIXELS_X.

Lemma graphicsIPixel_inside :
  graphicsIPixel b1 t y x = graphicsIPixel b2 t y x.
Proof.
  unfold graphicsIPixel, graphicsITile, GRAPHICS_NUM_COLS,
    TMS9918A_PIXELS_Y, TMS9918A_PIXELS_X in *.
  pose proof (nameTable_range t) as Hn.
  destruct (patternTable_range t) as [Hp _].
  destruct (colorTable_range t r3_byte) as [Hc _].
  pose proof (u16_le (tmsNameTableAddr t + Z.quot y 8 * 32)
                ltac:(Z.to_euclidean_division_equations; lia)) as Hna.
  cbv zeta.
  rewrite (vramAt_inside t (_ + x / 8))
    by (change VRAM_SIZE with 16384;
        Z.to_euclidean_division_equations; lia).
  match goal with
  | |- context [vramAt b2 t (?a + x / 8)] =>
      pose proof (vramAt_range b2 t (a + x / 8) vram_bytes) as Hb;
      set (p := vramAt b2 t (a + x / 8)) in *
  end.
  rewrite (vramAt_inside t (tmsPatternTableAddr t + p * 8 + Z.rem y 8))
    by (change VRAM_SIZE with 16384;
        Z.to_euclidean_division_equations; lia).
  rewrite (vramAt_inside t (tmsColorTableAddr t + Z.quot p 8))
    by (change VRAM_SIZE with 16384;
        Z.to_euclidean_division_equations; lia).
  reflexivity.
Qed.

Lemma graphicsIIPixel_inside :
  mode t = TMS_MODE_GRAPHICS_II ->
  graphicsIIPixel b1 t y x = graphicsIIPixel b2 t y x.
Proof.
  intros Hmode.
  unfold graphicsIIPixel, graphicsIITile, GRAPHICS_NUM_COLS,
    TMS9918A_PIXELS_Y, TMS9918A_PIXELS_X in *.
  pose proof (nameTable_range t) as Hn.
  destruct (patternTable_range t) as [Hp0 Hp]. specialize (Hp Hmode).
  destruct (colorTable_range t r3_byte) as [Hc0 Hc]. specialize (Hc Hmode).
  pose proof (u16_le (tmsNameTableAddr t + Z.quot y 8 * 32)
                ltac:(Z.to_euclidean_division_equations; lia)) as Hna.
  cbv zeta.
  assert (Hpage : 0 <= Z.shiftl (Z.shiftr (Z.land (Z.quot y 8) 24) 3) 11
                  <= 4096).
  { pose proof (land_le_mask 24 (Z.quot y 8)
                  ltac:(Z.to_euclidean_division_equations; lia)) as Hl.
    rewrite Z.land_comm in Hl.
    rewrite Z.shiftl_mul_pow2, Z.shiftr_div_pow2 by lia.
    change (2 ^ 3) with 8. change (2 ^ 11) with 2048.
    Z.to_euclidean_division_equations. lia. }
  set (page := Z.shiftl (Z.shiftr (Z.land (Z.quot y 8) 24) 3) 11) in *.
  pose proof (u16_le (tmsPatternTableAddr t + page) ltac:(lia)) as Hpa.
  pose proof (u16_le (tmsColorTableAddr t + page) ltac:(lia)) as Hca.
  rewrite (vramAt_inside t (_ + x / 8))
    by (change VRAM_SIZE with 16384;
        Z.to_euclidean_division_equations; lia).
  match goal with
  | |- context [vramAt b2 t (?a + x / 8)] =>
      pose proof (vramAt_range b2 t (a + x / 8) vram_bytes) as Hb;
      set (p := vramAt b2 t (a + x / 8)) in *
  end.
  rewrite (vramAt_inside t (u16 (tmsPatternTableAddr t + page)
                            + p * 8 + Z.rem y 8))
    by (change VRAM_SIZE with 16384;
        Z.to_euclidean_division_equations; lia).
  rewrite (vramAt_inside t (u16 (tmsColorTableAddr t + page)
                            + p * 8 + Z.rem y 8))
    by (change VRAM_SIZE with 16384;
        Z.to_euclidean_division_equations; lia).
  reflexivity.
Qed.

Lemma textPixel_inside : textPixel b1 t y x = textPixel b2 t y x.
Proof.
  unfold textPixel, textTile, TEXT_NUM_COLS,
    TMS9918A_PIXELS_Y, TMS9918A_PIXELS_X in *.
  destruct (Z.ltb_spec x 8) as [Hl | Hl]; cbn [orb]; [reflexivity |].
  destruct (Z.leb_spec 248 x) as [Hr | Hr]; [reflexivity |].
  pose proof (nameTable_range t) as Hn.
  destruct (patternTable_range t) as [Hp _].
  pose proof (u16_le (tmsNameTableAddr t + Z.quot y 8 * 40)
                ltac:(Z.to_euclidean_division_equations; lia)) as Hna.
  cbv zeta.
  rewrite (vramAt_inside t (_ + (x - 8) / 6))
    by (change VRAM_SIZE with 16384;
        Z.to_euclidean_division_equations; lia).
  match goal with
  | |- context [vramAt b2 t (?a + (x - 8) / 6)] =>
      pose proof (vramAt_range b2 t (a + (x - 8) / 6) vram_bytes) as Hb;
      set (p := vramAt b2 t (a + (x - 8) / 6)) in *
  end.
  rewrite (vramAt_inside t (tmsPatternTableAddr t + p * 8 + Z.rem y 8))
    by (change VRAM_SIZE with 16384;
        Z.to_euclidean_division_equations; lia).
  reflexivity.
Qed.

Lemma multicolorPixel_inside :
  multicolorPixel b1 t y x = multicolorPixel b2 t y x.
Proof.
  unfold multicolorPixel, multicolorTile, GRAPHICS_NUM_COLS,
    TMS9918A_PIXELS_Y, TMS9918A_PIXELS_X in *.
  pose proof (nameTable_range t) as Hn.
  destruct (patternTable_range t) as [Hp _].
  pose proof (u16_le (tmsNameTableAddr t + Z.quot y 8 * 32)
                ltac:(Z.to_euclidean_division_equations; lia)) as Hna.
  cbv zeta.
  rewrite (vramAt_inside t (_ + x / 8))
    by (change VRAM_SIZE with 16384;
        Z.to_euclidean_division_equations; lia).
  match goal with
  | |- context [vramAt b2 t (?a + x / 8)] =>
      pose proof (vramAt_range b2 t (a + x / 8) vram_bytes) as Hb;
      set (p := vramAt b2 t (a + x / 8)) in *
  end.
  rewrite (vramAt_inside t (tmsPatternTableAddr t + p * 8 + _))
    by (change VRAM_SIZE with 16384;
        Z.to_euclidean_division_equations; lia).
  reflexivity.
Qed.

End Bounds.

Lemma spriteColumns_inside (n : nat) :
  forall (c off x sb pb byte : Z) (t : VrEmuTms9918a) (px : list Z),
  off + 16 < VRAM_SIZE ->
  spriteColumns b1 n c off x sb pb byte t px
  = spriteColumns b2 n c off x sb pb byte t px.
Proof.
  induction n as [| n IH]; intros c off x sb pb byte t px Hoff;
    [reflexivity |].
  cbn [spriteColumns].
  destruct (TMS9918A_PIXELS_X <=? x); [reflexivity |].
  destruct (if (0 <=? x) && nonzero (Z.land byte (Z.shiftr 128 pb))
            then spriteColumn c x t px else (t, px)) as [t1 px1].
  rewrite (vramAt_inside t1 (off + 16) Hoff).
  destruct (negb (nonzero (tmsSpriteMag t1)) || nonzero (Z.land sb 1));
    [destruct (pb + 1 =? 8) |]; apply IH; exact Hoff.
Qed.

Section Slots.
Variable t : VrEmuTms9918a.
Variables y i : Z.
Hypothesis vram_bytes : Forall is_u8 (vram t).
Hypothesis r6_page : Z.land (reg t TMS_REG_6) 0x07 <> 7.
Hypothesis i_slot : 0 <= i < MAX_SPRITES.

Lemma slot_read_inside (k : Z) :
  0 <= k <= 3 ->
  vramAt b1 t (slotAttr t i + k) = vramAt b2 t (slotAttr t i + k).
Proof.
  intros Hk. apply vramAt_inside. unfold slotAttr, SPRITE_ATTR_BYTES.
  pose proof (spriteAttrTable_range t). unfold MAX_SPRITES in *.
  change VRAM_SIZE with 16384. lia.
Qed.

Lemma slotEnds_inside : slotEnds b1 t i = slotEnds b2 t i.
Proof.
  unfold slotEnds. rewrite <- (Z.add_0_r (slotAttr t i)).
  rewrite slot_read_inside by lia. reflexivity.
Qed.

Lemma slotRow_inside : slotRow b1 t y i = slotRow b2 t y i.
Proof.
  unfold slotRow. rewrite <- (Z.add_0_r (slotAttr t i)).
  rewrite slot_read_inside by lia. reflexivity.
Qed.

Lemma slotOnLine_inside : slotOnLine b1 t y i = slotOnLine b2 t y i.
Proof. unfold slotOnLine. rewrite slotRow_inside. reflexivity. Qed.

Lemma slotColor_inside : slotColor b1 t i = slotColor b2 t i.
Proof. unfold slotColor. rewrite slot_read_inside by lia. reflexivity. Qed.

Lemma slotHPos_inside : slotHPos b1 t i = slotHPos b2 t i.
Proof. unfold slotHPos. rewrite !slot_read_inside by lia. reflexivity. Qed.

Lemma slotPatternOffset_inside :
  slotPatternOffset b1 t y i = slotPatternOffset b2 t y i.
Proof.
  unfold slotPatternOffset.
  rewrite slot_read_inside by lia. rewrite slotRow_inside. reflexivity.
Qed.

Lemma slotPatternOffset_range :
  slotOnLine b2 t y i = true ->
  slotPatternOffset b2 t y i + 16 < VRAM_SIZE.
Proof.
  unfold slotOnLine. intros Hon.
  apply negb_true_iff, orb_false_iff in Hon as [Hlo Hhi].
  apply Z.ltb_ge in Hlo. apply Z.leb_gt in Hhi.
  assert (Hrow : 0 <= slotRow b2 t y i < 16)
    by (destruct (nonzero (tmsSpriteSize t)); lia).
  unfold slotPatternOffset.
  pose proof (spritePatternTable_range t r6_page) as Hp.
  pose proof (vramAt_range b2 t (slotAttr t i + 2) vram_bytes) as Hb.
  pose proof (u16_le (tmsSpritePatternTableAddr t
                      + vramAt b2 t (slotAttr t i + 2) * 8
                      + slotRow b2 t y i) ltac:(lia)).
  change VRAM_SIZE with 16384. lia.
Qed.

End Slots.

Lemma spriteSlots_inside (t0 : VrEmuTms9918a) (y : Z) (n : nat) :
  Forall is_u8 (vram t0) ->
  Z.land (reg t0 TMS_REG_6) 0x07 <> 7 ->
  forall (i shown st : Z) (rb px : list Z),
  0 <= i -> i + Z.of_nat n <= MAX_SPRITES ->
  0 <= shown ->
  (0 < shown -> (Z.to_nat TMS9918A_PIXELS_X <= length rb)%nat) ->
  spriteSlots b1 n y (spriteSizePx t0) (tmsSpriteAttrTableAddr t0)
              (tmsSpritePatternTableAddr t0) i shown (touch st rb t0) px
  = spriteSlots b2 n y (spriteSizePx t0) (tmsSpriteAttrTableAddr t0)
                (tmsSpritePatternTableAddr t0) i shown (touch st rb t0) px.
Proof.
  intros Hv H6. induction n as [| n IH];
    intros i shown st rb px Hi Hn Hshown Hrb; [reflexivity |].
  assert (Hslot : 0 <= i < MAX_SPRITES) by lia.
  cbn [spriteSlots].
  rewrite (spriteSlot_eq b1) by exact Hslot.
  rewrite (spriteSlot_eq b2) by exact Hslot.
  rewrite (slotEnds_inside t0 i Hslot), (slotOnLine_inside t0 y i Hslot),
    (slotColor_inside t0 i Hslot), (slotHPos_inside t0 i Hslot),
    (slotPatternOffset_inside t0 y i Hslot).
  destruct (slotEnds b2 t0 i); [reflexivity |].
  destruct (slotOnLine b2 t0 y i) eqn:Hon; cbn [negb].
  2:{ apply IH; auto; lia. }
  cbv zeta.
  destruct (MAX_SCANLINE_SPRITES <? shown + 1); [reflexivity |].
  pose proof (slotPatternOffset_range t0 y i Hv H6 Hon) as Hoff.
  set (rb1 := if shown =? 0 then memset rb 0 TMS9918A_PIXELS_X else rb).
  rewrite (vramAt_inside (touch st rb1 t0) (slotPatternOffset b2 t0 y i))
    by lia.
  rewrite (spriteColumns_inside _ _ _ _ _ _ _ _ _ Hoff).
  assert (Hrb1 : (Z.to_nat TMS9918A_PIXELS_X <= length rb1)%nat).
  { unfold rb1. destruct (Z.eqb_spec shown 0) as [_ | Hnz].
    - apply memset_long.
    - apply Hrb. lia. }
  destruct (spriteColumns_frame b2 t0 (Z.to_nat (spriteSizePx t0))
              (slotColor b2 t0 i) (slotPatternOffset b2 t0 y i)
              (slotHPos b2 t0 i) 0 0
              (vramAt b2 (touch st rb1 t0) (slotPatternOffset b2 t0 y i))
              st rb1 px)
    as (st1 & rb2 & px1 & Hrun1 & Hlen1 & _).
  rewrite Hrun1.
  apply IH; lia.
Qed.

Lemma outputSprites_inside (t : VrEmuTms9918a) (y : Z) (pixels : list Z) :
  Forall is_u8 (vram t) ->
  Z.land (reg t TMS_REG_6) 0x07 <> 7 ->
  vrEmuTms9918aOutputSprites b1 t y pixels
  = vrEmuTms9918aOutputSprites b2 t y pixels.
Proof.
  intros Hv H6. rewrite !outputSprites_run.
  apply spriteSlots_inside; auto; try lia.
  unfold MAX_SPRITES. lia.
Qed.

(** X17: with byte-sized VRAM cells and registers' R3, on any line, a
    scanline call in Text mode, or in another mode when the sprite
    pattern table is not in the last 2 KiB page (R6 & 7 is not 7),
    reads no [vram] index at or beyond 16384: the result does not
    depend on what lies past the array. *)
Theorem scanline_reads_inside_vram (t : VrEmuTms9918a) (y : Z)
    (pixels : list Z) :
  length pixels = Z.to_nat TMS9918A_PIXELS_X ->
  Forall is_u8 (vram t) ->
  is_u8 (reg t TMS_REG_3) ->
  0 <= y ->
  (mode t <> TMS_MODE_TEXT -> Z.land (reg t TMS_REG_6) 0x07 <> 7) ->
  vrEmuTms9918aScanLine b1 t y pixels = vrEmuTms9918aScanLine b2 t y pixels.
Proof.
  intros Hlen Hv H3 Hy H6. unfold vrEmuTms9918aScanLine.
  destruct (negb (nonzero (vrEmuTms9918aDisplayEnabled t)));
    cbn [orb]; [reflexivity |].
  destruct (Z.leb_spec TMS9918A_PIXELS_Y y) as [Hout | Hin]; [reflexivity |].
  assert (Heq :
    match mode t with
    | TMS_MODE_GRAPHICS_I => vrEmuTms9918aGraphicsIScanLine b1 t y pixels
    | TMS_MODE_GRAPHICS_II => vrEmuTms9918aGraphicsIIScanLine b1 t y pixels
    | TMS_MODE_TEXT => vrEmuTms9918aTextScanLine b1 t y pixels
    | TMS_MODE_MULTICOLOR => vrEmuTms9918aMulticolorScanLine b1 t y pixels
    end
    = match mode t with
      | TMS_MODE_GRAPHICS_I => vrEmuTms9918aGraphicsIScanLine b2 t y pixels
      | TMS_MODE_GRAPHICS_II => vrEmuTms9918aGraphicsIIScanLine b2 t y pixels
      | TMS_MODE_TEXT => vrEmuTms9918aTextScanLine b2 t y pixels
      | TMS_MODE_MULTICOLOR => vrEmuTms9918aMulticolorScanLine b2 t y pixels
      end).
  { destruct (mode t) eqn:Hmode.
    - rewrite !graphicsIScanLine_map by exact Hlen.
      rewrite (lineOf_ext (graphicsIPixel b1 t y) (graphicsIPixel b2 t y))
        by (intros x Hx; apply graphicsIPixel_inside; auto).
      apply outputSprites_inside; [exact Hv | apply H6; discriminate].
    - rewrite !graphicsIIScanLine_map by exact Hlen.
      rewrite (lineOf_ext (graphicsIIPixel b1 t y) (graphicsIIPixel b2 t y))
        by (intros x Hx; apply graphicsIIPixel_inside; auto).
      apply outputSprites_inside; [exact Hv | apply H6; discriminate].
    - rewrite !textScanLine_map by exact Hlen.
      rewrite (lineOf_ext (textPixel b1 t y) (textPixel b2 t y))
        by (intros x Hx; apply textPixel_inside; auto).
      reflexivity.
    - rewrite !multicolorScanLine_map by exact Hlen.
      rewrite (lineOf_ext (multicolorPixel b1 t y) (multicolorPixel b2 t y))
        by (intros x Hx; apply multicolorPixel_inside; auto).
      apply outputSprites_inside; [exact Hv | apply H6; discriminate]. }
  rewrite Heq. reflexivity.
Qed.

End Inside.

(** With byte-sized VRAM cells, the pattern bytes of every rendered slot
    lie inside the array unless the sprite pattern table is in the last
    2 KiB page. *)
Lemma drawn_slots_inside (beyond : VrEmuTms9918a -> Z -> Z)
    (t : VrEmuTms9918a) (y : Z) :
  Forall is_u8 (vram t) ->
  Z.land (reg t TMS_REG_6) 0x07 <> 7 ->
  forall j, slotDrawn beyond t y j -> slotInside beyond t y j = true.
Proof.
  intros Hv H6 j [Hj (_ & _ & Hon & _)]. apply Z.ltb_lt.
  apply slotPatternOffset_range; assumption.
Qed.

Section Origins.
Variable beyond : VrEmuTms9918a -> Z -> Z.

(** *** What a scanline call writes *)

(** X21: a scanline call writes the status byte and the occupancy row
    only: VRAM, registers, address pointer, latch and cached mode are
    those of the state it was given. *)
Theorem scanline_writes_status_only (t : VrEmuTms9918a) (y : Z)
    (pixels : list Z) :
  let t' := fst (vrEmuTms9918aScanLine beyond t y pixels) in
  vram t' = vram t
  /\ registers t' = registers t
  /\ currentAddress t' = currentAddress t
  /\ lastMode t' = lastMode t
  /\ mode t' = mode t.
Proof.
  cbv zeta. destruct (scanLine_touch beyond t y pixels) as (st & rb & ->).
  repeat split.
Qed.

(** *** Where 5S and COL come from *)

Lemma fifthFrom_cons (t : VrEmuTms9918a) (y i shown j : Z) :
  slotEnds beyond t i = false -> i + 1 <= j ->
  fifthFrom beyond t y (i + 1)
    (shown + (if slotOnLine beyond t y i then 1 else 0)) j ->
  fifthFrom beyond t y i shown j.
Proof.
  unfold fifthFrom, MAX_SCANLINE_SPRITES.
  intros He Hij (_ & Hne & Hon & Hcnt).
  split; [lia |].
  replace (Z.to_nat (j + 1 - i)) with (S (Z.to_nat (j + 1 - (i + 1))))
    by lia.
  replace (Z.to_nat (j - i)) with (S (Z.to_nat (j - (i + 1)))) by lia.
  cbn [noEnd onLineCount]. rewrite He, Hne.
  split; [reflexivity |]. split; [exact Hon | lia].
Qed.

Lemma fifthFrom_self (t : VrEmuTms9918a) (y i shown : Z) :
  slotEnds beyond t i = false -> slotOnLine beyond t y i = true ->
  shown = MAX_SCANLINE_SPRITES ->
  fifthFrom beyond t y i shown i.
Proof.
  unfold fifthFrom. intros He Hon Hs.
  replace (i + 1 - i) with 1 by lia. rewrite Z.sub_diag.
  change (Z.to_nat 1) with 1%nat. change (Z.to_nat 0) with 0%nat.
  cbn [noEnd onLineCount]. rewrite He.
  split; [lia |]. split; [reflexivity |]. split; [exact Hon | lia].
Qed.

(** A slot index has no bit at or above bit 5. *)
Lemma index_high_bit (i k : Z) :
  0 <= i < MAX_SPRITES -> 5 <= k -> Z.testbit i k = false.
Proof.
  intros Hi Hk. apply (testbit_beyond 5); [unfold MAX_SPRITES in Hi; lia |].
  exact Hk.
Qed.

Lemma terminator_status_bit (st i k : Z) :
  0 <= i < MAX_SPRITES -> 5 <= k < 8 ->
  Z.testbit (if Z.land st STATUS_5S =? 0 then u8 (Z.lor st i) else st) k
  = Z.testbit st k.
Proof.
  intros Hi Hk. destruct (Z.land st STATUS_5S =? 0); [| reflexivity].
  rewrite testbit_u8 by lia. rewrite Z.lor_spec.
  rewrite (index_high_bit i k Hi) by lia. apply orb_false_r.
Qed.

Lemma spriteSlots_5s_origin (t0 : VrEmuTms9918a) (y : Z) (n : nat) :
  forall (i shown st : Z) (rb px : list Z),
  0 <= i -> i + Z.of_nat n <= MAX_SPRITES ->
  0 <= shown <= MAX_SCANLINE_SPRITES ->
  (0 < shown -> (Z.to_nat TMS9918A_PIXELS_X <= length rb)%nat) ->
  Z.testbit
    (status (fst (spriteSlots beyond n y (spriteSizePx t0)
                    (tmsSpriteAttrTableAddr t0)
                    (tmsSpritePatternTableAddr t0)
                    i shown (touch st rb t0) px))) 6 = true ->
  Z.testbit st 6 = true
  \/ exists j, j < i + Z.of_nat n /\ fifthFrom beyond t0 y i shown j.
Proof.
  induction n as [| n IH]; intros i shown st rb px Hi Hn Hshown Hrb H6.
  { left. exact H6. }
  cbn [spriteSlots] in H6. rewrite spriteSlot_eq in H6 by lia.
  destruct (slotEnds beyond t0 i) eqn:He.
  { left. cbn [fst status touch set_rowSpriteBits set_status] in H6.
    rewrite terminator_status_bit in H6 by lia. exact H6. }
  destruct (slotOnLine beyond t0 y i) eqn:Hon; cbn [negb] in H6.
  2:{ destruct (IH (i + 1) shown st rb px ltac:(lia) ltac:(lia) Hshown Hrb H6)
        as [Hl | (j & Hj & Hf)]; [left; exact Hl |].
      right. exists j. split; [lia |].
      apply fifthFrom_cons; [exact He | destruct Hf; lia |].
      rewrite Hon, Z.add_0_r. exact Hf. }
  cbv zeta in H6.
  destruct (Z.ltb_spec MAX_SCANLINE_SPRITES (shown + 1)) as [Hfull | Hroom].
  { right. exists i. split; [lia |].
    apply fifthFrom_self; [exact He | exact Hon | lia]. }
  set (rb1 := if shown =? 0 then memset rb 0 TMS9918A_PIXELS_X else rb) in *.
  assert (Hrb1 : (Z.to_nat TMS9918A_PIXELS_X <= length rb1)%nat).
  { unfold rb1. destruct (Z.eqb_spec shown 0) as [_ | Hnz].
    - apply memset_long.
    - apply Hrb. lia. }
  destruct (spriteColumns_frame beyond t0 (Z.to_nat (spriteSizePx t0))
              (slotColor beyond t0 i) (slotPatternOffset beyond t0 y i)
              (slotHPos beyond t0 i) 0 0
              (vramAt beyond (touch st rb1 t0)
                      (slotPatternOffset beyond t0 y i)) st rb1 px)
    as (st1 & rb2 & px1 & Hrun1 & Hlen1 & _).
  pose proof (spriteColumns_status beyond (Z.to_nat (spriteSizePx t0))
                (slotColor beyond t0 i) (slotPatternOffset beyond t0 y i)
                (slotHPos beyond t0 i) 0 0
                (vramAt beyond (touch st rb1 t0)
                        (slotPatternOffset beyond t0 y i))
                (touch st rb1 t0) px 6 ltac:(lia) ltac:(lia)) as Hbit.
  rewrite Hrun1 in Hbit, H6.
  cbn [fst status touch set_rowSpriteBits set_status] in Hbit.
  destruct (IH (i + 1) (shown + 1) st1 rb2 px1 ltac:(lia) ltac:(lia)
              ltac:(lia) ltac:(intros _; rewrite Hlen1; exact Hrb1) H6)
    as [Hl | (j & Hj & Hf)].
  - left. rewrite <- Hbit. exact Hl.
  - right. exists j. split; [lia |].
    apply fifthFrom_cons; [exact He | destruct Hf; lia |].
    rewrite Hon. exact Hf.
Qed.

(** X22: the sprite pass sets 5S only for a fifth visible sprite: if bit
    6 is set after the pass, it was set on entry (and the line is not
    line 0) or some slot is the fifth visible one of the line. *)
Theorem five_s_only_on_fifth_sprite (t : VrEmuTms9918a) (y : Z)
    (pixels : list Z) :
  Z.testbit
    (status (fst (vrEmuTms9918aOutputSprites beyond t y pixels))) 6 = true ->
  Z.testbit (if y =? 0 then 0 else status t) 6 = true
  \/ exists j, slotFifth beyond t y j.
Proof.
  rewrite outputSprites_run. intros H6.
  destruct (spriteSlots_5s_origin t y (Z.to_nat MAX_SPRITES) 0 0 _ _ _
              ltac:(lia) ltac:(unfold MAX_SPRITES; lia)
              ltac:(unfold MAX_SCANLINE_SPRITES; lia) ltac:(lia) H6)
    as [Hl | (j & Hj & Hf)]; [left; exact Hl |].
  right. exists j. split; [| exact Hf].
  destruct Hf as (H0 & _). unfold MAX_SPRITES in *. lia.
Qed.

Lemma cell_memset_zero (a : list Z) (n x : Z) :
  0 <= x < n -> cell (memset a 0 n) x = 0.
Proof.
  intros Hx. unfold cell, memset.
  rewrite lookup_app_l by (rewrite length_replicate; lia).
  rewrite lookup_replicate_2 by lia. reflexivity.
Qed.

Lemma testbit5_lor_index (st i : Z) :
  0 <= i < MAX_SPRITES ->
  Z.testbit (u8 (Z.lor st (Z.lor STATUS_5S i))) 5 = Z.testbit st 5.
Proof.
  intros Hi. rewrite testbit_u8 by lia. rewrite !Z.lor_spec.
  rewrite (testbit_beyond 5 i 5) by (unfold MAX_SPRITES in Hi; lia).
  change (Z.testbit STATUS_5S 5) with false.
  rewrite !orb_false_r. reflexivity.
Qed.

(** Where the occupancy marks and the collision flag of one sprite's
    column loop come from. *)
Lemma spriteColumns_col_origin (t0 : VrEmuTms9918a) (c off hPos : Z)
    (n : nat) :
  forall (k st : Z) (rb px : list Z),
  0 <= k ->
  off + 16 < VRAM_SIZE ->
  (Z.to_nat TMS9918A_PIXELS_X <= length rb)%nat ->
  exists st' rb' px',
    spriteColumns beyond n c off (hPos + k) k (patternIndex t0 k mod 8)
                  (patternByteAt beyond t0 off k) (touch st rb t0) px
    = (touch st' rb' t0, px')
    /\ (forall x, 0 <= x < TMS9918A_PIXELS_X ->
          cell rb' x <> 0 ->
          cell rb x <> 0
          \/ (k <= x - hPos < k + Z.of_nat n
              /\ patternBitAt beyond t0 off (x - hPos) = true))
    /\ (Z.testbit st' 5 = true ->
        Z.testbit st 5 = true
        \/ exists x, 0 <= x < TMS9918A_PIXELS_X
             /\ k <= x - hPos < k + Z.of_nat n
             /\ patternBitAt beyond t0 off (x - hPos) = true
             /\ cell rb x <> 0).
Proof.
  induction n as [| n IH]; intros k st rb px Hk Hoff Hrb.
  - exists st, rb, px. cbn [spriteColumns].
    repeat split; auto.
  - cbn [spriteColumns].
    destruct (Z.leb_spec TMS9918A_PIXELS_X (hPos + k)) as [Hout | Hin].
    { exists st, rb, px. repeat split; auto. }
    fold (patternBitAt beyond t0 off k).
    destruct ((0 <=? hPos + k) && patternBitAt beyond t0 off k) eqn:Hdraw.
    + apply andb_true_iff in Hdraw as [Hpos Hbit].
      apply Z.leb_le in Hpos.
      unfold spriteColumn.
      cbn [rowSpriteBits touch set_rowSpriteBits set_status status].
      set (st1 := if nonzero (cell rb (hPos + k))
                  then u8 (Z.lor st STATUS_COL) else st).
      set (px1 := if negb (c =? TMS_TRANSPARENT)
                  then store px (hPos + k) c else px).
      replace (if nonzero (cell rb (hPos + k))
               then set_status (u8 (Z.lor st STATUS_COL)) (touch st rb t0)
               else touch st rb t0)
        with (touch st1 rb t0)
        by (unfold st1; destruct (nonzero _); reflexivity).
      change (set_rowSpriteBits
                (store (rowSpriteBits (touch st1 rb t0)) (hPos + k) 1)
                                (touch st1 rb t0))
        with (touch st1 (store rb (hPos + k) 1) t0).
      change (tmsSpriteMag (touch st1 (store rb (hPos + k) 1) t0))
        with (tmsSpriteMag t0).
      rewrite (vramAt_touch beyond st1 (store rb (hPos + k) 1) t0 (off + 16)
                 Hoff).
      rewrite (advance_pattern beyond t0 off k Hk).
      replace (hPos + k + 1) with (hPos + (k + 1)) by lia.
      destruct (IH (k + 1) st1 (store rb (hPos + k) 1) px1 ltac:(lia) Hoff
                   ltac:(rewrite length_store; exact Hrb))
        as (st' & rb' & px' & Hrun & Hmarks & Hcol).
      exists st', rb', px'. rewrite Hrun.
      split; [reflexivity |]. split.
      * intros x Hx Hnz.
        destruct (Hmarks x Hx Hnz) as [Hold | [Hr Hb]];
          [| right; split; [lia | exact Hb]].
        destruct (Z.eq_dec (hPos + k) x) as [<- | Hne].
        -- right. replace (hPos + k - hPos) with k by lia.
           split; [lia | exact Hbit].
        -- left. rewrite cell_store_ne in Hold by lia. exact Hold.
      * intros H5. destruct (Hcol H5) as [H1 | (x & Hx & Hr & Hb & Hnz)].
        -- unfold st1 in H1. unfold nonzero in H1.
           destruct (Z.eqb_spec (cell rb (hPos + k)) 0) as [E | Hnz];
             cbn [negb] in H1; [left; exact H1 |].
           right. exists (hPos + k).
           replace (hPos + k - hPos) with k by lia.
           repeat split; try lia; assumption.
        -- right. exists x. rewrite cell_store_ne in Hnz by lia.
           repeat split; try lia; assumption.
    + change (tmsSpriteMag (touch st rb t0)) with (tmsSpriteMag t0).
      rewrite (vramAt_touch beyond st rb t0 (off + 16) Hoff).
      rewrite (advance_pattern beyond t0 off k Hk).
      replace (hPos + k + 1) with (hPos + (k + 1)) by lia.
      destruct (IH (k + 1) st rb px ltac:(lia) Hoff Hrb)
        as (st' & rb' & px' & Hrun & Hmarks & Hcol).
      exists st', rb', px'. rewrite Hrun.
      split; [reflexivity |]. split.
      * intros x Hx Hnz.
        destruct (Hmarks x Hx Hnz) as [Hold | [Hr Hb]];
          [left; exact Hold | right; split; [lia | exact Hb]].
      * intros H5. destruct (Hcol H5) as [H1 | (x & Hx & Hr & Hb & Hnz)];
          [left; exact H1 |].
        right. exists x. repeat split; try lia; assumption.
Qed.

Lemma slotBitAt_of_column (t : VrEmuTms9918a) (y i x : Z) :
  0 <= x - slotHPos beyond t i < 0 + Z.of_nat (Z.to_nat (spriteSizePx t)) ->
  patternBitAt beyond t (slotPatternOffset beyond t y i)
    (x - slotHPos beyond t i) = true ->
  slotBitAt beyond t y i x = true.
Proof.
  intros Hr Hb. unfold slotBitAt. cbv zeta. rewrite Hb.
  pose proof (spriteSizePx_pos t) as Hsz.
  rewrite Z2Nat.id in Hr by lia.
  replace (0 <=? x - slotHPos beyond t i) with true
    by (symmetry; apply Z.leb_le; lia).
  replace (x - slotHPos beyond t i <? spriteSizePx t) with true
    by (symmetry; apply Z.ltb_lt; lia).
  reflexivity.
Qed.

(** Where the collision flag of the slot loop comes from: [M] holds of
    every column marked on entry. *)
Lemma spriteSlots_col_origin (t0 : VrEmuTms9918a) (y : Z) (n : nat) :
  forall (i shown st : Z) (rb px : list Z) (M : Z -> Prop),
  0 <= i -> i + Z.of_nat n <= MAX_SPRITES ->
  0 <= shown ->
  (0 < shown -> (Z.to_nat TMS9918A_PIXELS_X <= length rb)%nat) ->
  (forall j, j < i + Z.of_nat n ->
             drawnFrom beyond t0 y i shown j ->
             slotInside beyond t0 y j = true) ->
  (0 < shown -> forall x, 0 <= x < TMS9918A_PIXELS_X ->
                          cell rb x <> 0 -> M x) ->
  Z.testbit
    (status (fst (spriteSlots beyond n y (spriteSizePx t0)
                    (tmsSpriteAttrTableAddr t0)
                    (tmsSpritePatternTableAddr t0)
                    i shown (touch st rb t0) px))) 5 = true ->
  Z.testbit st 5 = true
  \/ exists x j,
       0 <= x < TMS9918A_PIXELS_X
       /\ j < i + Z.of_nat n
       /\ drawnFrom beyond t0 y i shown j
       /\ slotBitAt beyond t0 y j x = true
       /\ ((0 < shown /\ M x)
           \/ exists j', i <= j' < j
                /\ drawnFrom beyond t0 y i shown j'
                /\ slotBitAt beyond t0 y j' x = true).
Proof.
  induction n as [| n IH];
    intros i shown st rb px M Hi Hn Hshown Hrb Hins HM H5.
  { left. exact H5. }
  cbn [spriteSlots] in H5. rewrite spriteSlot_eq in H5 by lia.
  destruct (slotEnds beyond t0 i) eqn:He.
  { left. cbn [fst status touch set_rowSpriteBits set_status] in H5.
    destruct (Z.land st STATUS_5S =? 0); [| exact H5].
    rewrite testbit_u8, Z.lor_spec in H5 by lia.
    rewrite (testbit_beyond 5 i 5) in H5
      by (unfold MAX_SPRITES in Hn; lia).
    rewrite orb_false_r in H5. exact H5. }
  destruct (slotOnLine beyond t0 y i) eqn:Hon; cbn [negb] in H5.
  2:{ assert (Hcons : forall j0, drawnFrom beyond t0 y (i + 1) shown j0 ->
                                 drawnFrom beyond t0 y i shown j0).
      { intros j0 Hd0. apply drawnFrom_cons; [exact He | destruct Hd0; lia |].
        rewrite Hon, Z.add_0_r. exact Hd0. }
      destruct (IH (i + 1) shown st rb px M ltac:(lia) ltac:(lia) Hshown
                  Hrb
                  ltac:(intros j0 Hj0 Hd0; apply Hins;
                        [lia | apply Hcons; exact Hd0]) HM H5)
        as [Hl | (x & j & Hx & Hj & Hd & Hb & Hfrom)]; [left; exact Hl |].
      right. exists x, j. split; [exact Hx |]. split; [lia |].
      split; [apply Hcons; exact Hd |]. split; [exact Hb |].
      destruct Hfrom as [HMx | (j' & Hj' & Hd' & Hb')]; [left; exact HMx |].
      right. exists j'. split; [lia |]. split; [apply Hcons; exact Hd' |].
      exact Hb'. }
  cbv zeta in H5.
  destruct (Z.ltb_spec MAX_SCANLINE_SPRITES (shown + 1)) as [Hfull | Hroom].
  { left. cbn [fst status touch set_rowSpriteBits set_status] in H5.
    destruct (Z.land st STATUS_5S =? 0); [| exact H5].
    rewrite testbit5_lor_index in H5 by lia. exact H5. }
  set (rb1 := if shown =? 0 then memset rb 0 TMS9918A_PIXELS_X else rb) in *.
  assert (Hrb1 : (Z.to_nat TMS9918A_PIXELS_X <= length rb1)%nat).
  { unfold rb1. destruct (Z.eqb_spec shown 0) as [_ | Hnz].
    - apply memset_long.
    - apply Hrb. lia. }
  assert (HM1 : forall x, 0 <= x < TMS9918A_PIXELS_X ->
                          cell rb1 x <> 0 -> 0 < shown /\ M x).
  { intros x Hx Hnz. unfold rb1 in Hnz.
    destruct (Z.eqb_spec shown 0) as [_ | Hs].
    - rewrite cell_memset_zero in Hnz by exact Hx. contradiction.
    - split; [lia |]. apply HM; [lia | exact Hx | exact Hnz]. }
  assert (Hself : drawnFrom beyond t0 y i shown i)
    by (apply drawnFrom_self; [exact He | exact Hon | lia]).
  assert (Hcons : forall j0, drawnFrom beyond t0 y (i + 1) (shown + 1) j0 ->
                             drawnFrom beyond t0 y i shown j0).
  { intros j0 Hd0. apply drawnFrom_cons; [exact He | destruct Hd0; lia |].
    rewrite Hon. exact Hd0. }
  assert (Hoff : slotPatternOffset beyond t0 y i + 16 < VRAM_SIZE).
  { apply Z.ltb_lt. apply (Hins i); [lia | exact Hself]. }
  destruct (pattern_start beyond t0 (slotPatternOffset beyond t0 y i))
    as [Hp0 Hb0].
  destruct (spriteColumns_col_origin t0 (slotColor beyond t0 i)
              (slotPatternOffset beyond t0 y i) (slotHPos beyond t0 i)
              (Z.to_nat (spriteSizePx t0)) 0 st rb1 px ltac:(lia) Hoff Hrb1)
    as (st1 & rb2 & px1 & Hrun1 & Hmarks & Hcol).
  destruct (spriteColumns_run beyond t0 (slotColor beyond t0 i)
              (slotPatternOffset beyond t0 y i) (slotHPos beyond t0 i)
              (Z.to_nat (spriteSizePx t0)) 0 st rb1 px ltac:(lia) Hoff Hrb1)
    as (st1' & rb2' & px1' & Hrun1' & Hlen1 & _).
  rewrite Hrun1 in Hrun1'. injection Hrun1' as <- <- <-.
  rewrite Hp0, Hb0, Z.add_0_r in Hrun1.
  rewrite (vramAt_touch beyond st rb1 t0) in H5 by lia.
  rewrite Hrun1 in H5.
  destruct (IH (i + 1) (shown + 1) st1 rb2 px1
              (fun x => (0 < shown /\ M x) \/ slotBitAt beyond t0 y i x = true)
              ltac:(lia) ltac:(lia) ltac:(lia)
              ltac:(intros _; rewrite Hlen1; exact Hrb1)
              ltac:(intros j0 Hj0 Hd0; apply Hins;
                    [lia | apply Hcons; exact Hd0]))
    as [Hl | (x & j & Hx & Hj & Hd & Hb & Hfrom)].
  - intros _ x Hx Hnz.
    destruct (Hmarks x Hx Hnz) as [Hold | [Hr Hb]].
    + left. apply HM1; assumption.
    + right. apply slotBitAt_of_column; assumption.
  - exact H5.
  - destruct (Hcol Hl) as [Hst | (x & Hx & Hr & Hb & Hnz)]; [left; exact Hst |].
    right. exists x, i. split; [exact Hx |]. split; [lia |].
    split; [exact Hself |].
    split; [apply slotBitAt_of_column; assumption |].
    left. apply HM1; assumption.
  - right. exists x, j. split; [exact Hx |]. split; [lia |].
    split; [apply Hcons; exact Hd |]. split; [exact Hb |].
    destruct Hfrom as [[_ [HMx | Hbi]] | (j' & Hj' & Hd' & Hb')].
    + left. exact HMx.
    + right. exists i. split; [destruct Hd; lia |].
      split; [exact Hself | exact Hbi].
    + right. exists j'. split; [lia |]. split; [apply Hcons; exact Hd' |].
      exact Hb'.
Qed.

(** X23: when the pattern bytes of the rendered slots lie inside the
    array, the sprite pass sets COL only for an overlap: if bit 5 is
    set after the pass, it was set on entry (and the line is not line 0)
    or two distinct rendered slots have a set pattern bit at one
    column. *)
Theorem col_only_on_overlap (t : VrEmuTms9918a) (y : Z) (pixels : list Z) :
  (forall j, slotDrawn beyond t y j -> slotInside beyond t y j = true) ->
  Z.testbit
    (status (fst (vrEmuTms9918aOutputSprites beyond t y pixels))) 5 = true ->
  Z.testbit (if y =? 0 then 0 else status t) 5 = true
  \/ exists x j1 j2,
       0 <= x < TMS9918A_PIXELS_X /\ j1 < j2
       /\ slotDrawn beyond t y j1 /\ slotDrawn beyond t y j2
       /\ slotBitAt beyond t y j1 x = true
       /\ slotBitAt beyond t y j2 x = true.
Proof.
  rewrite outputSprites_run. intros Hins H5.
  assert (Hins' : forall j, j < 0 + Z.of_nat (Z.to_nat MAX_SPRITES) ->
                            drawnFrom beyond t y 0 0 j ->
                            slotInside beyond t y j = true).
  { intros j Hj Hd. apply Hins. split; [| exact Hd].
    destruct Hd as (H0 & _). unfold MAX_SPRITES in *. lia. }
  destruct (spriteSlots_col_origin t y (Z.to_nat MAX_SPRITES) 0 0 _ _ _
              (fun _ => False)
              ltac:(lia) ltac:(unfold MAX_SPRITES; lia) ltac:(lia)
              ltac:(lia) Hins' ltac:(lia) H5)
    as [Hl | (x & j & Hx & Hj & Hd & Hb & [[Hs _] | (j' & Hj' & Hd' & Hb')])];
    [left; exact Hl | lia |].
  right. exists x, j', j. split; [exact Hx |]. split; [lia |].
  assert (H0 : 0 <= j') by lia.
  unfold slotDrawn, MAX_SPRITES in *.
  split; [split; [lia | exact Hd'] |].
  split; [split; [lia | exact Hd] |].
  split; [exact Hb' | exact Hb].
Qed.

End Origins.

(** ** Worked traces for the further properties *)

Lemma allBytes_spec (l : list Z) : allBytes l = true -> Forall is_u8 l.
Proof.
  unfold allBytes. intros H. apply Forall_forall. intros z Hz.
  rewrite forallb_forall in H. apply list_elem_of_In in Hz.
  specialize (H z Hz). apply andb_true_iff in H as [H0 H1].
  apply Z.leb_le in H0. apply Z.ltb_lt in H1. unfold is_u8. lia.
Qed.

Lemma noEnd_spec (beyond : VrEmuTms9918a -> Z -> Z) (t : VrEmuTms9918a)
    (n : nat) :
  forall i k, noEnd beyond n t i = true -> i <= k < i + Z.of_nat n ->
              slotEnds beyond t k = false.
Proof.
  induction n as [| n IH]; intros i k Hne Hk; [lia |].
  cbn [noEnd] in Hne. apply andb_true_iff in Hne as [He Hne].
  apply negb_true_iff in He.
  destruct (Z.eq_dec k i) as [-> | Hki]; [exact He |].
  apply (IH (i + 1)); [exact Hne | lia].
Qed.

Lemma mode_cache_coherent_witness :
  let t' :=
    run nothingBeyond (vrEmuTms9918aReset raw)
        [OpWriteAddr 0x02; OpWriteAddr 0x80; OpWriteData 7;
         OpScanLine 3 blankLine; OpReadStatus] in
  mode t' = tmsMode t'.
Proof.
  apply (mode_cache_coherent nothingBeyond (vrEmuTms9918aReset raw)).
  - reflexivity.
  - repeat constructor.
Defined.

Lemma scanline_keeps_flags_witness :
  Z.testbit
    (status (fst (vrEmuTms9918aScanLine nothingBeyond
                    (set_status 0x45 fiveInARow) 10 blankLine))) 6
  = true.
Proof.
  apply (scanline_keeps_flags nothingBeyond (set_status 0x45 fiveInARow) 10
           blankLine 6).
  - lia.
  - lia.
  - reflexivity.
Defined.

Lemma scanline_int_flag_witness :
  Z.testbit
    (status (fst (vrEmuTms9918aScanLine nothingBeyond fiveInARow 191
                    blankLine))) 7
  = true.
Proof.
  apply (proj1 (scanline_int_flag nothingBeyond fiveInARow 191 blankLine)).
  - vm_compute. reflexivity.
  - reflexivity.
Defined.

Lemma sprite_on_line_range_witness :
  spriteSlot nothingBeyond 10 (spriteSizePx twoStacked)
             (tmsSpriteAttrTableAddr twoStacked)
             (tmsSpritePatternTableAddr twoStacked) 0 0 twoStacked blankLine
  = SlotNext 0 twoStacked blankLine.
Proof.
  apply (proj2 (sprite_on_line_range nothingBeyond twoStacked 10 0)).
  - vm_compute. reflexivity.
  - intros [H _]. revert H. vm_compute. intros H. apply H. reflexivity.
Defined.

Lemma latch_shares_address_pointer_witness :
  vrEmuTms9918aRegValue
    (vrEmuTms9918aWriteAddr
       (writeAll (vrEmuTms9918aWriteAddr (vrEmuTms9918aReset raw) 0x10)
                 [1; 2; 3]) 0x87) 7
  = 0x13.
Proof.
  assert (H1 : is_u8 0x10) by (unfold is_u8; lia).
  assert (H2 : is_u8 0x87) by (unfold is_u8; lia).
  destruct (latch_shares_address_pointer (vrEmuTms9918aReset raw) 0x10 0x87
              [1; 2; 3] H1 H2 eq_refl eq_refl) as (_ & _ & H).
  exact (H eq_refl).
Defined.

Lemma vram_last_write_wins_witness :
  vrEmuTms9918aVramValue (writeAll (vrEmuTms9918aReset raw) [5; 6; 7]) 1 = 6.
Proof.
  apply (vram_last_write_wins [5; 6; 7] (vrEmuTms9918aReset raw) 1 6).
  - reflexivity.
  - reflexivity.
  - intros j Hj. cbn [length] in Hj.
    assert (Ej : j = 2%nat) by lia. subst j. vm_compute. discriminate.
Defined.

Lemma scanline_pixels_are_colors_witness :
  let out :=
    snd (vrEmuTms9918aScanLine nothingBeyond fiveInARow 10 blankLine) in
  length out = Z.to_nat TMS9918A_PIXELS_X
  /\ Forall (fun c => 0 <= c <= 15) out.
Proof.
  apply (scanline_pixels_are_colors nothingBeyond fiveInARow 10 blankLine).
  - reflexivity.
  - apply allBytes_spec. vm_compute. reflexivity.
  - assert (E : reg fiveInARow TMS_REG_7 = 0) by (vm_compute; reflexivity).
    rewrite E. unfold is_u8. lia.
Defined.

Lemma scanline_no_transparent_pixel_witness :
  Forall (fun c => 1 <= c <= 15)
         (snd (vrEmuTms9918aScanLine nothingBeyond fiveOnBlue 10 blankLine)).
Proof.
  apply (scanline_no_transparent_pixel nothingBeyond fiveOnBlue 10 blankLine).
  - reflexivity.
  - apply allBytes_spec. vm_compute. reflexivity.
  - assert (E : reg fiveOnBlue TMS_REG_7 = 0xF4) by (vm_compute; reflexivity).
    rewrite E. unfold is_u8. lia.
  - intros _. vm_compute. discriminate.
Defined.

Lemma scanline_outside_raster_is_backdrop_witness :
  vrEmuTms9918aScanLine nothingBeyond fiveOnBlue 200 blankLine
  = (fiveOnBlue, replicate (Z.to_nat TMS9918A_PIXELS_X) 4).
Proof.
  apply (scanline_outside_raster_is_backdrop nothingBeyond fiveOnBlue 200
           blankLine).
  - reflexivity.
  - vm_compute. reflexivity.
  - unfold TMS9918A_PIXELS_Y. lia.
Defined.

Lemma sprite_pass_keeps_unpainted_pixels_witness :
  slotDrawn nothingBeyond oneTransparent 65 0
  /\ slotBitAt nothingBeyond oneTransparent 65 0 64 = true
  /\ cell (snd (vrEmuTms9918aOutputSprites nothingBeyond oneTransparent 65
                  (replicate (Z.to_nat TMS9918A_PIXELS_X) 9))) 64
     = 9.
Proof.
  split; [| split].
  - split; [unfold MAX_SPRITES; lia |].
    unfold drawnFrom, MAX_SCANLINE_SPRITES.
    split; [lia |]. split; [vm_compute; reflexivity |].
    split; vm_compute; reflexivity.
  - vm_compute. reflexivity.
  - apply (sprite_pass_keeps_unpainted_pixels nothingBeyond oneTransparent
             65 64 (replicate (Z.to_nat TMS9918A_PIXELS_X) 9)).
    + reflexivity.
    + unfold TMS9918A_PIXELS_X. lia.
    + apply drawn_slots_inside.
      * apply allBytes_spec. vm_compute. reflexivity.
      * vm_compute. discriminate.
    + intros j [Hj (_ & Hne & _)] _.
      destruct (Z.eq_dec j 0) as [-> | Hne0]; [vm_compute; reflexivity |].
      exfalso.
      assert (He : slotEnds nothingBeyond oneTransparent 1 = false).
      { apply (noEnd_spec nothingBeyond oneTransparent _ 0 1 Hne). lia. }
      vm_compute in He. discriminate He.
Defined.

Lemma sprite_pass_topmost_color_witness :
  cell (snd (vrEmuTms9918aOutputSprites nothingBeyond twoStacked 65
               blankLine)) 64
  = 5.
Proof.
  apply (sprite_pass_topmost_color nothingBeyond twoStacked 65 64 0
           blankLine).
  - reflexivity.
  - unfold TMS9918A_PIXELS_X. lia.
  - apply drawn_slots_inside.
    + apply allBytes_spec. vm_compute. reflexivity.
    + vm_compute. discriminate.
  - split; [unfold MAX_SPRITES; lia |].
    unfold drawnFrom, MAX_SCANLINE_SPRITES.
    split; [lia |]. split; [vm_compute; reflexivity |].
    split; vm_compute; reflexivity.
  - vm_compute. reflexivity.
  - vm_compute. discriminate.
  - intros j' Hj' [Hr (_ & Hne & _)] _.
    destruct (Z.eq_dec j' 1) as [-> | Hne1]; [vm_compute; reflexivity |].
    exfalso.
    assert (He : slotEnds nothingBeyond twoStacked 2 = false).
    { apply (noEnd_spec nothingBeyond twoStacked _ 0 2 Hne). lia. }
    vm_compute in He. discriminate He.
Defined.

Lemma graphicsI_line_is_map_witness :
  vrEmuTms9918aGraphicsIScanLine nothingBeyond fiveInARow 10 blankLine
  = vrEmuTms9918aOutputSprites nothingBeyond fiveInARow 10
      (lineOf (graphicsIPixel nothingBeyond fiveInARow 10)).
Proof.
  apply (graphicsI_line_is_map nothingBeyond fiveInARow 10 blankLine).
  reflexivity.
Defined.

Lemma graphicsII_line_is_map_witness :
  vrEmuTms9918aGraphicsIIScanLine nothingBeyond fiveInARow 10 blankLine
  = vrEmuTms9918aOutputSprites nothingBeyond fiveInARow 10
      (lineOf (graphicsIIPixel nothingBeyond fiveInARow 10)).
Proof.
  apply (graphicsII_line_is_map nothingBeyond fiveInARow 10 blankLine).
  reflexivity.
Defined.

Lemma multicolor_line_is_map_witness :
  vrEmuTms9918aMulticolorScanLine nothingBeyond fiveInARow 10 blankLine
  = vrEmuTms9918aOutputSprites nothingBeyond fiveInARow 10
      (lineOf (multicolorPixel nothingBeyond fiveInARow 10)).
Proof.
  apply (multicolor_line_is_map nothingBeyond fiveInARow 10 blankLine).
  reflexivity.
Defined.

Lemma text_line_is_map_witness :
  vrEmuTms9918aTextScanLine nothingBeyond textMode 10 blankLine
  = (textMode, lineOf (textPixel nothingBeyond textMode 10)).
Proof.
  apply (text_line_is_map nothingBeyond textMode 10 blankLine).
  reflexivity.
Defined.

Lemma scanline_reads_inside_vram_witness :
  vrEmuTms9918aScanLine nothingBeyond fiveInARow 10 blankLine
  = vrEmuTms9918aScanLine otherBeyond fiveInARow 10 blankLine.
Proof.
  apply (scanline_reads_inside_vram nothingBeyond otherBeyond fiveInARow 10
           blankLine).
  - reflexivity.
  - apply allBytes_spec. vm_compute. reflexivity.
  - assert (E : reg fiveInARow TMS_REG_3 = 0) by (vm_compute; reflexivity).
    rewrite E. unfold is_u8. lia.
  - lia.
  - intros _. vm_compute. discriminate.
Defined.

Lemma sprite_limit_sets_5s_witness :
  Z.testbit
    (status (fst (vrEmuTms9918aOutputSprites nothingBeyond fiveInARow 10
                    blankLine))) 6
  = true.
Proof.
  assert (Hf : slotFifth nothingBeyond fiveInARow 10 4).
  { split; [unfold MAX_SPRITES; lia |].
    unfold fifthFrom. split; [lia |].
    repeat split; vm_compute; reflexivity. }
  exact (proj1 (proj2 (sprite_limit_sets_5s nothingBeyond fiveInARow 10 4
                         blankLine Hf))).
Defined.

Lemma five_s_only_on_fifth_sprite_witness :
  Z.testbit
    (status (fst (vrEmuTms9918aOutputSprites nothingBeyond fiveInARow 10
                    blankLine))) 6
  = true
  /\ (Z.testbit (if 10 =? 0 then 0 else status fiveInARow) 6 = true
      \/ exists j, slotFifth nothingBeyond fiveInARow 10 j).
Proof.
  split; [vm_compute; reflexivity |].
  apply (five_s_only_on_fifth_sprite nothingBeyond fiveInARow 10 blankLine).
  vm_compute. reflexivity.
Defined.

Lemma col_only_on_overlap_witness :
  Z.testbit
    (status (fst (vrEmuTms9918aOutputSprites nothingBeyond twoStacked 65
                    blankLine))) 5
  = true
  /\ (Z.testbit (if 65 =? 0 then 0 else status twoStacked) 5 = true
      \/ exists x j1 j2,
           0 <= x < TMS9918A_PIXELS_X /\ j1 < j2
           /\ slotDrawn nothingBeyond twoStacked 65 j1
           /\ slotDrawn nothingBeyond twoStacked 65 j2
           /\ slotBitAt nothingBeyond twoStacked 65 j1 x = true
           /\ slotBitAt nothingBeyond twoStacked 65 j2 x = true).
Proof.
  split; [vm_compute; reflexivity |].
  apply (col_only_on_overlap nothingBeyond twoStacked 65 blankLine).
  - apply drawn_slots_inside.
    + apply allBytes_spec. vm_compute. reflexivity.
    + vm_compute. discriminate.
  - vm_compute. reflexivity.
Defined.

Lemma read_data_sequence_witness :
  exists b,
    fst (readAll 3 fiveInARow) !! 1%nat = Some b
    /\ b = vrEmuTms9918aVramValue fiveInARow
             (currentAddress fiveInARow + Z.of_nat 1).
Proof.
  eexists. split; [vm_compute; reflexivity |].
  apply (proj2 (proj2 (proj2 (read_data_sequence 3 fiveInARow)))).
  vm_compute. reflexivity.
Defined.
